(** * bcbiovm.docker.mounts: external data directories mounted into a container

    A shallow embedding of [src/bcbiovm/docker/mounts.py] and the properties
    its specification states about it.

    - Python values are an inductive type [value]; a dict is an association
      list in iteration order, written through [dict_set] the way
      [out[k] = ...] writes a dict.
    - Python exceptions are the [Raise] outcomes of the [result] monad.
    - The host filesystem is a record of what the code observes of it:
      [os.path.exists], [os.path.realpath], [os.getcwd], and what [os.makedirs]
      changes.
    - [posixpath] is the string-level part of [os.path] (join, split, dirname,
      isabs, normpath), transcribed from the Python 2 standard library the
      module was written for.
    - The list object that [abs_file_paths] receives as [base_dirs] lives in a
      heap of list objects, because the function appends to it in place.
    - The locator file that [find_genome_directory] reads is given by its
      lines.

    The development goes on to the commands of
    [src/bcbiovm/client/subcommands/cluster.py], run against a provider that
    is known by the calls made to it, and to the table of
    [src/bcbiovm/client/subcommands/factory.py]. *)

From Stdlib Require Import Ascii.
From stdpp Require Import base option list strings sorting pretty gmap.


(* ================================================================== *)
(** ** Exceptions and results *)

Inductive exn :=
  | KeyError (key : string)
  | TypeError
  | AttributeError
  | OSError.

Inductive result (A : Type) :=
  | Ok (a : A)
  | Raise (e : exn).
Arguments Ok {A} a.
Arguments Raise {A} e.

Global Instance result_ret : MRet result := @Ok.
Global Instance result_bind : MBind result := λ A B f m,
  match m with Ok a => f a | Raise e => Raise e end.
Global Instance result_fmap : FMap result := λ A B f m,
  match m with Ok a => Ok (f a) | Raise e => Raise e end.

Definition is_Ok {A} (r : result A) : Prop := ∃ a, r = Ok a.
Definition is_Raise {A} (r : result A) : Prop := ∃ e, r = Raise e.

(** Code that also reads and writes a state [S] (the heap of list objects, or
    the filesystem); what was written before an exception stays written. *)
Definition state (S A : Type) : Type := S → result A * S.

Global Instance state_ret {S} : MRet (state S) := λ A a s, (Ok a, s).
Global Instance state_bind {S} : MBind (state S) := λ A B f m s,
  match m s with
  | (Ok a, s) => f a s
  | (Raise e, s) => (Raise e, s)
  end.

Definition lift {S A} (r : result A) : state S A := λ s, (r, s).
Definition read_state {S} : state S S := λ s, (Ok s, s).

(** [for x in l: acc = body(acc, x)], stopping at the first exception. *)
Section loops.
Context {M : Type → Type} `{!MRet M, !MBind M}.
Context {A B : Type} (body : A → B → M A).
Fixpoint for_each (l : list B) (acc : A) : M A :=
  match l with
  | [] => mret acc
  | x :: l => acc ← body acc x; for_each l acc
  end.
End loops.

(** [[f(x) for x in l]] *)
Definition list_comp {A B} (f : A → result B) (l : list A) : result (list B) :=
  for_each (λ out x, y ← f x; mret (out ++ [y])) l [].

(* ================================================================== *)
(** ** Python values *)

Local Unset Elimination Schemes.
Inductive value :=
  | VNone
  | VBool (b : bool)
  | VInt (n : Z)
  | VStr (s : string)
  | VList (xs : list value)
  | VTuple (xs : list value)
  | VDict (items : list (string * value)).
Local Set Elimination Schemes.

(** Induction over values, through the lists and dicts they nest in. *)
Section value_ind.
Variable P : value → Prop.
Hypothesis HNone : P VNone.
Hypothesis HBool : ∀ b, P (VBool b).
Hypothesis HInt : ∀ n, P (VInt n).
Hypothesis HStr : ∀ s, P (VStr s).
Hypothesis HList : ∀ xs, Forall P xs → P (VList xs).
Hypothesis HTuple : ∀ xs, Forall P xs → P (VTuple xs).
Hypothesis HDict : ∀ items, Forall (λ kv, P kv.2) items → P (VDict items).

Fixpoint value_ind (v : value) : P v :=
  match v with
  | VNone => HNone
  | VBool b => HBool b
  | VInt n => HInt n
  | VStr s => HStr s
  | VList xs =>
      HList xs ((fix go xs : Forall P xs :=
                   match xs with
                   | [] => List.Forall_nil _
                   | x :: xs => @List.Forall_cons _ P x xs (value_ind x) (go xs)
                   end) xs)
  | VTuple xs =>
      HTuple xs ((fix go xs : Forall P xs :=
                    match xs with
                    | [] => List.Forall_nil _
                    | x :: xs => @List.Forall_cons _ P x xs (value_ind x) (go xs)
                    end) xs)
  | VDict items =>
      HDict items ((fix go items : Forall (λ kv, P kv.2) items :=
                      match items with
                      | [] => List.Forall_nil _
                      | kv :: items =>
                          @List.Forall_cons _ (λ kv, P kv.2) kv items
                            (value_ind kv.2) (go items)
                      end) items)
  end.
End value_ind.

(** A dict with string keys, in iteration order. *)
Definition dict (V : Type) := list (string * V).

Fixpoint dict_get {V} (k : string) (d : dict V) : option V :=
  match d with
  | [] => None
  | (k', v) :: d => if decide (k = k') then Some v else dict_get k d
  end.

(** [d[k] = v]: an existing key keeps its place, a new key goes last. *)
Fixpoint dict_set {V} (k : string) (v : V) (d : dict V) : dict V :=
  match d with
  | [] => [(k, v)]
  | (k', v') :: d =>
      if decide (k = k') then (k, v) :: d else (k', v') :: dict_set k v d
  end.

Definition dict_keys {V} (d : dict V) : list string := d.*1.

(** Truth value of [v] in a condition. *)
Definition truthy (v : value) : bool :=
  match v with
  | VNone => false
  | VBool b => b
  | VInt n => negb (n =? 0)%Z
  | VStr s => negb (bool_decide (s = ""))
  | VList xs | VTuple xs => negb (bool_decide (xs = []))
  | VDict items => negb (bool_decide (items = []))
  end.

(** [v[k]] for a string key [k]. *)
Definition getitem (v : value) (k : string) : result value :=
  match v with
  | VDict items =>
      match dict_get k items with
      | Some x => Ok x
      | None => Raise (KeyError k)
      end
  | _ => Raise TypeError
  end.

(** [v[k] = x] for a string key [k]. *)
Definition setitem (v : value) (k : string) (x : value) : result value :=
  match v with
  | VDict items => Ok (VDict (dict_set k x items))
  | _ => Raise TypeError
  end.

(** The elements [for d in v] goes through. *)
Definition iter_value (v : value) : result (list value) :=
  match v with
  | VList xs | VTuple xs => Ok xs
  | VDict items => Ok (VStr <$> dict_keys items)
  | VStr s => Ok ((λ c, VStr (String c "")) <$> String.list_ascii_of_string s)
  | _ => Raise TypeError
  end.

(** [None] or a string, as a value. *)
Definition value_of_option (o : option string) : value :=
  match o with
  | Some s => VStr s
  | None => VNone
  end.

(* ================================================================== *)
(** ** posixpath *)

Module posixpath.

Definition sep : ascii := "/"%char.

Definition startswith_sep (s : string) : bool :=
  match s with
  | String c _ => bool_decide (c = sep)
  | EmptyString => false
  end.

Fixpoint endswith_sep (s : string) : bool :=
  match s with
  | EmptyString => false
  | String c EmptyString => bool_decide (c = sep)
  | String _ s => endswith_sep s
  end.

(** [s == '/' * len(s)] *)
Fixpoint all_sep (s : string) : bool :=
  match s with
  | EmptyString => true
  | String c s => bool_decide (c = sep) && all_sep s
  end.

(** [s.rstrip('/')] *)
Fixpoint rstrip_sep (s : string) : string :=
  match s with
  | EmptyString => ""
  | String c s =>
      match rstrip_sep s with
      | EmptyString => if bool_decide (c = sep) then "" else String c ""
      | s' => String c s'
      end
  end.

(** [(p[:i], p[i:])] for [i = p.rfind('/') + 1] *)
Fixpoint cut (p : string) : string * string :=
  match p with
  | EmptyString => ("", "")
  | String c p =>
      match cut p with
      | (EmptyString, tail) =>
          if bool_decide (c = sep) then (String c "", tail)
          else ("", String c tail)
      | (head, tail) => (String c head, tail)
      end
  end.

Definition isabs (s : string) : bool := startswith_sep s.

Definition join (a b : string) : string :=
  if startswith_sep b then b
  else if bool_decide (a = "") || endswith_sep a then a +:+ b
  else a +:+ "/" +:+ b.

Definition split (p : string) : string * string :=
  let '(head, tail) := cut p in
  let head :=
    if negb (bool_decide (head = "")) && negb (all_sep head)
    then rstrip_sep head else head in
  (head, tail).

Definition dirname (p : string) : string := (split p).1.

(** [path.split('/')] *)
Fixpoint split_on_sep (s : string) : list string :=
  match s with
  | EmptyString => [""]
  | String c s =>
      if bool_decide (c = sep) then "" :: split_on_sep s
      else match split_on_sep s with
           | comp :: comps => String c comp :: comps
           | [] => [String c ""]
           end
  end.

(** ['/'.join(comps)] *)
Fixpoint join_on_sep (comps : list string) : string :=
  match comps with
  | [] => ""
  | [comp] => comp
  | comp :: comps => comp +:+ "/" +:+ join_on_sep comps
  end.

Definition normpath_step (initial_slashes : nat)
    (new_comps : list string) (comp : string) : list string :=
  if bool_decide (comp = "") || bool_decide (comp = ".") then new_comps
  else if negb (bool_decide (comp = ".."))
          || (bool_decide (initial_slashes = 0)
              && bool_decide (new_comps = []))
          || bool_decide (last new_comps = Some "..")
  then new_comps ++ [comp]
  else removelast new_comps.

Definition normpath (path : string) : string :=
  if bool_decide (path = "") then "." else
  let initial_slashes :=
    match path with
    | String "/" (String "/" (String "/" _)) => 1
    | String "/" (String "/" _) => 2
    | String "/" _ => 1
    | _ => 0
    end in
  let comps := foldl (normpath_step initial_slashes) [] (split_on_sep path) in
  let path := join_on_sep comps in
  let path := String.concat "" (replicate initial_slashes "/") +:+ path in
  if bool_decide (path = "") then "." else path.

End posixpath.

(* ================================================================== *)
(** ** The host filesystem *)

Record filesystem := Filesystem {
  fs_exists : string → bool;       (* os.path.exists *)
  fs_realpath : string → string;   (* os.path.realpath *)
  fs_cwd : string;                 (* os.getcwd() *)
  fs_refuses : string → bool;      (* mkdir is denied: permissions, exhaustion *)
}.

(** [q] is a proper ancestor directory of [p]. *)
Definition ancestor_of (q p : string) : bool :=
  negb (bool_decide (q = "")) &&
  (String.prefix (q +:+ "/") p
   || (bool_decide (q = "/") && posixpath.isabs p
       && negb (bool_decide (p = "/")))).

(** [os.makedirs(name)]: creates the leaf directory and every missing
    intermediate one; raises [OSError] when the leaf is there already or the
    system refuses.  It creates directories only, so [realpath] and the working
    directory stay as they are. *)
Definition os_makedirs (name : string) : state filesystem () := λ fs,
  if fs_exists fs name then (Raise OSError, fs)
  else if fs_refuses fs name then (Raise OSError, fs)
  else (Ok (),
        {| fs_exists := λ p, bool_decide (p = name) || ancestor_of p name
                             || fs_exists fs p;
           fs_realpath := fs_realpath fs;
           fs_cwd := fs_cwd fs;
           fs_refuses := fs_refuses fs |}).

(** [os.path] on a value that need not be a string: the Python 2 functions
    raise on anything else. *)
Definition os_path_exists (fs : filesystem) (v : value) : result bool :=
  match v with
  | VStr s => Ok (fs_exists fs s)
  | _ => Raise TypeError
  end.

Definition os_path_split (v : value) : result (string * string) :=
  match v with
  | VStr s => Ok (posixpath.split s)
  | _ => Raise AttributeError
  end.

Definition os_path_dirname (v : value) : result string :=
  match v with
  | VStr s => Ok (posixpath.dirname s)
  | _ => Raise AttributeError
  end.

Definition os_path_join (a : string) (v : value) : result string :=
  match v with
  | VStr s => Ok (posixpath.join a s)
  | _ => Raise AttributeError
  end.

(** [v[0]] of a non-empty sequence. *)
Definition first (xs : list value) : value := default VNone (head xs).

(* ================================================================== *)
(** ** List objects *)

Abbreviation loc := positive.
Abbreviation heap := (gmap positive (list string)).

Definition new_list (l : list string) : state heap loc := λ h,
  let r := fresh (dom h) in (Ok r, <[r := l]> h).

Definition list_read (r : loc) : state heap (list string) := λ h,
  (Ok (h !!! r), h).

Definition list_append (r : loc) (x : string) : state heap () := λ h,
  (Ok (), <[r := h !!! r ++ [x]]> h).

(* ================================================================== *)
(** ** mounts.py *)

Section mounts.
Variable fs : filesystem.

Fixpoint _normalize_path (x : value) (base_dirs : list string)
    : result (option string) :=
  match base_dirs with
  | [] => Ok None
  | base_dir :: base_dirs =>
      p ← os_path_join base_dir x;
      if fs_exists fs p
      then Ok (Some (posixpath.normpath (fs_realpath fs p)))
      else _normalize_path x base_dirs
  end.

(** One turn of the loop of [abs_file_paths]: the value stored at [out[k]]. *)
Definition abs_file_paths_value (base_dirs ignore_keys : list string)
    (k : string) (v : value) : result value :=
  if negb (bool_decide (k ∈ ignore_keys)) && truthy v then
    match v with
    | VStr _ =>
        p ← _normalize_path v base_dirs;
        if truthy (value_of_option p)
        then value_of_option <$> _normalize_path v base_dirs
        else Ok v
    | VList xs | VTuple xs =>
        p ← _normalize_path (first xs) base_dirs;
        if truthy (value_of_option p)
        then VList <$> list_comp
               (λ x, value_of_option <$> _normalize_path x base_dirs) xs
        else Ok v
    | _ => Ok v
    end
  else Ok v.

(** [base_dirs] is [None] or a reference to the caller's list object;
    [ignore] is the list of ignored keys ([None] is the empty list).  The
    list object is read once after the append: nothing writes to it while
    the loop runs. *)
Definition abs_file_paths (xs : value) (base_dirs : option loc)
    (ignore : list string) : state heap value :=
  match xs with
  | VDict items =>
      base_dirs ← match base_dirs with
                  | Some r =>
                      l ← list_read r;
                      if bool_decide (l = []) then new_list [] else mret r
                  | None => new_list []
                  end;
      list_append base_dirs (fs_cwd fs);;
      dirs ← list_read base_dirs;
      lift (VDict <$> for_each
              (λ out '(k, v),
                 y ← abs_file_paths_value dirs ignore k v;
                 mret (dict_set k y out)) items [])
  | _ => mret xs
  end.

Fixpoint _get_directories (xs : value) : result (list string) :=
  match xs with
  | VDict items =>
      for_each
        (λ out '(k, v),
           match v with
           | VDict _ => ds ← _get_directories v; mret (out ++ ds)
           | VStr s =>
               if truthy v && fs_exists fs s && posixpath.isabs s
               then mret (out ++ [posixpath.dirname s])
               else mret out
           | VList l | VTuple l =>
               if truthy v then
                 e ← os_path_exists fs (first l);
                 if e : bool
                 then ds ← list_comp os_path_dirname l; mret (out ++ ds)
                 else mret out
               else mret out
           | _ => mret out
           end) items []
  | _ => Ok []
  end.

(** [str(os.path.join(mounts[dirname], basename))] for
    [dirname, basename = os.path.split(x)] *)
Definition remap_path (mounts : dict string) (x : value) : result value :=
  '(dirname, basename) ← os_path_split x;
  match dict_get dirname mounts with
  | Some m => Ok (VStr (posixpath.join m basename))
  | None => Raise (KeyError dirname)
  end.

Fixpoint _remap_directories (xs : value) (mounts : dict string)
    : result value :=
  match xs with
  | VDict items =>
      VDict <$> for_each
        (λ out '(k, v),
           match v with
           | VDict _ =>
               y ← _remap_directories v mounts; mret (dict_set k y out)
           | VStr s =>
               if truthy v && fs_exists fs s && posixpath.isabs s
               then y ← remap_path mounts v; mret (dict_set k y out)
               else mret (dict_set k v out)
           | VList l | VTuple l =>
               if truthy v then
                 e ← os_path_exists fs (first l);
                 if e : bool
                 then ready_vs ← list_comp (remap_path mounts) l;
                      mret (dict_set k (VList ready_vs) out)
                 else mret (dict_set k v out)
               else mret (dict_set k v out)
           | _ => mret (dict_set k v out)
           end) items []
  | _ => Ok xs
  end.

(** The command line: [args.fcdir] is [None] or a string. *)
Record arguments := Arguments { fcdir : option string }.

(** [[args.fcdir] if args.fcdir else None], a new list object each time. *)
Definition fcdir_base_dirs (args : arguments) : state heap (option loc) :=
  match fcdir args with
  | Some d => if truthy (VStr d) then r ← new_list [d]; mret (Some r)
              else mret None
  | None => mret None
  end.

Definition top_ignore : list string :=
  ["description"; "analysis"; "resources"; "genome_build"; "lane"].

Definition algorithm_ignore : list string :=
  ["variantcaller"; "realign"; "recalibrate"; "phasing"; "svcaller"].

(** [sorted(set(directories))]: a set iterates in no fixed order, sorting
    fixes it. *)
Definition py_set (l : list string) : list string := remove_dups l.
Definition sorted (l : list string) : list string := merge_sort String.le l.
Definition enumerate {A} (l : list A) : list (nat * A) := imap pair l.

(** Lines 33-35 of [update_config]: the mount mapping. *)
Definition allocate_mounts (input_dir : string) (directories : list string)
    : dict string :=
  foldl (λ mounts '(i, d),
           dict_set d (posixpath.join input_dir (pretty i)) mounts)
        [] (enumerate (sorted (py_set directories))).

(** [["%s:%s" % (k, v) for k, v in mounts.items()]], the items in the order
    the keys were written. *)
Definition mount_specs (mounts : dict string) : list string :=
  (λ '(k, v), k +:+ ":" +:+ v) <$> mounts.

(** Lines 25-31: one sample of [config["details"]], absolutized. *)
Definition absolutize_detail (args : arguments) (d : value)
    : state heap value :=
  base_dirs ← fcdir_base_dirs args;
  d ← abs_file_paths d base_dirs top_ignore;
  algorithm ← lift (getitem d "algorithm");
  base_dirs ← fcdir_base_dirs args;
  algorithm ← abs_file_paths algorithm base_dirs algorithm_ignore;
  lift (setitem d "algorithm" algorithm).

(** Lines 22-32: the first loop, giving [absdetails] and [directories]. *)
Definition absolutize_details (args : arguments) (details : list value)
    : state heap (list value * list string) :=
  for_each
    (λ '(absdetails, directories) d,
       d ← absolutize_detail args d;
       ds ← lift (_get_directories d);
       mret (absdetails ++ [d], directories ++ ds))
    details ([], []).

Definition update_config (args : arguments) (config : value)
    (input_dir : string) : state heap (value * list string) :=
  details ← lift (getitem config "details");
  details ← lift (iter_value details);
  '(absdetails, directories) ← absolutize_details args details;
  let mounts := allocate_mounts input_dir directories in
  remapped ← lift (list_comp (λ d, _remap_directories d mounts) absdetails);
  config ← lift (setitem config "details" (VList remapped));
  mret (config, mount_specs mounts).

End mounts.

(** [prepare_system] writes to the filesystem, which is its state. *)
Definition prepare_system (datadir docker_biodata_dir : string)
    : state filesystem (list string) :=
  for_each (M := state filesystem)
    (λ mounts d,
       fs ← read_state;
       let cur_d := posixpath.normpath
                      (fs_realpath fs (posixpath.join datadir d)) in
       (if negb (fs_exists fs cur_d) then os_makedirs cur_d else mret ());;
       mret (mounts ++ [cur_d +:+ ":" +:+ docker_biodata_dir
                          +:+ "/" +:+ d]))
    ["genomes"; "liftOver"; "gemini_data"; "galaxy"] [].

(* ================================================================== *)
(** ** The functions without the heap

    The heap only carries [base_dirs]; once the list that [abs_file_paths]
    reads is known, the rest of the pipeline is a function of the tree. *)

(** The loop [out = {}; for k, v in items: out[k] = body(k, v)]. *)
Definition dict_for (body : string → value → result value)
    (items out : dict value) : result (dict value) :=
  for_each (λ out '(k, v), y ← body k v; mret (dict_set k y out)) items out.

Section pure.
Variable fs : filesystem.

(** [abs_file_paths] once [base_dirs] holds [dirs] (working directory
    included). *)
Definition abs_file_paths_with (dirs ignore : list string) (xs : value)
    : result value :=
  match xs with
  | VDict items =>
      VDict <$> dict_for (abs_file_paths_value fs dirs ignore) items []
  | _ => Ok xs
  end.

(** The list [base_dirs] holds in both calls of [update_config]. *)
Definition search_dirs (args : arguments) : list string :=
  match fcdir args with
  | Some d => if truthy (VStr d) then [d; fs_cwd fs] else [fs_cwd fs]
  | None => [fs_cwd fs]
  end.

Definition absolutize_detail_with (dirs : list string) (d : value)
    : result value :=
  d ← abs_file_paths_with dirs top_ignore d;
  algorithm ← getitem d "algorithm";
  algorithm ← abs_file_paths_with dirs algorithm_ignore algorithm;
  setitem d "algorithm" algorithm.

Definition absolutize_details_with (dirs : list string)
    (details : list value) (acc : list value * list string)
    : result (list value * list string) :=
  for_each
    (λ '(absdetails, directories) d,
       d ← absolutize_detail_with dirs d;
       ds ← _get_directories fs d;
       mret (absdetails ++ [d], directories ++ ds))
    details acc.

Definition update_config_with (dirs : list string) (config : value)
    (input_dir : string) : result (value * list string) :=
  details ← getitem config "details";
  details ← iter_value details;
  '(absdetails, directories) ← absolutize_details_with dirs details ([], []);
  let mounts := allocate_mounts input_dir directories in
  remapped ← list_comp (λ d, _remap_directories fs d mounts) absdetails;
  config ← setitem config "details" (VList remapped);
  mret (config, mount_specs mounts).

(** What [_get_directories] adds to [out] for the value of one key. *)
Definition value_directories (v : value) : result (list string) :=
  match v with
  | VDict _ => _get_directories fs v
  | VStr s =>
      if truthy v && fs_exists fs s && posixpath.isabs s
      then Ok [posixpath.dirname s] else Ok []
  | VList l | VTuple l =>
      if truthy v then
        e ← os_path_exists fs (first l);
        if e : bool then list_comp os_path_dirname l else Ok []
      else Ok []
  | _ => Ok []
  end.

(** What [_remap_directories] stores at [out[k]] for the value of one key. *)
Definition remap_value (mounts : dict string) (v : value) : result value :=
  match v with
  | VDict _ => _remap_directories fs v mounts
  | VStr s =>
      if truthy v && fs_exists fs s && posixpath.isabs s
      then remap_path mounts v else Ok v
  | VList l | VTuple l =>
      if truthy v then
        e ← os_path_exists fs (first l);
        if e : bool then VList <$> list_comp (remap_path mounts) l else Ok v
      else Ok v
  | _ => Ok v
  end.
End pure.

(* ================================================================== *)
(** ** Trees, leaves and shapes *)

(** The test both [_get_directories] and [_remap_directories] make on the
    value of a key that is not a dict: is it a path, or a list of paths?  It
    raises where [os.path.exists] does. *)
Definition path_classified (fs : filesystem) (v : value) : result bool :=
  match v with
  | VStr s => Ok (truthy v && fs_exists fs s && posixpath.isabs s)
  | VList l | VTuple l =>
      if truthy v then os_path_exists fs (first l) else Ok false
  | _ => Ok false
  end.

Definition is_dict (v : value) : bool :=
  match v with VDict _ => true | _ => false end.

(** The keys of a Python dict are distinct; [well_formed] says so of every
    dict in a value. *)
Fixpoint well_formed (v : value) : bool :=
  match v with
  | VDict items =>
      bool_decide (NoDup (dict_keys items))
      && forallb (λ '(_, v), well_formed v) items
  | VList xs | VTuple xs => forallb well_formed xs
  | _ => true
  end.

(** The value reached from [v] through the keys [ks], outermost first. *)
Fixpoint lookup_path (ks : list string) (v : value) : option value :=
  match ks with
  | [] => Some v
  | k :: ks =>
      match v with
      | VDict items => dict_get k items ≫= lookup_path ks
      | _ => None
      end
  end.

(** The shape of a tree: its keys at every level, in order, and the length of
    every sequence; scalars are blanked. *)
Fixpoint skeleton (v : value) : value :=
  match v with
  | VDict items => VDict (map (λ '(k, v), (k, skeleton v)) items)
  | VList xs | VTuple xs => VList (map (λ _, VNone) xs)
  | _ => VNone
  end.

(** Nesting depth, through dicts and sequences. *)
Fixpoint depth (v : value) : nat :=
  match v with
  | VDict items => S (foldr (λ '(_, v) n, depth v `max` n) 0 items)
  | VList xs | VTuple xs => S (foldr (λ x n, depth x `max` n) 0 xs)
  | _ => 0
  end.

(** What the remap pass makes of the value [v] of a key when it stores [v']:
    the shape and the depth are kept, and what is found at the place of each
    leaf is what the pass makes of that leaf. *)
Definition remapped (fs : filesystem) (mounts : dict string) (v v' : value)
    : Prop :=
  skeleton v' = skeleton v
  ∧ depth v' = depth v
  ∧ ∀ ks v0, lookup_path ks v = Some v0 → is_dict v0 = false →
      ∃ v1, lookup_path ks v' = Some v1 ∧ remap_value fs mounts v0 = Ok v1.

(* ================================================================== *)
(** ** Scenario A *)

Definition scenario_A_args : arguments := {| fcdir := Some "/data/run1" |}.

Definition scenario_A_config : value :=
  VDict [("details",
          VList [VDict [("files", VStr "sample.bam");
                        ("algorithm", VDict [("aligner", VStr "bwa")])]])].

Definition scenario_A_remapped : value :=
  VDict [("details",
          VList [VDict [("files", VStr "/mnt/in/0/sample.bam");
                        ("algorithm", VDict [("aligner", VStr "bwa")])]])].

(** A host without symbolic links, given by the paths that exist on it;
    relative paths are taken from the working directory. *)
Definition host (cwd : string) (paths : list string) : filesystem :=
  {| fs_exists := λ p,
       bool_decide (posixpath.normpath (posixpath.join cwd p) ∈ paths);
     fs_realpath := λ p, posixpath.normpath (posixpath.join cwd p);
     fs_cwd := cwd;
     fs_refuses := λ _, false |}.

Definition scenario_A_host : filesystem :=
  host "/home/user"
    ["/"; "/data"; "/data/run1"; "/data/run1/sample.bam"; "/home";
     "/home/user"].

(* ================================================================== *)
(** ** What prepare_system is expected to do *)

Definition system_names : list string :=
  ["genomes"; "liftOver"; "gemini_data"; "galaxy"].

(** The resolved host directory for the name [d]. *)
Definition resolved_dir (datadir : string) (fs : filesystem) (d : string)
    : string :=
  posixpath.normpath (fs_realpath fs (posixpath.join datadir d)).

(** The mount spec for the name [d]. *)
Definition system_mount (datadir docker_biodata_dir : string)
    (fs : filesystem) (d : string) : string :=
  resolved_dir datadir fs d +:+ ":" +:+ docker_biodata_dir +:+ "/" +:+ d.

(** One turn of the loop of [prepare_system]. *)
Definition prepare_system_step (datadir docker_biodata_dir : string)
    (mounts : list string) (d : string) : state filesystem (list string) :=
  fs ← read_state;
  let cur_d := posixpath.normpath
                 (fs_realpath fs (posixpath.join datadir d)) in
  (if negb (fs_exists fs cur_d) then os_makedirs cur_d else mret ());;
  mret (mounts ++ [cur_d +:+ ":" +:+ docker_biodata_dir +:+ "/" +:+ d]).

(** What a run may change on the host: directories appear, nothing else
    moves. *)
Record extends (fs fs' : filesystem) : Prop := {
  extends_exists p : fs_exists fs p = true → fs_exists fs' p = true;
  extends_realpath : fs_realpath fs' = fs_realpath fs;
  extends_cwd : fs_cwd fs' = fs_cwd fs;
  extends_refuses : fs_refuses fs' = fs_refuses fs;
}.

(** Scenario C: a host whose data root [/data/bio] is empty. *)
Definition scenario_C_host : filesystem :=
  host "/home/user" ["/"; "/data"; "/data/bio"; "/home"; "/home/user"].

(* ================================================================== *)
(** ** A second run *)

(** [p] without its beginning [a], when it begins with [a]. *)
Fixpoint strip_prefix (a p : string) : option string :=
  match a with
  | EmptyString => Some p
  | String x a =>
      match p with
      | String y p => if bool_decide (x = y) then strip_prefix a p else None
      | EmptyString => None
      end
  end.

(** The first component of a relative path: what stands before its first
    slash. *)
Fixpoint first_component (s : string) : string :=
  match s with
  | EmptyString => ""
  | String c s =>
      if bool_decide (c = posixpath.sep) then ""
      else String c (first_component s)
  end.

(** [p] lies under the mount root: it goes on from the root and a slash with
    the name of an entry of the root, a first component that is not empty and
    is neither [.] nor [..].  The root itself does not lie under the root,
    however it is written ([root], [root/], [root/.]). *)
Definition under (root p : string) : bool :=
  match strip_prefix (posixpath.join root "") p with
  | Some rest =>
      let name := first_component rest in
      negb (bool_decide (name = "")) && negb (bool_decide (name = "."))
      && negb (bool_decide (name = ".."))
  | None => false
  end.

(** What the remap pass writes: a path under the mount root, or a list that
    begins with one. *)
Definition mount_target (root : string) (v : value) : bool :=
  match v with
  | VStr p => under root p
  | VList (VStr p :: _) => under root p
  | _ => false
  end.

(** Every mount point of the mapping is a numbered directory of the root. *)
Definition mounts_under_root (root : string) (mounts : dict string) : Prop :=
  ∀ d m, dict_get d mounts = Some m →
    ∃ i : nat, m = posixpath.join root (pretty i).

(** A tree the collect and remap passes leave alone: its dicts have distinct
    keys and none of its leaves is classified as a path. *)
Fixpoint settled (fs : filesystem) (v : value) : bool :=
  match v with
  | VDict items =>
      bool_decide (NoDup (dict_keys items))
      && forallb (λ '(_, v), settled fs v) items
  | _ => match path_classified fs v with Ok false => true | _ => false end
  end.

(** The absolutized samples [update_config] holds after its first loop. *)
Definition absolutized_samples (fs : filesystem) (dirs : list string)
    (config : value) : result (list value) :=
  details ← getitem config "details";
  items ← iter_value details;
  fst <$> absolutize_details_with fs dirs items ([], []).

(** On a host, the resolved form of a path that exists is absolute and
    exists. *)
Definition coherent (fs : filesystem) : Prop :=
  ∀ p, fs_exists fs p = true →
    fs_exists fs (posixpath.normpath (fs_realpath fs p)) = true
    ∧ posixpath.isabs (posixpath.normpath (fs_realpath fs p)) = true.

(** A host given by the very path strings that exist on it, none of them a
    symbolic link. *)
Definition literal_host (cwd : string) (paths : list string) : filesystem :=
  {| fs_exists := λ p, bool_decide (p ∈ paths);
     fs_realpath := λ p, p;
     fs_cwd := cwd;
     fs_refuses := λ _, false |}.

(** A host for a second run: one input file, nothing under [/mnt/in]. *)
Definition second_run_host : filesystem :=
  literal_host "/home/user" ["/data/run1/sample.bam"].

(** A host for a second run on which the mount root is there: [/mnt/in] is an
    empty directory. *)
Definition empty_root_host : filesystem :=
  literal_host "/home/user" ["/data/run1/sample.bam"; "/mnt/in"; "/mnt/in/"].

Definition second_run_config : value :=
  VDict [("details",
          VList [VDict [("files", VStr "/data/run1/sample.bam");
                        ("algorithm", VDict [("aligner", VStr "bwa")])]])].

(** A host for a relative mount root [in]: two input files, and a third file
    that lies under [/data/in], which is not under the mount root. *)
Definition relative_root_host : filesystem :=
  literal_host "/w" ["/data/x/a.bam"; "/data/y/b.bam"; "/data/in/1/b.bam"].

Definition relative_root_config : value :=
  VDict [("details",
          VList [VDict [("first", VStr "/data/x/a.bam");
                        ("second", VStr "/data/y/b.bam");
                        ("algorithm", VDict [("aligner", VStr "bwa")])]])].

Definition second_run_remapped : value :=
  VDict [("details",
          VList [VDict [("files", VStr "/mnt/in/0/sample.bam");
                        ("algorithm", VDict [("aligner", VStr "bwa")])]])].

Definition relative_root_remapped (second : string) : value :=
  VDict [("details",
          VList [VDict [("first", VStr "in/0/a.bam");
                        ("second", VStr second);
                        ("algorithm", VDict [("aligner", VStr "bwa")])]])].

(* ================================================================== *)
(** ** Inputs that show where code and specification part *)

(** A host whose working directory holds [sample.bam]. *)
Definition working_dir_host : filesystem :=
  host "/home/user" ["/"; "/home"; "/home/user"; "/home/user/sample.bam"].

(** A sample that names a list of files relative to the working directory,
    two levels down, where [abs_file_paths] does not reach. *)
Definition relative_list_config : value :=
  VDict [("details",
          VList [VDict [("metadata",
                         VDict [("files", VList [VStr "sample.bam"])]);
                        ("algorithm", VDict [("aligner", VStr "bwa")])]])].

(** A sample whose [description], an ignored key, is an existing absolute
    path. *)
Definition described_config : value :=
  VDict [("details",
          VList [VDict [("description", VStr "/data/run1/sample.bam");
                        ("algorithm", VDict [("aligner", VStr "bwa")])]])].

(** A sample whose ignored keys hold values that are no existing absolute
    path: a relative file name, and a dict with such a name inside. *)
Definition ignored_sample : value :=
  VDict [("description", VStr "sample.bam");
         ("resources", VDict [("dir", VStr "sample.bam")]);
         ("files", VStr "sample.bam");
         ("algorithm", VDict [("variantcaller", VStr "sample.bam");
                              ("bam", VStr "sample.bam")])].

Definition ignored_absolutized : value :=
  VDict [("description", VStr "sample.bam");
         ("resources", VDict [("dir", VStr "sample.bam")]);
         ("files", VStr "/data/run1/sample.bam");
         ("algorithm", VDict [("variantcaller", VStr "sample.bam");
                              ("bam", VStr "/data/run1/sample.bam")])].

Definition ignored_remapped : value :=
  VDict [("description", VStr "sample.bam");
         ("resources", VDict [("dir", VStr "sample.bam")]);
         ("files", VStr "/mnt/in/0/sample.bam");
         ("algorithm", VDict [("variantcaller", VStr "sample.bam");
                              ("bam", VStr "/mnt/in/0/sample.bam")])].

(* ================================================================== *)
(** ** Text of a file *)

(** White space is what [str.split] and [str.strip] take it to be: space,
    tab, line feed, carriage return, vertical tab, form feed.  [starts_word]
    says that a string begins with a character that is none of them. *)
Definition starts_word (s : string) : bool :=
  match s with
  | String c _ => negb (Ascii.is_space c)
  | EmptyString => false
  end.

(** [s.split()]: the runs of characters that are not white space. *)
Fixpoint str_split (s : string) : list string :=
  match s with
  | EmptyString => []
  | String c s =>
      if Ascii.is_space c then str_split s
      else if starts_word s then
        match str_split s with
        | w :: ws => String c w :: ws
        | [] => [String c ""]
        end
      else String c "" :: str_split s
  end.

(** [s.lstrip()] *)
Fixpoint str_lstrip (s : string) : string :=
  match s with
  | EmptyString => ""
  | String c s' => if Ascii.is_space c then str_lstrip s' else s
  end.

(** [s.rstrip()] *)
Fixpoint str_rstrip (s : string) : string :=
  match s with
  | EmptyString => ""
  | String c s =>
      match str_rstrip s with
      | EmptyString => if Ascii.is_space c then "" else String c ""
      | s' => String c s'
      end
  end.

(** [s.strip()] *)
Definition str_strip (s : string) : string := str_rstrip (str_lstrip s).

(* ================================================================== *)
(** ** find_genome_directory *)

(** What reading the locator file can raise: [open] and the reads fail with
    an [IOError]; an index out of range is an [IndexError]. *)
Inductive read_exn :=
  | IOError
  | IndexError.

Section find_genome_directory.
Variable fs : filesystem.

(** The lines that [for line in open(path)] goes through, each with its line
    end; [None] when the file cannot be opened and read. *)
Variable file_lines : string → option (list string).

(** Lines 50-53: [genome_dir] after the loop over the lines of the file. *)
Fixpoint index_genome_dir (lines : list string) : read_exn + option string :=
  match lines with
  | [] => inr None
  | line :: lines =>
      if String.prefix "index" line then
        match last (str_split line) with
        | Some field => inr (Some (str_strip field))
        | None => inl IndexError
        end
      else index_genome_dir lines
  end.

Definition find_genome_directory (dirname container_dir : string)
    : read_exn + list string :=
  let sam_loc :=
    posixpath.join (posixpath.join dirname "tool-data")
      "sam_fa_indices.loc" in
  let genome_dir :=
    if fs_exists fs sam_loc then
      match file_lines sam_loc with
      | Some lines => index_genome_dir lines
      | None => inl IOError
      end
    else inr None in
  match genome_dir with
  | inl e => inl e
  | inr None => inr []
  | inr (Some genome_dir) =>
      if truthy (VStr genome_dir) && negb (posixpath.isabs genome_dir) then
        let rel_genome_dir :=
          posixpath.dirname
            (posixpath.dirname (posixpath.dirname genome_dir)) in
        inr [posixpath.normpath
               (posixpath.join (posixpath.dirname sam_loc) rel_genome_dir)
             +:+ ":" +:+
             posixpath.normpath
               (posixpath.join (posixpath.join container_dir "tool-data")
                  rel_genome_dir)]
      else inr []
  end.
End find_genome_directory.

(** [root/tool-data/rel], normalized. *)
Definition tool_data_dir (root rel : string) : string :=
  posixpath.normpath
    (posixpath.join (posixpath.join root "tool-data") rel).

(** A string without white space, as the fields of [str.split] are. *)
Fixpoint is_word (s : string) : bool :=
  match s with
  | EmptyString => true
  | String c s => negb (Ascii.is_space c) && is_word s
  end.

(** A string without a slash, as a file name is. *)
Fixpoint no_sep (s : string) : bool :=
  match s with
  | EmptyString => true
  | String c s => negb (bool_decide (c = posixpath.sep)) && no_sep s
  end.

(** A galaxy directory [/opt/galaxy] whose locator file is there. *)
Definition galaxy_host : filesystem :=
  literal_host "/home/user" ["/opt/galaxy/tool-data/sam_fa_indices.loc"].

(** Its locator file: a comment, an index given relative to [tool-data], and
    a second index. *)
Definition galaxy_lines (path : string) : option (list string) :=
  if bool_decide (path = "/opt/galaxy/tool-data/sam_fa_indices.loc") then
    Some ["#index <build> <path>" +:+ String "010" "";
          "index hg19 ../genomes/Hsapiens/hg19/sam/hg19.fa"
            +:+ String "010" "";
          "index mm9 /biodata/genomes/Mmusculus/mm9/sam/mm9.fa"
            +:+ String "010" ""]
  else None.

(** A host whose data root [/data/bio] is empty and where the directory
    [/data/bio/liftOver] cannot be made. *)
Definition refusing_host : filesystem :=
  {| fs_exists := fs_exists scenario_C_host;
     fs_realpath := fs_realpath scenario_C_host;
     fs_cwd := fs_cwd scenario_C_host;
     fs_refuses := λ p, bool_decide (p = "/data/bio/liftOver") |}.

(** The names a leaf holds: the string itself, or the strings of a list or
    tuple. *)
Definition names_of (v : value) : list string :=
  match v with
  | VStr s => [s]
  | VList l | VTuple l =>
      omap (λ x, match x with VStr s => Some s | _ => None end) l
  | _ => []
  end.

(** A host with one of the two files that a sample names. *)
Definition one_file_host : filesystem :=
  literal_host "/home/user" ["/data/run1/a.bam"].

Definition two_files_config : value :=
  VDict [("details",
          VList [VDict [("files", VList [VStr "/data/run1/a.bam";
                                         VStr "/data/run1/b.bam"]);
                        ("algorithm", VDict [("aligner", VStr "bwa")])]])].

(** What [abs_file_paths] looks up: a string, a list or a tuple that is not
    empty. *)
Definition may_name_files (v : value) : bool :=
  match v with
  | VStr _ | VList _ | VTuple _ => truthy v
  | _ => false
  end.

(* ================================================================== *)
(** ** client/subcommands/cluster.py

    The commands talk to a cloud provider, a logger and the terminal.  What
    a command does to them is the sequence of calls it makes, in order; what
    they answer is given by an [environment], as a function of the calls
    made so far.  The calls are taken to return: an exception in one of them
    ends the command there. *)

Module cluster.

(** What AnsiblePlaybook reports for one playbook, as far as it is read
    here. *)
Record playbook_info := PlaybookInfo {
  status : value;
  unreachable : value;
  failures : value;
}.

(** [objects.Report] as it is used here: the sections added to a report, in
    order, each with the items added to it. *)
Record report_section := ReportSection {
  name : string;
  fields : value;
  title : string;
  items : list value;
}.

Definition add_item (item : value) (section : report_section)
    : report_section :=
  {| name := name section; fields := fields section;
     title := title section; items := items section ++ [item] |}.

(** [self.args], the parsed command line. *)
Record namespace := Namespace {
  provider : string;
  econfig : value;
  cluster : string;
  no_reboot : bool;
  script : string;
  args : list string;
}.

Inductive event :=
  | cloud_factory_get (provider : string)
  | provider_bootstrap (cluster : string) (config : value) (reboot : bool)
  | provider_run_script (cluster : string) (config : value) (script : string)
  | provider_setup (cluster : string) (config : value)
  | provider_start (cluster : string) (config : value) (no_setup : bool)
  | provider_stop (cluster : string) (config : value)
      (force use_default : bool)
  | provider_ssh (cluster : string) (config : value) (ssh_args : list string)
  | LOG_debug (msg : string)
  | LOG_error (msg : string)
  | print (text : string).

(** The answers, each a function of the calls made up to and including the
    one answered. *)
Record environment := Environment {
  EC_CONFIG_format : string → string;
  bootstrap_response : list event → dict playbook_info;
  start_status : list event → Z;
  returned : list event → value;
  report_text : list report_section → string;
}.

(** A command runs on [self.args], which it may write, and adds to the calls
    made. *)
Record session := Session {
  self_args : namespace;
  trace : list event;
}.

Definition get_args : state session namespace := λ s, (Ok (self_args s), s).

(** [self.args.econfig = config] *)
Definition set_econfig (config : value) : state session () := λ s,
  let a := self_args s in
  (Ok (),
   {| self_args := {| provider := provider a; econfig := config;
                      cluster := cluster a; no_reboot := no_reboot a;
                      script := script a; args := args a |};
      trace := trace s |}).

(** [v is None] *)
Definition is_None (v : value) : bool :=
  match v with VNone => true | _ => false end.

(** A call, giving the calls made so far, this one included. *)
Definition call (e : event) : state session (list event) := λ s,
  let t := trace s ++ [e] in (Ok t, {| self_args := self_args s; trace := t |}).

Module CommandMixin.

Definition _process_playbook_response (response : dict playbook_info)
    : bool * list report_section :=
  let fields :=
    VList [VDict [("name", VStr "playbook");
                  ("title", VStr "Ansible playbook")];
           VDict [("name", VStr "unreachable");
                  ("title", VStr "Unreachable host")];
           VDict [("name", VStr "failures");
                  ("title", VStr "Hosts where playbook failed.")]] in
  foldl (λ '(status, report) '(playbook, playbook_info),
           let status :=
             if negb (truthy (cluster.status playbook_info)) then false
             else status in
           let section :=
             {| name := playbook; fields := fields;
                title := "Ansible playbook: " +:+ playbook; items := [] |} in
           let section :=
             add_item (VList [VStr playbook; unreachable playbook_info;
                              failures playbook_info]) section in
           (status, report ++ [section]))
    (true, []) response.

End CommandMixin.

Module Bootstrap.

Definition work (env : environment) : state session value :=
  args ← get_args;
  (if is_None (econfig args)
   then set_econfig (VStr (EC_CONFIG_format env (provider args)))
   else mret ());;
  args ← get_args;
  call (cloud_factory_get (provider args));;
  trace ← call (provider_bootstrap (cluster args) (econfig args)
                  (negb (no_reboot args)));
  let response := bootstrap_response env trace in
  let '(status, report) :=
    CommandMixin._process_playbook_response response in
  if status then
    call (LOG_debug "All playbooks runned without problems.");;
    mret VNone
  else
    call (LOG_error "Something went wrong.");;
    call (print (report_text env report));;
    mret VNone.

End Bootstrap.

Module Command.

Definition work (env : environment) : state session value :=
  args ← get_args;
  (if is_None (econfig args)
   then set_econfig (VStr (EC_CONFIG_format env (provider args)))
   else mret ());;
  args ← get_args;
  call (cloud_factory_get (provider args));;
  trace ← call (provider_run_script (cluster args) (econfig args)
                  (script args));
  mret (returned env trace).

End Command.

Module Setup.

Definition work (env : environment) : state session value :=
  args ← get_args;
  (if is_None (econfig args)
   then set_econfig (VStr (EC_CONFIG_format env (provider args)))
   else mret ());;
  args ← get_args;
  call (cloud_factory_get (provider args));;
  trace ← call (provider_setup (cluster args) (econfig args));
  mret (returned env trace).

End Setup.

Module Start.

Definition work (env : environment) : state session value :=
  args ← get_args;
  (if is_None (econfig args)
   then set_econfig (VStr (EC_CONFIG_format env (provider args)))
   else mret ());;
  args ← get_args;
  call (cloud_factory_get (provider args));;
  trace ← call (provider_start (cluster args) (econfig args) false);
  let status := start_status env trace in
  if negb (status =? 0)%Z then
    call (LOG_error "Failed to create the cluster.");;
    mret VNone
  else
    trace ← call (provider_bootstrap (cluster args) (econfig args)
                    (negb (no_reboot args)));
    let response := bootstrap_response env trace in
    let '(status, report) :=
      CommandMixin._process_playbook_response response in
    if status then
      call (LOG_debug "All playbooks runned without problems.");;
      mret VNone
    else
      call (LOG_error "Something went wrong.");;
      call (print (report_text env report));;
      mret VNone.

End Start.

Module Stop.

Definition work (env : environment) : state session value :=
  args ← get_args;
  (if is_None (econfig args)
   then set_econfig (VStr (EC_CONFIG_format env (provider args)))
   else mret ());;
  args ← get_args;
  call (cloud_factory_get (provider args));;
  trace ← call (provider_stop (cluster args) (econfig args) false false);
  mret (returned env trace).

End Stop.

Module SSHConnection.

Definition work (env : environment) : state session value :=
  args ← get_args;
  (if is_None (econfig args)
   then set_econfig (VStr (EC_CONFIG_format env (provider args)))
   else mret ());;
  args ← get_args;
  call (cloud_factory_get (provider args));;
  trace ← call (provider_ssh (cluster args) (econfig args)
                  (cluster.args args));
  mret (returned env trace).

End SSHConnection.

End cluster.

(* ================================================================== *)
(** ** client/subcommands/factory.py *)

Module factory.




End factory.

(* ================================================================== *)
(** ** What a command has done *)

(** The events a run of a command adds to the calls made before it. *)
Definition new_events (before after : cluster.session) : list cluster.event :=
  drop (length (cluster.trace before)) (cluster.trace after).

(** The cluster name and the configuration file a call to the provider is
    given. *)
Definition provider_call (e : cluster.event) : option (string * value) :=
  match e with
  | cluster.provider_bootstrap c config _
  | cluster.provider_run_script c config _
  | cluster.provider_setup c config
  | cluster.provider_start c config _
  | cluster.provider_stop c config _ _
  | cluster.provider_ssh c config _ => Some (c, config)
  | _ => None
  end.

(** Calls of [provider.bootstrap], and of [print]. *)
Definition is_bootstrap (e : cluster.event) : bool :=
  match e with cluster.provider_bootstrap _ _ _ => true | _ => false end.

Definition is_print (e : cluster.event) : bool :=
  match e with cluster.print _ => true | _ => false end.

(** The configuration file a command works with: the one given, or the
    default of the provider. *)
Definition effective_econfig (env : cluster.environment)
    (args : cluster.namespace) : value :=
  if cluster.is_None (cluster.econfig args)
  then VStr (cluster.EC_CONFIG_format env (cluster.provider args))
  else cluster.econfig args.

(** The six commands of [cluster.py]. *)
Definition cluster_commands (env : cluster.environment)
    : list (state cluster.session value) :=
  [cluster.Bootstrap.work env; cluster.Command.work env;
   cluster.Setup.work env; cluster.Start.work env; cluster.Stop.work env;
   cluster.SSHConnection.work env].

(** The section that [_process_playbook_response] adds for a playbook. *)
Definition playbook_section (playbook : string)
    (info : cluster.playbook_info) : cluster.report_section :=
  {| cluster.name := playbook;
     cluster.fields :=
       VList [VDict [("name", VStr "playbook");
                     ("title", VStr "Ansible playbook")];
              VDict [("name", VStr "unreachable");
                     ("title", VStr "Unreachable host")];
              VDict [("name", VStr "failures");
                     ("title", VStr "Hosts where playbook failed.")]];
     cluster.title := "Ansible playbook: " +:+ playbook;
     cluster.items :=
       [VList [VStr playbook; cluster.unreachable info;
               cluster.failures info]] |}.

(** The calls made when a command has looked up its provider and called
    [start]. *)
Definition started (env : cluster.environment) (s : cluster.session)
    : list cluster.event :=
  let args := cluster.self_args s in
  cluster.trace s
  ++ [cluster.cloud_factory_get (cluster.provider args);
      cluster.provider_start (cluster.cluster args)
        (effective_econfig env args) false].

(** The calls made when a command has looked up its provider and called
    [bootstrap]. *)
Definition bootstrapped (env : cluster.environment) (s : cluster.session)
    : list cluster.event :=
  let args := cluster.self_args s in
  cluster.trace s
  ++ [cluster.cloud_factory_get (cluster.provider args);
      cluster.provider_bootstrap (cluster.cluster args)
        (effective_econfig env args) (negb (cluster.no_reboot args))].

(** A provider whose cluster starts and whose one playbook goes well. *)
Definition quiet_environment : cluster.environment :=
  {| cluster.EC_CONFIG_format := λ provider, provider +:+ ".config";
     cluster.bootstrap_response := λ _,
       [("bootstrap.yml",
         cluster.PlaybookInfo (VBool true) (VList []) (VList []))];
     cluster.start_status := λ _, 0%Z;
     cluster.returned := λ _, VNone;
     cluster.report_text := λ _, "" |}.

(** The command line [--cluster bcbio] for the provider [aws], before any
    call. *)
Definition fresh_session : cluster.session :=
  {| cluster.self_args :=
       {| cluster.provider := "aws"; cluster.econfig := VNone;
          cluster.cluster := "bcbio"; cluster.no_reboot := false;
          cluster.script := ""; cluster.args := [] |};
     cluster.trace := [] |}.

(* ================================================================== *)
(** * Properties *)

(** ** posixpath on a few paths *)

Example split_paths :
  posixpath.split <$> ["/data/run1/sample.bam"; "/a"; "a"; "/a/b/"; "//a";
                       "a//b"; ""; "/"]
  = [("/data/run1", "sample.bam"); ("/", "a"); ("", "a"); ("/a/b", "");
     ("//", "a"); ("a", "b"); ("", ""); ("/", "")].
Proof. reflexivity. Qed.

Example join_paths :
  [posixpath.join "/a" "b"; posixpath.join "/a/" "b"; posixpath.join "" "b";
   posixpath.join "/a" "/b"; posixpath.join "a" ""]
  = ["/a/b"; "/a/b"; "b"; "/b"; "a/"].
Proof. reflexivity. Qed.

Example normpath_paths :
  posixpath.normpath <$> ["/data/run1/../run1/./sample.bam"; ""; "//a//b/";
                          "///a"; "../a/.."; "/.."; "a/../.."; "/"]
  = ["/data/run1/sample.bam"; "."; "//a/b"; "/a"; ".."; "/"; ".."; "/"].
Proof. reflexivity. Qed.

(** ** The result monad and the loops *)

Lemma Ok_bind {A B} (f : A → result B) (a : A) : Ok a ≫= f = f a.
Proof. done. Qed.

Lemma Raise_bind {A B} (f : A → result B) (e : exn) : Raise e ≫= f = Raise e.
Proof. done. Qed.

Lemma bind_Ok {A B} (f : A → result B) (m : result A) (b : B) :
  m ≫= f = Ok b ↔ ∃ a, m = Ok a ∧ f a = Ok b.
Proof.
  destruct m as [a|e]; simpl; split.
  - intros Hf. by exists a.
  - by intros (a' & [= <-] & Hf).
  - done.
  - by intros (a' & [=] & _).
Qed.

Lemma fmap_Ok {A B} (f : A → B) (m : result A) (b : B) :
  f <$> m = Ok b ↔ ∃ a, m = Ok a ∧ b = f a.
Proof.
  destruct m as [a|e]; simpl; split.
  - intros [= <-]. by exists a.
  - by intros (a' & [= <-] & ->).
  - done.
  - by intros (a' & [=] & _).
Qed.

Lemma bind_is_Raise {A B} (f : A → result B) (m : result A) :
  is_Raise (m ≫= f) ↔ is_Raise m ∨ ∃ a, m = Ok a ∧ is_Raise (f a).
Proof.
  destruct m as [a|e]; simpl; split.
  - intros Hf. right. by exists a.
  - intros [[e [=]]|(a' & [= <-] & Hf)]. done.
  - intros _. left. by exists e.
  - intros _. by exists e.
Qed.

Lemma not_Ok_Raise {A} (r : result A) : is_Ok r → is_Raise r → False.
Proof. by intros [a ->] [e [=]]. Qed.

Lemma Ok_or_Raise {A} (r : result A) : is_Ok r ∨ is_Raise r.
Proof. destruct r as [a|e]; [left; by exists a|right; by exists e]. Qed.

Lemma for_each_cons {M : Type → Type} `{!MRet M, !MBind M} {A B}
    (body : A → B → M A) x l acc :
  for_each body (x :: l) acc = acc ← body acc x; for_each body l acc.
Proof. done. Qed.

Lemma for_each_ext {A B} (f g : A → B → result A) l acc :
  (∀ a x, x ∈ l → f a x = g a x) → for_each f l acc = for_each g l acc.
Proof.
  revert acc. induction l as [|x l IH]; intros acc Hfg; [done|].
  simpl. rewrite Hfg by left. destruct (g acc x); simpl; [|done].
  apply IH. intros. apply Hfg. by right.
Qed.

Lemma list_comp_acc_Ok {A B} (f : A → result B) l acc out :
  for_each (λ out x, y ← f x; mret (out ++ [y])) l acc = Ok out
  ↔ ∃ ys, out = acc ++ ys ∧ Forall2 (λ x y, f x = Ok y) l ys.
Proof.
  revert acc out. induction l as [|x l IH]; intros acc out; simpl.
  - split.
    + intros [= <-]. exists []. by rewrite app_nil_r.
    + intros (ys & -> & Hys). inversion Hys. by rewrite app_nil_r.
  - rewrite bind_Ok. split.
    + intros (acc' & Hx & Hl). apply bind_Ok in Hx as (y & Hy & [= <-]).
      apply IH in Hl as (ys & -> & Hys). exists (y :: ys).
      rewrite <-app_assoc. by split; [|constructor].
    + intros (ys & -> & Hys). inversion Hys as [|? y ? ys' Hy Hys']; subst.
      exists (acc ++ [y]). rewrite Hy. split; [done|].
      apply IH. exists ys'. by rewrite <-app_assoc.
Qed.

Lemma list_comp_Ok {A B} (f : A → result B) l out :
  list_comp f l = Ok out ↔ Forall2 (λ x y, f x = Ok y) l out.
Proof.
  unfold list_comp. rewrite list_comp_acc_Ok. split.
  - by intros (ys & -> & Hys).
  - intros Hys. by exists out.
Qed.

Lemma list_comp_acc_Raise {A B} (f : A → result B) l acc x :
  x ∈ l → is_Raise (f x) →
  is_Raise (for_each (λ out x, y ← f x; mret (out ++ [y])) l acc).
Proof.
  revert acc.
  induction l as [|x' l IH]; intros acc Hx Hf; [by apply elem_of_nil in Hx|].
  simpl. apply elem_of_cons in Hx as [<-|Hx].
  - destruct Hf as [e ->]. by exists e.
  - destruct (f x') as [y|e]; simpl; [by apply IH|by exists e].
Qed.

Lemma list_comp_Raise {A B} (f : A → result B) l x :
  x ∈ l → is_Raise (f x) → is_Raise (list_comp f l).
Proof. apply list_comp_acc_Raise. Qed.

(** ** The heap: what [abs_file_paths] does to [base_dirs] *)

Section heap_runs.
Variable fs : filesystem.

Lemma state_bind_lift {S A B} (r : result A) (k : A → state S B) (s : S) :
  (lift r ≫= k) s = match r with Ok a => k a s | Raise e => (Raise e, s) end.
Proof. by destruct r. Qed.

Lemma abs_file_paths_non_dict xs base_dirs ignore h :
  (∀ items, xs ≠ VDict items) →
  abs_file_paths fs xs base_dirs ignore h = (Ok xs, h).
Proof. intros Hxs. destruct xs; try done. by destruct (Hxs items). Qed.

Lemma abs_file_paths_dict_Some items r ignore (h : heap) l :
  h !! r = Some l → l ≠ [] →
  abs_file_paths fs (VDict items) (Some r) ignore h
  = (abs_file_paths_with fs (l ++ [fs_cwd fs]) ignore (VDict items),
     <[r := l ++ [fs_cwd fs]]> h).
Proof.
  intros Hr Hl. unfold abs_file_paths, abs_file_paths_with, dict_for.
  unfold mbind, state_bind, list_read, list_append, lift, mret, state_ret.
  rewrite (lookup_total_correct h r l Hr).
  rewrite bool_decide_eq_false_2 by done.
  by rewrite lookup_total_insert_eq, (lookup_total_correct h r l Hr).
Qed.

Lemma abs_file_paths_dict_None items ignore (h : heap) :
  abs_file_paths fs (VDict items) None ignore h
  = (abs_file_paths_with fs [fs_cwd fs] ignore (VDict items),
     <[fresh (dom h) := [fs_cwd fs]]> h).
Proof.
  unfold abs_file_paths, abs_file_paths_with, dict_for.
  unfold mbind, state_bind, list_read, list_append, lift, mret, state_ret,
    new_list.
  rewrite !lookup_total_insert_eq. by rewrite insert_insert_eq.
Qed.

(** A caller's empty list is left alone: a new list takes its place. *)
Lemma abs_file_paths_dict_empty items r ignore (h : heap) :
  h !! r = Some [] →
  abs_file_paths fs (VDict items) (Some r) ignore h
  = (abs_file_paths_with fs [fs_cwd fs] ignore (VDict items),
     <[fresh (dom h) := [fs_cwd fs]]> h).
Proof.
  intros Hr. unfold abs_file_paths, abs_file_paths_with, dict_for.
  unfold mbind, state_bind, list_read, list_append, lift, mret, state_ret,
    new_list.
  rewrite (lookup_total_correct h r [] Hr). simpl.
  rewrite !lookup_total_insert_eq. by rewrite insert_insert_eq.
Qed.

Lemma state_bind_run {S A B} (m : state S A) (k : A → state S B) s :
  (m ≫= k) s
  = match m s with (Ok a, s') => k a s' | (Raise e, s') => (Raise e, s') end.
Proof. done. Qed.

Lemma fcdir_base_dirs_run args (h : heap) :
  (∃ d, search_dirs fs args = [d; fs_cwd fs] ∧
        fcdir_base_dirs args h
        = (Ok (Some (fresh (dom h))), <[fresh (dom h) := [d]]> h))
  ∨ (search_dirs fs args = [fs_cwd fs] ∧
     fcdir_base_dirs args h = (Ok None, h)).
Proof.
  unfold fcdir_base_dirs, search_dirs.
  destruct (fcdir args) as [d|]; [destruct (truthy (VStr d))|].
  - left. by exists d.
  - by right.
  - by right.
Qed.

Lemma abs_file_paths_after_fcdir {B} args xs ignore
    (k : value → state heap B) h :
  ∃ h', (base_dirs ← fcdir_base_dirs args;
         d ← abs_file_paths fs xs base_dirs ignore; k d) h
        = (lift (abs_file_paths_with fs (search_dirs fs args) ignore xs)
           ≫= k) h'.
Proof.
  rewrite state_bind_run.
  assert (Decision (∃ items, xs = VDict items)) as [[items ->]|Hxs].
  { destruct xs; try (right; by intros [? [=]]). left. by eexists. }
  - destruct (fcdir_base_dirs_run args h) as [(d & -> & ->)|[-> ->]];
      rewrite state_bind_run.
    + rewrite (abs_file_paths_dict_Some items _ ignore _ [d])
        by (done || apply lookup_insert_eq).
      eexists. rewrite state_bind_lift. reflexivity.
    + rewrite abs_file_paths_dict_None. eexists.
      rewrite state_bind_lift. reflexivity.
  - assert (∀ items, xs ≠ VDict items) as Hxs' by (intros ? ->; eauto).
    assert (abs_file_paths_with fs (search_dirs fs args) ignore xs = Ok xs)
      as -> by (destruct xs; try done; by destruct (Hxs' items)).
    destruct (fcdir_base_dirs_run args h) as [(d & _ & ->)|[_ ->]];
      rewrite state_bind_run, abs_file_paths_non_dict by done;
      eexists; rewrite state_bind_lift; reflexivity.
Qed.

Lemma absolutize_detail_run args d h :
  ∃ h', absolutize_detail fs args d h
        = (absolutize_detail_with fs (search_dirs fs args) d, h').
Proof.
  unfold absolutize_detail_with.
  destruct (abs_file_paths_after_fcdir args d top_ignore
    (λ d, algorithm ← lift (getitem d "algorithm");
          base_dirs ← fcdir_base_dirs args;
          algorithm ← abs_file_paths fs algorithm base_dirs algorithm_ignore;
          lift (setitem d "algorithm" algorithm)) h) as [h1 Hh1].
  unfold absolutize_detail. rewrite Hh1. clear Hh1.
  rewrite state_bind_lift.
  destruct (abs_file_paths_with _ _ _ d) as [d'|e]; simpl; [|by eexists].
  rewrite state_bind_lift.
  destruct (getitem d' "algorithm") as [alg|e]; simpl; [|by eexists].
  destruct (abs_file_paths_after_fcdir args alg algorithm_ignore
    (λ algorithm, lift (setitem d' "algorithm" algorithm)) h1) as [h2 ->].
  rewrite state_bind_lift.
  destruct (abs_file_paths_with _ _ _ alg) as [alg'|e]; simpl; by eexists.
Qed.

Lemma absolutize_details_run args details acc h :
  ∃ h', for_each
          (λ '(absdetails, directories) d,
             d ← absolutize_detail fs args d;
             ds ← lift (_get_directories fs d);
             mret (absdetails ++ [d], directories ++ ds))
          details acc h
        = (absolutize_details_with fs (search_dirs fs args) details acc, h').
Proof.
  revert acc h. induction details as [|d details IH]; intros acc h.
  { by eexists. }
  unfold absolutize_details_with. rewrite !for_each_cons.
  destruct acc as [absdetails dirs]. rewrite !state_bind_run.
  destruct (absolutize_detail_run args d h) as [h1 ->].
  destruct (absolutize_detail_with _ _ d) as [d'|e];
    rewrite ?Ok_bind, ?Raise_bind; [|by eexists].
  rewrite state_bind_lift.
  destruct (_get_directories fs d') as [ds|e];
    rewrite ?Ok_bind, ?Raise_bind; [|by eexists].
  apply IH.
Qed.

(** The heap does not show in what [update_config] returns. *)
Lemma update_config_run args config input_dir h :
  (update_config fs args config input_dir h).1
  = update_config_with fs (search_dirs fs args) config input_dir.
Proof.
  unfold update_config, update_config_with.
  rewrite state_bind_lift.
  destruct (getitem config "details") as [details|e]; simpl; [|done].
  rewrite state_bind_lift.
  destruct (iter_value details) as [ds|e]; simpl; [|done].
  rewrite state_bind_run. unfold absolutize_details.
  destruct (absolutize_details_run args ds ([], []) h) as [h1 ->].
  destruct (absolutize_details_with _ _ _ _) as [[absdetails dirs]|e];
    simpl; [|done].
  rewrite state_bind_lift.
  destruct (list_comp _ absdetails) as [remapped|e]; simpl; [|done].
  rewrite state_bind_lift.
  by destruct (setitem config "details" _).
Qed.
End heap_runs.

(** ** The equations of the loops *)

Lemma dict_for_nil body out : dict_for body [] out = Ok out.
Proof. done. Qed.

Lemma dict_for_cons body k v items out :
  dict_for body ((k, v) :: items) out
  = y ← body k v; dict_for body items (dict_set k y out).
Proof. unfold dict_for. rewrite for_each_cons. by destruct (body k v). Qed.

Section equations.
Variable fs : filesystem.

Lemma _remap_directories_dict items mounts :
  _remap_directories fs (VDict items) mounts
  = VDict <$> dict_for (λ _, remap_value fs mounts) items [].
Proof.
  unfold dict_for. cbn [_remap_directories]. f_equal.
  apply for_each_ext. intros out [k v] _. destruct v as [| | |s|l|l|]; try done.
  - cbn [remap_value]. by destruct (truthy _ && _ && _).
  - cbn [remap_value]. destruct (truthy (VList l)); [|done].
    destruct (os_path_exists fs (first l)) as [[]|]; try done.
    rewrite !Ok_bind. by destruct (list_comp _ l).
  - cbn [remap_value]. destruct (truthy (VTuple l)); [|done].
    destruct (os_path_exists fs (first l)) as [[]|]; try done.
    rewrite !Ok_bind. by destruct (list_comp _ l).
Qed.

Lemma _remap_directories_non_dict xs mounts :
  (∀ items, xs ≠ VDict items) → _remap_directories fs xs mounts = Ok xs.
Proof. intros Hxs. destruct xs; try done. by destruct (Hxs items). Qed.

Lemma _get_directories_dict items :
  _get_directories fs (VDict items)
  = for_each (λ out '(k, v), ds ← value_directories fs v; mret (out ++ ds))
      items [].
Proof.
  cbn [_get_directories].
  apply for_each_ext. intros out [k v] _. destruct v as [| | |s|l|l|];
    try (cbn [value_directories]; rewrite ?Ok_bind; cbn [mret result_ret];
         by rewrite ?app_nil_r).
  - cbn [value_directories]. by destruct (truthy _ && _ && _);
      rewrite Ok_bind; cbn [mret result_ret]; rewrite ?app_nil_r.
  - cbn [value_directories]. destruct (truthy (VList l));
      [|by rewrite Ok_bind; cbn [mret result_ret]; rewrite app_nil_r].
    destruct (os_path_exists fs (first l)) as [[]|]; try done.
    rewrite !Ok_bind. cbn [mret result_ret]. by rewrite app_nil_r.
  - cbn [value_directories]. destruct (truthy (VTuple l));
      [|by rewrite Ok_bind; cbn [mret result_ret]; rewrite app_nil_r].
    destruct (os_path_exists fs (first l)) as [[]|]; try done.
    rewrite !Ok_bind. cbn [mret result_ret]. by rewrite app_nil_r.
Qed.
End equations.

(** ** Evaluating the functions on given trees *)

(** Conditions and paths that do not mention the filesystem are computed. *)
Ltac eval_condition b :=
  first
    [ let H := fresh in
      assert (H : b = true) by (vm_compute; reflexivity); rewrite H; clear H
    | let H := fresh in
      assert (H : b = false) by (vm_compute; reflexivity); rewrite H; clear H ].

Ltac eval_ground t :=
  lazymatch t with
  | context [fs_cwd] => fail
  | context [fs_realpath] => fail
  | context [fs_exists] => fail
  | _ => let v := eval vm_compute in t in progress change t with v
  end.

Ltac eval_step :=
  match goal with
  | |- context [posixpath.join ?a ?b] => eval_ground (posixpath.join a b)
  | |- context [posixpath.normpath ?a] => eval_ground (posixpath.normpath a)
  | |- context [posixpath.dirname ?a] => eval_ground (posixpath.dirname a)
  | |- context [posixpath.split ?a] => eval_ground (posixpath.split a)
  | |- context [posixpath.isabs ?a] => eval_ground (posixpath.isabs a)
  | |- context [dict_get ?k ?d] => eval_ground (dict_get k d)
  | |- context [dict_set ?k ?v ?d] => eval_ground (dict_set k v d)
  | |- context [bool_decide ?P] => eval_condition (bool_decide P)
  | |- context [truthy ?v] => eval_condition (truthy v)
  | H : fs_exists _ _ = _ |- _ => rewrite H
  | H : fs_realpath _ _ = _ |- _ => rewrite H
  end.

Ltac eval_steps :=
  repeat first
    [ eval_step
    | progress cbn [mbind mret fmap result_bind result_ret result_fmap
                    negb andb orb _normalize_path os_path_join os_path_exists
                    os_path_split os_path_dirname value_of_option first head
                    default from_option id getitem setitem iter_value
                    remap_path value_directories remap_value app fst snd
                    for_each]
    | rewrite dict_for_cons | rewrite dict_for_nil
    | rewrite andb_false_r | rewrite andb_true_r
    | rewrite for_each_cons | rewrite _remap_directories_dict
    | rewrite _get_directories_dict ].

(** ** Scenario A *)

(** C1. On a host where [/data/run1/sample.bam] exists and is no symbolic
    link, and where no entry [bwa] lies in the base directory or the working
    directory, [update_config] run on the Scenario A configuration with
    [fcdir = /data/run1] and mount root [/mnt/in] returns the tree with
    [files] rewritten to [/mnt/in/0/sample.bam], [algorithm] unchanged, and
    the mount specs [["/data/run1:/mnt/in/0"]]. *)
Theorem update_config_scenario_A (fs : filesystem) (h : heap) :
  fs_exists fs "/data/run1/sample.bam" = true →
  fs_realpath fs "/data/run1/sample.bam" = "/data/run1/sample.bam" →
  fs_exists fs "/data/run1/bwa" = false →
  fs_exists fs (posixpath.join (fs_cwd fs) "bwa") = false →
  (update_config fs scenario_A_args scenario_A_config "/mnt/in" h).1
  = Ok (scenario_A_remapped, ["/data/run1:/mnt/in/0"]).
Proof.
  intros Hbam Hreal Hbwa1 Hbwa2. rewrite update_config_run.
  change (search_dirs fs scenario_A_args) with ["/data/run1"; fs_cwd fs].
  set (dirs := ["/data/run1"; fs_cwd fs]).
  set (algorithm := VDict [("aligner", VStr "bwa")]).
  assert (abs_file_paths_value fs dirs top_ignore "files" (VStr "sample.bam")
          = Ok (VStr "/data/run1/sample.bam")) as Hfiles.
  { unfold abs_file_paths_value, dirs. by eval_steps. }
  assert (abs_file_paths_value fs dirs top_ignore "algorithm" algorithm
          = Ok algorithm) as Halgorithm.
  { unfold abs_file_paths_value. by destruct (negb _ && _). }
  assert (abs_file_paths_value fs dirs algorithm_ignore "aligner" (VStr "bwa")
          = Ok (VStr "bwa")) as Haligner.
  { unfold abs_file_paths_value, dirs. by eval_steps. }
  set (d1 := VDict [("files", VStr "/data/run1/sample.bam");
                    ("algorithm", algorithm)]).
  assert (absolutize_detail_with fs dirs
            (VDict [("files", VStr "sample.bam"); ("algorithm", algorithm)])
          = Ok d1) as Habs.
  { unfold absolutize_detail_with, abs_file_paths_with.
    rewrite dict_for_cons, Hfiles, Ok_bind.
    rewrite dict_for_cons, Halgorithm, Ok_bind, dict_for_nil.
    eval_steps. rewrite Haligner. by eval_steps. }
  assert (_get_directories fs d1 = Ok ["/data/run1"]) as Hdirs.
  { unfold d1, algorithm. by eval_steps. }
  assert (_remap_directories fs d1 [("/data/run1", "/mnt/in/0")]
          = Ok (VDict [("files", VStr "/mnt/in/0/sample.bam");
                       ("algorithm", algorithm)])) as Hremap.
  { unfold d1, algorithm. by eval_steps. }
  unfold update_config_with, scenario_A_config, absolutize_details_with.
  eval_steps. fold algorithm. rewrite Habs. eval_steps. rewrite Hdirs.
  eval_steps.
  change (allocate_mounts "/mnt/in" ["/data/run1"])
    with [("/data/run1", "/mnt/in/0")].
  unfold list_comp. rewrite for_each_cons, Hremap. by eval_steps.
Qed.

Lemma update_config_scenario_A_witness :
  (update_config scenario_A_host scenario_A_args scenario_A_config
     "/mnt/in" ∅).1
  = Ok (scenario_A_remapped, ["/data/run1:/mnt/in/0"]).
Proof. apply update_config_scenario_A; reflexivity. Defined.

(** ** The caller's [base_dirs] *)




(** ** prepare_system *)

Section prepare_system.
Variables datadir docker_biodata_dir : string.

Local Abbreviation system_dir := (resolved_dir datadir).
Local Abbreviation system_spec := (system_mount datadir docker_biodata_dir).
Local Abbreviation prepare_system_body :=
  (prepare_system_step datadir docker_biodata_dir).

Lemma extends_refl fs : extends fs fs.
Proof. by split. Qed.

Lemma extends_trans fs1 fs2 fs3 :
  extends fs1 fs2 → extends fs2 fs3 → extends fs1 fs3.
Proof.
  intros [H1 H2 H3 H4] [H1' H2' H3' H4']. split; [auto|congruence..].
Qed.

Lemma system_dir_extends fs fs' d :
  extends fs fs' → system_dir fs' d = system_dir fs d.
Proof. intros [_ Hr _ _]. unfold resolved_dir. by rewrite Hr. Qed.

Lemma prepare_system_body_run mounts d fs :
  fs_refuses fs (system_dir fs d) = false →
  ∃ fs',
    prepare_system_body mounts d fs = (Ok (mounts ++ [system_spec fs d]), fs')
    ∧ extends fs fs'
    ∧ fs_exists fs' (system_dir fs d) = true
    ∧ (fs_exists fs (system_dir fs d) = true → fs' = fs)
    ∧ (∀ p, fs_exists fs' p = true →
         fs_exists fs p = true ∨ p = system_dir fs d
         ∨ ancestor_of p (system_dir fs d) = true).
Proof.
  intros Hrefuses. unfold prepare_system_step.
  rewrite state_bind_run. cbn [read_state].
  fold (system_dir fs d). fold (system_spec fs d).
  destruct (fs_exists fs (system_dir fs d)) eqn:Hex; cbn [negb].
  - exists fs. split_and!; auto using extends_refl.
  - rewrite state_bind_run. unfold os_makedirs. rewrite Hex, Hrefuses.
    eexists. split; [reflexivity|]. split_and!.
    + split; [|done..]. intros p Hp. cbn. rewrite Hp. apply orb_true_r.
    + cbn. by rewrite bool_decide_eq_true_2.
    + done.
    + intros p. cbn. rewrite !orb_true_iff, bool_decide_eq_true. tauto.
Qed.

Lemma prepare_system_loop names mounts fs :
  (∀ d, d ∈ names → fs_refuses fs (system_dir fs d) = false) →
  ∃ fs',
    for_each prepare_system_body names mounts fs
    = (Ok (mounts ++ (system_spec fs <$> names)), fs')
    ∧ extends fs fs'
    ∧ (∀ d, d ∈ names → fs_exists fs' (system_dir fs d) = true)
    ∧ ((∀ d, d ∈ names → fs_exists fs (system_dir fs d) = true) → fs' = fs)
    ∧ (∀ p, fs_exists fs' p = true →
         fs_exists fs p = true
         ∨ ∃ d, d ∈ names ∧ (p = system_dir fs d
                             ∨ ancestor_of p (system_dir fs d) = true)).
Proof.
  revert mounts fs. induction names as [|d names IH]; intros mounts fs Href.
  { exists fs. rewrite app_nil_r. split_and!; auto using extends_refl.
    intros d []%elem_of_nil. }
  rewrite for_each_cons, state_bind_run.
  destruct (prepare_system_body_run mounts d fs)
    as (fs1 & -> & Hext1 & Hd & Hsame1 & Honly1); [apply Href; by left|].
  assert (∀ d', system_dir fs1 d' = system_dir fs d') as Hdir
    by (intros; by apply system_dir_extends).
  assert (∀ d', system_spec fs1 d' = system_spec fs d') as Hspec
    by (intros; unfold system_mount; by rewrite Hdir).
  destruct (IH (mounts ++ [system_spec fs d]) fs1)
    as (fs' & -> & Hext & Hall & Hsame & Honly).
  { intros d' Hd'. rewrite Hdir, (extends_refuses _ _ Hext1).
    apply Href. by right. }
  exists fs'. split_and!.
  - rewrite <-app_assoc. do 3 f_equal. cbn. f_equal.
    apply list_fmap_ext. auto.
  - by eapply extends_trans.
  - intros d' [->|Hd']%elem_of_cons.
    + by apply (extends_exists _ _ Hext).
    + rewrite <-Hdir. by apply Hall.
  - intros Hex. rewrite Hsame.
    + apply Hsame1, Hex. by left.
    + intros d' Hd'. rewrite Hdir. apply (extends_exists _ _ Hext1), Hex.
      by right.
  - intros p Hp. destruct (Honly p Hp) as [Hp1|(d' & Hd' & Hpd)].
    + destruct (Honly1 p Hp1) as [?|Hpd]; [by left|].
      right. exists d. split; [by left|]. tauto.
    + right. exists d'. split; [by right|]. by rewrite <-Hdir.
Qed.

Lemma prepare_system_unfold :
  prepare_system datadir docker_biodata_dir
  = for_each prepare_system_body system_names [].
Proof. done. Qed.

(** C9. When the system refuses none of the four directories,
    [prepare_system] returns exactly the four mount specs, one per name in
    the order of the names, each binding the resolved host directory to
    [docker_biodata_dir/<name>]; afterwards the four resolved directories
    exist; everything that existed still does, and what is new is one of
    the four directories or an intermediate directory of one; a run on a
    host that has all four creates nothing; and so a repeat invocation
    returns the same specs and leaves the filesystem as it is. *)
Theorem prepare_system_contract fs :
  (∀ d, d ∈ system_names → fs_refuses fs (system_dir fs d) = false) →
  ∃ fs',
    prepare_system datadir docker_biodata_dir fs
    = (Ok (system_spec fs <$> system_names), fs')
    ∧ length (system_spec fs <$> system_names) = 4
    ∧ (∀ d, d ∈ system_names → fs_exists fs' (system_dir fs d) = true)
    ∧ (∀ p, fs_exists fs p = true → fs_exists fs' p = true)
    ∧ (∀ p, fs_exists fs' p = true →
         fs_exists fs p = true
         ∨ ∃ d, d ∈ system_names
                ∧ (p = system_dir fs d
                   ∨ ancestor_of p (system_dir fs d) = true))
    ∧ ((∀ d, d ∈ system_names → fs_exists fs (system_dir fs d) = true) →
       fs' = fs)
    ∧ prepare_system datadir docker_biodata_dir fs'
      = (Ok (system_spec fs <$> system_names), fs').
Proof.
  intros Href. rewrite prepare_system_unfold.
  destruct (prepare_system_loop system_names [] fs Href)
    as (fs' & Hrun & Hext & Hall & Hsame & Honly).
  exists fs'. split_and!; try done.
  - apply (extends_exists _ _ Hext).
  - destruct (prepare_system_loop system_names [] fs')
      as (fs'' & Hrun' & _ & _ & Hsame' & _).
    { intros d Hd. rewrite (system_dir_extends _ _ _ Hext).
      rewrite (extends_refuses _ _ Hext). by apply Href. }
    rewrite Hrun'. rewrite Hsame'.
    + do 2 f_equal. apply list_fmap_ext. intros _ d _.
      unfold system_mount. by rewrite (system_dir_extends _ _ _ Hext).
    + intros d Hd. rewrite (system_dir_extends _ _ _ Hext). by apply Hall.
Qed.
End prepare_system.

Lemma prepare_system_contract_witness :
  let fs := scenario_C_host in
  let spec := system_mount "/data/bio" "/usr/local/share/bcbio" fs in
  let dir := resolved_dir "/data/bio" fs in
  ∃ fs',
    prepare_system "/data/bio" "/usr/local/share/bcbio" fs
    = (Ok (spec <$> system_names), fs')
    ∧ length (spec <$> system_names) = 4
    ∧ (∀ d, d ∈ system_names → fs_exists fs' (dir d) = true)
    ∧ (∀ p, fs_exists fs p = true → fs_exists fs' p = true)
    ∧ (∀ p, fs_exists fs' p = true →
         fs_exists fs p = true
         ∨ ∃ d, d ∈ system_names
                ∧ (p = dir d ∨ ancestor_of p (dir d) = true))
    ∧ ((∀ d, d ∈ system_names → fs_exists fs (dir d) = true) → fs' = fs)
    ∧ prepare_system "/data/bio" "/usr/local/share/bcbio" fs'
      = (Ok (spec <$> system_names), fs').
Proof.
  apply (prepare_system_contract "/data/bio" "/usr/local/share/bcbio"
           scenario_C_host).
  intros d _. reflexivity.
Defined.

(** Scenario C: on the empty data root the four directories are created and
    the four specs returned. *)
Example prepare_system_scenario_C :
  let '(mounts, fs') :=
    prepare_system "/data/bio" "/usr/local/share/bcbio" scenario_C_host in
  mounts = Ok ["/data/bio/genomes:/usr/local/share/bcbio/genomes";
               "/data/bio/liftOver:/usr/local/share/bcbio/liftOver";
               "/data/bio/gemini_data:/usr/local/share/bcbio/gemini_data";
               "/data/bio/galaxy:/usr/local/share/bcbio/galaxy"]
  ∧ fs_exists scenario_C_host
      <$> ["/data/bio/genomes"; "/data/bio/liftOver";
           "/data/bio/gemini_data"; "/data/bio/galaxy"]
    = [false; false; false; false]
  ∧ fs_exists fs'
      <$> ["/data/bio/genomes"; "/data/bio/liftOver";
           "/data/bio/gemini_data"; "/data/bio/galaxy"]
    = [true; true; true; true].
Proof. vm_compute. done. Qed.

(** ** Dicts *)

Lemma dict_set_fresh {V} k (v : V) d :
  k ∉ dict_keys d → dict_set k v d = d ++ [(k, v)].
Proof.
  unfold dict_keys. induction d as [|[k' v'] d IH]; intros Hk; [done|].
  cbn in *. apply not_elem_of_cons in Hk as [Hne Hk].
  rewrite decide_False by done. by rewrite IH.
Qed.

Lemma dict_keys_set {V} k (v : V) d :
  dict_keys (dict_set k v d)
  = if decide (k ∈ dict_keys d) then dict_keys d else dict_keys d ++ [k].
Proof.
  unfold dict_keys. induction d as [|[k' v'] d IH]; cbn.
  { rewrite decide_False; [done|]. apply not_elem_of_nil. }
  destruct (decide (k = k')) as [->|Hne]; cbn.
  - rewrite decide_True; [done|]. by left.
  - rewrite IH. destruct (decide (k ∈ d.*1)) as [Hin|Hnin].
    + rewrite decide_True; [done|]. by right.
    + rewrite decide_False; [done|]. by intros [?|?]%elem_of_cons.
Qed.

Lemma elem_of_dict_keys_set {V} k k' (v : V) d :
  k' ∈ dict_keys (dict_set k v d) ↔ k' = k ∨ k' ∈ dict_keys d.
Proof.
  rewrite dict_keys_set. destruct (decide (k ∈ dict_keys d)) as [Hin|Hnin].
  - split; [by right|]. by intros [->|?].
  - rewrite elem_of_app, list_elem_of_singleton. tauto.
Qed.

Lemma NoDup_dict_keys_set {V} k (v : V) d :
  NoDup (dict_keys d) → NoDup (dict_keys (dict_set k v d)).
Proof.
  intros Hd. rewrite dict_keys_set. destruct (decide _) as [Hin|Hnin]; [done|].
  apply NoDup_app. split_and!; [done| |apply NoDup_singleton].
  by intros k' Hk' ->%list_elem_of_singleton.
Qed.

Lemma dict_get_Some_elem_of {V} k (v : V) d :
  dict_get k d = Some v → (k, v) ∈ d.
Proof.
  induction d as [|[k' v'] d IH]; [done|]. cbn.
  destruct (decide (k = k')) as [->|Hne].
  - intros [= ->]. by left.
  - intros Hd. right. by apply IH.
Qed.

Lemma dict_get_elem_of {V} k (v : V) d :
  NoDup (dict_keys d) → (k, v) ∈ d → dict_get k d = Some v.
Proof.
  unfold dict_keys. induction d as [|[k' v'] d IH]; intros Hd Hkv.
  { by apply elem_of_nil in Hkv. }
  cbn in *. apply NoDup_cons in Hd as [Hk' Hd].
  apply elem_of_cons in Hkv as [[= -> ->]|Hkv].
  - by rewrite decide_True.
  - rewrite decide_False; [by apply IH|]. intros ->. apply Hk'.
    apply list_elem_of_fmap. by exists (k', v).
Qed.

Lemma dict_get_None {V} k (d : dict V) :
  dict_get k d = None ↔ k ∉ dict_keys d.
Proof.
  unfold dict_keys. induction d as [|[k' v'] d IH]; cbn.
  { split; [intros _; apply not_elem_of_nil|done]. }
  destruct (decide (k = k')) as [->|Hne].
  - split; [done|]. intros []. by left.
  - rewrite IH, not_elem_of_cons. tauto.
Qed.

Lemma dict_get_set {V} k k' (v : V) d :
  dict_get k' (dict_set k v d)
  = if decide (k' = k) then Some v else dict_get k' d.
Proof.
  induction d as [|[k'' v''] d IH]; cbn.
  { by destruct (decide (k' = k)). }
  destruct (decide (k = k'')) as [->|Hne]; cbn.
  - by destruct (decide (k' = k'')).
  - rewrite IH. destruct (decide (k' = k'')) as [->|?]; [|done].
    by rewrite decide_False.
Qed.

Lemma dict_set_id {V} k (v : V) d :
  dict_get k d = Some v → dict_set k v d = d.
Proof.
  induction d as [|[k' v'] d IH]; [done|]. cbn.
  destruct (decide (k = k')) as [->|Hne].
  - by intros [= ->].
  - intros Hd. by rewrite IH.
Qed.

(** ** The mount mapping *)

Lemma pretty_N_go_not_sep x s s' :
  s ≠ String "/" s' → pretty_N_go x s ≠ String "/" s'.
Proof.
  revert s. induction (N.lt_wf_0 x) as [x _ IH]; intros s Hs.
  assert (x = 0 ∨ 0 < x)%N as [->|?] by lia.
  - by rewrite pretty_N_go_0.
  - rewrite pretty_N_go_step by done. apply IH.
    { by apply N.div_lt. }
    unfold pretty_N_char. by repeat case_match.
Qed.

(** [str(i)] does not begin with a slash. *)
Lemma pretty_nat_not_sep (i : nat) : posixpath.startswith_sep (pretty i) = false.
Proof.
  assert (∀ s', pretty i ≠ String "/" s') as Hi.
  { intros s'. unfold pretty, pretty_nat, pretty, pretty_N.
    case_decide; [done|]. by apply pretty_N_go_not_sep. }
  destruct (pretty i) as [|c s] eqn:Hp; [done|]. cbn.
  apply bool_decide_eq_false_2. intros ->. by destruct (Hi s).
Qed.

Lemma sorted_py_set_sorted l : StronglySorted String.le (sorted (py_set l)).
Proof. apply StronglySorted_merge_sort; apply _. Qed.

Lemma sorted_py_set_NoDup l : NoDup (sorted (py_set l)).
Proof.
  unfold sorted, py_set. rewrite merge_sort_Permutation.
  apply NoDup_remove_dups.
Qed.

Lemma elem_of_sorted_py_set l d : d ∈ sorted (py_set l) ↔ d ∈ l.
Proof.
  unfold sorted, py_set. rewrite merge_sort_Permutation.
  apply elem_of_remove_dups.
Qed.

(** The sorted list of a set is the only sorted, duplicate-free list of its
    elements. *)
Lemma sorted_py_set_unique l ds :
  StronglySorted String.le ds → NoDup ds → (∀ d, d ∈ ds ↔ d ∈ l) →
  ds = sorted (py_set l).
Proof.
  intros Hsorted Hnodup Helem.
  apply (StronglySorted_unique String.le); [done|apply sorted_py_set_sorted|].
  apply NoDup_Permutation; [done|apply sorted_py_set_NoDup|].
  intros d. by rewrite elem_of_sorted_py_set.
Qed.

Lemma sorted_py_set_ext l1 l2 :
  (∀ d, d ∈ l1 ↔ d ∈ l2) → sorted (py_set l1) = sorted (py_set l2).
Proof.
  intros Helem. apply sorted_py_set_unique.
  - apply sorted_py_set_sorted.
  - apply sorted_py_set_NoDup.
  - intros d. by rewrite elem_of_sorted_py_set.
Qed.

Lemma allocate_mounts_foldl (g : nat → string) (k : nat → nat) ds acc :
  NoDup ds → (∀ d, d ∈ ds → d ∉ dict_keys acc) →
  foldl (λ mounts '(i, d), dict_set d (g i) mounts) acc
    (imap (λ i d, (k i, d)) ds)
  = acc ++ imap (λ i d, (d, g (k i))) ds.
Proof.
  revert k acc. induction ds as [|d ds IH]; intros k acc Hds Hacc.
  { by rewrite app_nil_r. }
  apply NoDup_cons in Hds as [Hd Hds]. rewrite !imap_cons. cbn [foldl].
  rewrite dict_set_fresh by (apply Hacc; by left).
  rewrite (IH (k ∘ S)); [by rewrite <-app_assoc|done|].
  intros d' Hd'. unfold dict_keys. rewrite fmap_app, elem_of_app.
  intros [Hin|Hin%list_elem_of_singleton].
  - apply (Hacc d'); [by right|done].
  - cbn in Hin. by subst.
Qed.

(** The mount mapping, entry by entry, in sorted order. *)
Lemma allocate_mounts_imap input_dir directories :
  allocate_mounts input_dir directories
  = imap (λ i d, (d, posixpath.join input_dir (pretty i)))
      (sorted (py_set directories)).
Proof.
  unfold allocate_mounts, enumerate.
  rewrite (allocate_mounts_foldl
             (λ i, posixpath.join input_dir (pretty i)) id); [done| |].
  - apply sorted_py_set_NoDup.
  - intros d _. apply not_elem_of_nil.
Qed.

Lemma allocate_mounts_keys input_dir directories :
  dict_keys (allocate_mounts input_dir directories)
  = sorted (py_set directories).
Proof.
  rewrite allocate_mounts_imap. unfold dict_keys. rewrite fmap_imap.
  rewrite <-(list_fmap_id (sorted _)) at 2. by rewrite <-imap_const.
Qed.

Lemma allocate_mounts_lookup input_dir directories i d :
  sorted (py_set directories) !! i = Some d →
  dict_get d (allocate_mounts input_dir directories)
  = Some (posixpath.join input_dir (pretty i)).
Proof.
  intros Hi. apply dict_get_elem_of.
  { rewrite allocate_mounts_keys. apply sorted_py_set_NoDup. }
  rewrite allocate_mounts_imap. apply list_elem_of_lookup. exists i.
  by rewrite list_lookup_imap, Hi.
Qed.

Lemma allocate_mounts_elem_of input_dir directories d m :
  (d, m) ∈ allocate_mounts input_dir directories →
  ∃ i : nat, sorted (py_set directories) !! i = Some d
             ∧ m = posixpath.join input_dir (pretty i).
Proof.
  rewrite allocate_mounts_imap. intros (i & Hi)%list_elem_of_lookup.
  rewrite list_lookup_imap in Hi.
  destruct (sorted _ !! i) as [d'|] eqn:Hd; [|done].
  cbn in Hi. injection Hi as <- <-. by exists i.
Qed.

Lemma join_pretty input_dir (i : nat) :
  posixpath.join input_dir (pretty i)
  = if bool_decide (input_dir = "") || posixpath.endswith_sep input_dir
    then input_dir +:+ pretty i else input_dir +:+ "/" +:+ pretty i.
Proof. unfold posixpath.join. by rewrite pretty_nat_not_sep. Qed.

(** C5. Two discovery sequences with the same underlying set of directories
    get the same mount mapping.  The directories are taken in the one sorted,
    duplicate-free order of that set, and the directory at zero-based position
    [i] of it is mapped to [os.path.join(input_dir, str(i))], which is
    [input_dir/i] for a mount root that is not empty and has no trailing
    slash. *)
Theorem allocate_mounts_deterministic input_dir l1 l2 :
  (∀ d, d ∈ l1 ↔ d ∈ l2) →
  let ds := sorted (py_set l1) in
  allocate_mounts input_dir l1 = allocate_mounts input_dir l2
  ∧ (StronglySorted String.le ds ∧ NoDup ds ∧ ∀ d, d ∈ ds ↔ d ∈ l1)
  ∧ (∀ ds', StronglySorted String.le ds' → NoDup ds' →
            (∀ d, d ∈ ds' ↔ d ∈ l1) → ds' = ds)
  ∧ ∀ (i : nat) d, ds !! i = Some d →
      dict_get d (allocate_mounts input_dir l1)
      = Some (posixpath.join input_dir (pretty i))
      ∧ dict_get d (allocate_mounts input_dir l2)
        = Some (posixpath.join input_dir (pretty i))
      ∧ (input_dir ≠ "" → posixpath.endswith_sep input_dir = false →
         posixpath.join input_dir (pretty i) = input_dir +:+ "/" +:+ pretty i).
Proof.
  intros Helem ds. split_and!.
  - rewrite !allocate_mounts_imap. by rewrite (sorted_py_set_ext l1 l2).
  - apply sorted_py_set_sorted.
  - apply sorted_py_set_NoDup.
  - intros d. apply elem_of_sorted_py_set.
  - intros ds'. apply sorted_py_set_unique.
  - intros i d Hi. split_and!.
    + by apply allocate_mounts_lookup.
    + apply allocate_mounts_lookup. by rewrite <-(sorted_py_set_ext l1 l2).
    + intros Hne Hsep. rewrite join_pretty, Hsep.
      by rewrite bool_decide_eq_false_2.
Qed.

Lemma allocate_mounts_deterministic_witness :
  let l1 := ["/data/run2"; "/data/run1"; "/data/run2"] in
  let l2 := ["/data/run1"; "/data/run2"] in
  let ds := sorted (py_set l1) in
  allocate_mounts "/mnt/in" l1 = allocate_mounts "/mnt/in" l2
  ∧ (StronglySorted String.le ds ∧ NoDup ds ∧ ∀ d, d ∈ ds ↔ d ∈ l1)
  ∧ (∀ ds', StronglySorted String.le ds' → NoDup ds' →
            (∀ d, d ∈ ds' ↔ d ∈ l1) → ds' = ds)
  ∧ ∀ (i : nat) d, ds !! i = Some d →
      dict_get d (allocate_mounts "/mnt/in" l1)
      = Some (posixpath.join "/mnt/in" (pretty i))
      ∧ dict_get d (allocate_mounts "/mnt/in" l2)
        = Some (posixpath.join "/mnt/in" (pretty i))
      ∧ ("/mnt/in" ≠ "" → posixpath.endswith_sep "/mnt/in" = false →
         posixpath.join "/mnt/in" (pretty i) = "/mnt/in" +:+ "/" +:+ pretty i).
Proof.
  apply (allocate_mounts_deterministic "/mnt/in"
           ["/data/run2"; "/data/run1"; "/data/run2"]
           ["/data/run1"; "/data/run2"]).
  intros d. rewrite !elem_of_cons, elem_of_nil. tauto.
Defined.

Example allocate_mounts_two_directories :
  allocate_mounts "/mnt/in" ["/data/run2"; "/data/run1"; "/data/run2"]
  = [("/data/run1", "/mnt/in/0"); ("/data/run2", "/mnt/in/1")].
Proof. reflexivity. Qed.

(** ** The first loop of update_config *)

Section first_loop.
Variable fs : filesystem.

Lemma absolutize_details_with_Ok dirs details acc absdetails directories :
  absolutize_details_with fs dirs details acc = Ok (absdetails, directories) →
  ∃ ds dss,
    absdetails = acc.1 ++ ds ∧ directories = acc.2 ++ concat dss
    ∧ Forall2 (λ d d', absolutize_detail_with fs dirs d = Ok d') details ds
    ∧ Forall2 (λ d' ds', _get_directories fs d' = Ok ds') ds dss.
Proof.
  unfold absolutize_details_with. revert acc.
  induction details as [|d details IH]; intros [abs0 dirs0].
  { intros [= <- <-]. exists [], []. cbn. by rewrite !app_nil_r. }
  rewrite for_each_cons. intros ([abs1 dirs1] & Hd & Hrest)%bind_Ok.
  apply bind_Ok in Hd as (d' & Hd' & Hd).
  apply bind_Ok in Hd as (ds' & Hds' & [= <- <-]).
  apply IH in Hrest as (ds & dss & -> & -> & Hds & Hdss). cbn.
  exists (d' :: ds), (ds' :: dss). rewrite <-!app_assoc. cbn.
  split_and!; by try constructor.
Qed.

(** What [update_config] builds on the way to its result. *)
Lemma update_config_with_Ok dirs config input_dir config' specs :
  update_config_with fs dirs config input_dir = Ok (config', specs) →
  ∃ details items absdetails directories remapped,
    getitem config "details" = Ok details
    ∧ iter_value details = Ok items
    ∧ absolutize_details_with fs dirs items ([], [])
      = Ok (absdetails, directories)
    ∧ Forall2 (λ d d', _remap_directories fs d
                         (allocate_mounts input_dir directories) = Ok d')
        absdetails remapped
    ∧ setitem config "details" (VList remapped) = Ok config'
    ∧ specs = mount_specs (allocate_mounts input_dir directories).
Proof.
  unfold update_config_with.
  intros (details & Hdetails & H)%bind_Ok.
  apply bind_Ok in H as (items & Hitems & H).
  apply bind_Ok in H as ([absdetails directories] & Habs & H).
  apply bind_Ok in H as (remapped & Hremap%list_comp_Ok & H).
  apply bind_Ok in H as (config'' & Hset & [= <- <-]).
  by exists details, items, absdetails, directories, remapped.
Qed.
End first_loop.



(** ** Loops that build a dict *)

Lemma elem_of_dict_set {V} k k' (v v' : V) d :
  (k', v') ∈ dict_set k v d → (k' = k ∧ v' = v) ∨ (k', v') ∈ d.
Proof.
  induction d as [|[k'' v''] d IH]; cbn.
  { intros [= -> ->]%list_elem_of_singleton. by left. }
  destruct (decide (k = k'')) as [->|Hne].
  - intros [[= -> ->]|Hin]%elem_of_cons; [by left|]. right. by right.
  - intros [[= -> ->]|Hin]%elem_of_cons; [right; by left|].
    destruct (IH Hin) as [?|?]; [by left|]. right. by right.
Qed.

Section dict_for.
Variable body : string → value → result value.

Lemma dict_for_Ok_inv items out out' :
  dict_for body items out = Ok out' →
  (∀ k, k ∈ dict_keys out' ↔ k ∈ dict_keys out ∨ k ∈ dict_keys items)
  ∧ (NoDup (dict_keys out) → NoDup (dict_keys out'))
  ∧ (∀ k y, (k, y) ∈ out' →
       (k, y) ∈ out ∨ ∃ x, (k, x) ∈ items ∧ body k x = Ok y)
  ∧ (∀ k x, (k, x) ∈ items → is_Ok (body k x)).
Proof.
  revert out. induction items as [|[k x] items IH]; intros out.
  { rewrite dict_for_nil. intros [= <-]. split_and!; [|done|by left|].
    - intros k. cbn. rewrite elem_of_nil. tauto.
    - by intros k x ?%elem_of_nil. }
  rewrite dict_for_cons. intros (y & Hy & Hrest)%bind_Ok.
  apply IH in Hrest as (Hkeys & Hnodup & Helem & Hok). split_and!.
  - intros k'. rewrite Hkeys, elem_of_dict_keys_set. cbn.
    rewrite elem_of_cons. tauto.
  - intros Hout. by apply Hnodup, NoDup_dict_keys_set.
  - intros k' y' [Hin|(x' & Hin & Hbody)]%Helem.
    + apply elem_of_dict_set in Hin as [[-> ->]|Hin]; [|by left].
      right. exists x. split; [by left|done].
    + right. exists x'. split; [by right|done].
  - intros k' x' [[= -> ->]|Hin]%elem_of_cons; [by exists y|by eapply Hok].
Qed.

Lemma dict_for_Raise items out k x :
  (k, x) ∈ items → is_Raise (body k x) → is_Raise (dict_for body items out).
Proof.
  intros Hin Hraise. destruct (Ok_or_Raise (dict_for body items out))
    as [[out' Hout]|]; [|done].
  apply dict_for_Ok_inv in Hout as (_ & _ & _ & Hok).
  destruct (not_Ok_Raise (body k x)); eauto.
Qed.

(** When the keys are distinct, each one is written once and the loop is a
    map over the items. *)
Lemma dict_for_NoDup items out out' :
  NoDup (dict_keys items) →
  (∀ k, k ∈ dict_keys items → k ∉ dict_keys out) →
  dict_for body items out = Ok out'
  ↔ ∃ ys, out' = out ++ ys
          ∧ Forall2 (λ kx ky, kx.1 = ky.1 ∧ body kx.1 kx.2 = Ok ky.2)
              items ys.
Proof.
  revert out out'. induction items as [|[k x] items IH];
    intros out out' Hnodup Hfresh.
  { rewrite dict_for_nil. split.
    - intros [= <-]. exists []. by rewrite app_nil_r.
    - intros (ys & -> & Hys). inversion Hys. by rewrite app_nil_r. }
  cbn in Hnodup. apply NoDup_cons in Hnodup as [Hk Hnodup].
  rewrite dict_for_cons, bind_Ok.
  assert (∀ y k', k' ∈ dict_keys items →
            k' ∉ dict_keys (dict_set k y out)) as Hfresh'.
  { intros y k' Hk'. rewrite elem_of_dict_keys_set. intros [->|Hin]; [done|].
    apply (Hfresh k'); [by right|done]. }
  split.
  - intros (y & Hy & Hrest). apply IH in Hrest as (ys & -> & Hys); [|done|auto].
    exists ((k, y) :: ys). rewrite dict_set_fresh by (apply Hfresh; by left).
    rewrite <-app_assoc. split; [done|]. by constructor.
  - intros (ys & -> & Hys).
    inversion Hys as [|? [k' y] ? ys' [Hkk Hy] Hys']; simplify_eq/=.
    exists y. split; [done|]. apply IH; [done|auto|]. exists ys'.
    rewrite dict_set_fresh by (apply Hfresh; by left).
    by rewrite <-app_assoc.
Qed.

Lemma dict_for_id items :
  NoDup (dict_keys items) →
  (∀ k x, (k, x) ∈ items → body k x = Ok x) →
  dict_for body items [] = Ok items.
Proof.
  intros Hnodup Hid. apply dict_for_NoDup; [done|..].
  { intros k _. apply not_elem_of_nil. }
  exists items. split; [done|]. apply Forall_Forall2_diag, Forall_forall.
  intros [k x] Hin. split; [done|]. by apply Hid.
Qed.
End dict_for.

Lemma Forall2_impl_Forall {A B} (P : A → Prop) (R S : A → B → Prop) l k :
  Forall P l → Forall2 R l k → (∀ x y, P x → R x y → S x y) → Forall2 S l k.
Proof.
  intros HP HR HS. induction HR as [|x y l k Hxy HR IH]; [constructor|].
  apply Forall_cons in HP as [Hx HP]. constructor; auto.
Qed.

Lemma Forall2_dict_get {V W} (R : V → W → Prop) (d : dict V) (d' : dict W) k v :
  Forall2 (λ kx ky, kx.1 = ky.1 ∧ R kx.2 ky.2) d d' →
  dict_get k d = Some v → ∃ v', dict_get k d' = Some v' ∧ R v v'.
Proof.
  intros Hd. induction Hd as [|[k1 v1] [k2 v2] d d' [Hk HR] Hd IH]; [done|].
  cbn in *. subst k2. destruct (decide (k = k1)); [|done].
  intros [= ->]. by exists v2.
Qed.

Lemma Forall2_dict_keys {V W} (R : V → W → Prop) (d : dict V) (d' : dict W) :
  Forall2 (λ kx ky, kx.1 = ky.1 ∧ R kx.2 ky.2) d d' →
  dict_keys d' = dict_keys d.
Proof.
  intros Hd. unfold dict_keys.
  induction Hd as [|[k1 v1] [k2 v2] d d' [Hk HR] Hd IH]; [done|].
  cbn in *. by rewrite IH, Hk.
Qed.

(** ** One classification for both passes *)

Section classification.
Variable fs : filesystem.

(** [_get_directories] and [_remap_directories] decide by the same test
    whether the value of a key is a path. *)
Lemma value_directories_classified v :
  is_dict v = false →
  value_directories fs v
  = c ← path_classified fs v;
    if c : bool then
      match v with
      | VStr s => Ok [posixpath.dirname s]
      | VList l | VTuple l => list_comp os_path_dirname l
      | _ => Ok []
      end
    else Ok [].
Proof.
  destruct v as [| | |s|l|l|]; try done; intros _; cbn [value_directories
    path_classified].
  - by destruct (truthy (VList l)).
  - by destruct (truthy (VTuple l)).
Qed.

Lemma remap_value_classified mounts v :
  is_dict v = false →
  remap_value fs mounts v
  = c ← path_classified fs v;
    if c : bool then
      match v with
      | VStr _ => remap_path mounts v
      | VList l | VTuple l => VList <$> list_comp (remap_path mounts) l
      | _ => Ok v
      end
    else Ok v.
Proof.
  destruct v as [| | |s|l|l|]; try done; intros _; cbn [remap_value
    path_classified].
  - by destruct (truthy (VList l)).
  - by destruct (truthy (VTuple l)).
Qed.

Lemma remap_value_dict mounts items :
  remap_value fs mounts (VDict items)
  = _remap_directories fs (VDict items) mounts.
Proof. done. Qed.

Lemma remap_path_Ok mounts x y :
  remap_path mounts x = Ok y →
  ∃ s m, x = VStr s ∧ dict_get (posixpath.dirname s) mounts = Some m
         ∧ y = VStr (posixpath.join m (posixpath.split s).2).
Proof.
  unfold remap_path. destruct x as [| | |s| | |]; try done. cbn.
  unfold posixpath.dirname.
  destruct (posixpath.split s) as [dirname basename] eqn:Hsplit.
  cbn. destruct (dict_get dirname mounts) as [m|] eqn:Hm; [|done].
  intros [= <-]. exists s, m. by rewrite Hsplit.
Qed.

Lemma remap_path_missing mounts s :
  dict_get (posixpath.dirname s) mounts = None →
  remap_path mounts (VStr s) = Raise (KeyError (posixpath.dirname s)).
Proof.
  unfold remap_path, posixpath.dirname. cbn.
  destruct (posixpath.split s) as [dirname basename]. cbn. by intros ->.
Qed.

(** A path leaf whose directory has no mount point makes the value of its
    key raise. *)
Lemma remap_value_missing mounts v x :
  path_classified fs v = Ok true →
  (v = VStr x ∨ ∃ l, (v = VList l ∨ v = VTuple l) ∧ VStr x ∈ l) →
  dict_get (posixpath.dirname x) mounts = None →
  is_Raise (remap_value fs mounts v).
Proof.
  intros Hc Hv Hx.
  assert (is_dict v = false) as Hd
    by (destruct Hv as [->|(l & [-> | ->] & _)]; done).
  rewrite remap_value_classified, Hc, Ok_bind by done.
  assert (is_Raise (remap_path mounts (VStr x))) as Hraise
    by (rewrite remap_path_missing by done; by eexists).
  destruct Hv as [->|(l & [-> | ->] & Hin)]; [done|..];
    (destruct (list_comp_Raise (remap_path mounts) l (VStr x) Hin Hraise)
       as [e ->]; by exists e).
Qed.
End classification.

(** ** The remap pass fails on a missing mount point *)

(** C6. If the tree holds, under some chain of keys, a leaf classified as a
    path (a string, or a list with the string [x] in it) and the containing
    directory of that path is not a key of the mount mapping, then
    [_remap_directories] raises: it returns no tree. *)
Theorem remap_raises_on_mapping_miss fs mounts xs ks v x :
  ks ≠ [] →
  lookup_path ks xs = Some v →
  path_classified fs v = Ok true →
  (v = VStr x ∨ ∃ l, (v = VList l ∨ v = VTuple l) ∧ VStr x ∈ l) →
  dict_get (posixpath.dirname x) mounts = None →
  is_Raise (_remap_directories fs xs mounts).
Proof.
  intros Hks Hlookup Hc Hv Hx. revert xs Hks Hlookup.
  induction ks as [|k ks IH]; intros xs Hks Hlookup; [done|].
  destruct xs as [| | | | | |items]; try done. cbn in Hlookup.
  destruct (dict_get k items) as [v1|] eqn:Hk; [|done]. cbn in Hlookup.
  apply dict_get_Some_elem_of in Hk.
  rewrite _remap_directories_dict.
  assert (is_Raise (remap_value fs mounts v1)) as Hraise.
  { destruct ks as [|k' ks].
    - injection Hlookup as ->. by eapply remap_value_missing.
    - destruct v1 as [| | | | | |items1]; try done.
      rewrite remap_value_dict. by apply IH. }
  destruct (dict_for_Raise (λ _, remap_value fs mounts) items [] k v1 Hk Hraise)
    as [e ->].
  by exists e.
Qed.

Lemma remap_raises_on_mapping_miss_witness :
  is_Raise (_remap_directories scenario_A_host
              (VDict [("algorithm", VDict [("aligner", VStr "bwa")]);
                      ("files", VStr "/data/run1/sample.bam")])
              [("/data/run2", "/mnt/in/0")]).
Proof.
  apply (remap_raises_on_mapping_miss scenario_A_host
           [("/data/run2", "/mnt/in/0")] _ ["files"]
           (VStr "/data/run1/sample.bam") "/data/run1/sample.bam").
  - discriminate.
  - reflexivity.
  - reflexivity.
  - left. reflexivity.
  - reflexivity.
Defined.

Example remap_raises_KeyError :
  _remap_directories scenario_A_host
    (VDict [("files", VStr "/data/run1/sample.bam")])
    [("/data/run2", "/mnt/in/0")]
  = Raise (KeyError "/data/run1").
Proof. reflexivity. Qed.

(** ** The remap pass keeps the shape of the tree *)

Section shape.
Variable fs : filesystem.
Variable mounts : dict string.

Lemma lookup_path_leaf ks v v0 :
  is_dict v = false → lookup_path ks v = Some v0 → ks = [] ∧ v0 = v.
Proof.
  destruct ks as [|k ks]; cbn.
  - by intros _ [= <-].
  - by destruct v.
Qed.

Lemma remap_paths_strings l l' :
  Forall2 (λ x y, remap_path mounts x = Ok y) l l' →
  length l' = length l
  ∧ foldr (λ x n, depth x `max` n) 0 l = 0
  ∧ foldr (λ x n, depth x `max` n) 0 l' = 0.
Proof.
  induction 1 as [|x y l l' (s & m & -> & _ & ->)%remap_path_Ok _ IH];
    [done|].
  destruct IH as (Hlen & Hl & Hl'). cbn. by rewrite Hlen, Hl, Hl'.
Qed.

Lemma remap_value_unclassified v :
  is_dict v = false → path_classified fs v = Ok false →
  remap_value fs mounts v = Ok v.
Proof. intros Hd Hc. by rewrite remap_value_classified, Hc by done. Qed.

Lemma remap_value_leaf_remapped v v' :
  is_dict v = false → remap_value fs mounts v = Ok v' → remapped fs mounts v v'.
Proof.
  intros Hd Hv.
  assert (∀ ks v0, lookup_path ks v = Some v0 → is_dict v0 = false →
            ∃ v1, lookup_path ks v' = Some v1
                  ∧ remap_value fs mounts v0 = Ok v1) as Hleaf.
  { intros ks v0 [-> ->]%lookup_path_leaf; [|done]. intros _. by exists v'. }
  rewrite remap_value_classified in Hv by done.
  apply bind_Ok in Hv as (c & Hc & Hv'). destruct c.
  - destruct v as [| | |s|l|l|]; try done.
    + apply remap_path_Ok in Hv' as (s' & m & _ & _ & ->). by split_and!.
    + apply fmap_Ok in Hv' as (l' & Hl'%list_comp_Ok & ->).
      apply remap_paths_strings in Hl' as (Hlen & Hdl & Hdl').
      split_and!; [|by cbn; rewrite Hdl, Hdl'|done].
      cbn. f_equal. rewrite !map_const. by rewrite Hlen.
    + apply fmap_Ok in Hv' as (l' & Hl'%list_comp_Ok & ->).
      apply remap_paths_strings in Hl' as (Hlen & Hdl & Hdl').
      split_and!; [|by cbn; rewrite Hdl, Hdl'|done].
      cbn. f_equal. rewrite !map_const. by rewrite Hlen.
  - injection Hv' as <-. by split_and!.
Qed.

Lemma remapped_dict items items' :
  Forall2 (λ kx ky, kx.1 = ky.1 ∧ remapped fs mounts kx.2 ky.2) items items' →
  remapped fs mounts (VDict items) (VDict items').
Proof.
  intros Hitems. split_and!.
  - cbn. f_equal.
    induction Hitems as [|[k v] [k' v'] ?? [Hk (Hs & _)] _ IH]; [done|].
    cbn in *. by rewrite IH, Hk, Hs.
  - cbn. f_equal.
    induction Hitems as [|[k v] [k' v'] ?? [Hk (_ & Hd & _)] _ IH]; [done|].
    cbn in *. by rewrite IH, Hd.
  - intros [|k ks] v0; [by intros [= <-]|]. cbn.
    destruct (dict_get k items) as [v|] eqn:Hk; [|done]. cbn.
    destruct (Forall2_dict_get _ _ _ _ _ Hitems Hk) as (v' & -> & _ & _ & Hv').
    cbn. apply Hv'.
Qed.

Lemma well_formed_dict items :
  well_formed (VDict items) = true →
  NoDup (dict_keys items) ∧ Forall (λ kv, well_formed kv.2 = true) items.
Proof.
  cbn. intros [Hnodup Hitems]%andb_true_iff. split.
  - by apply bool_decide_eq_true in Hnodup.
  - apply Forall_forall. intros [k v] Hin.
    rewrite List.forallb_forall in Hitems.
    by apply (Hitems (k, v)), list_elem_of_In.
Qed.

Lemma remap_value_remapped v v' :
  well_formed v = true → remap_value fs mounts v = Ok v' →
  remapped fs mounts v v'.
Proof.
  revert v'. induction v as [| | | | | |items IH] using value_ind;
    intros v' Hwf; try by apply remap_value_leaf_remapped.
  rewrite remap_value_dict, _remap_directories_dict.
  intros (items' & Hfor & ->)%fmap_Ok.
  apply well_formed_dict in Hwf as [Hnodup Hwf].
  apply dict_for_NoDup in Hfor as (ys & -> & Hys);
    [|done|intros ? _; apply not_elem_of_nil].
  apply remapped_dict. cbn.
  eapply Forall2_impl_Forall; [|exact Hys|].
  { apply Forall_and. split; [exact IH|exact Hwf]. }
  intros [k v] [k' y]. cbn. intros [IHv Hv] [-> Hy]. split; [done|].
  by apply IHv.
Qed.

Lemma _remap_directories_remapped items out :
  well_formed (VDict items) = true →
  _remap_directories fs (VDict items) mounts = Ok out →
  remapped fs mounts (VDict items) out.
Proof. rewrite <-remap_value_dict. apply remap_value_remapped. Qed.
End shape.

(** C8. For a tree whose dicts have distinct keys, when
    [_remap_directories] succeeds its output has the shape of the input (the
    same keys in the same order at every nesting level, and the same length
    for every sequence), the same nesting depth, and every leaf that is no
    dict and is not classified as a path is found, equal, under the same
    chain of keys. *)
Theorem remap_preserves_shape fs mounts xs out :
  well_formed xs = true →
  _remap_directories fs xs mounts = Ok out →
  skeleton out = skeleton xs
  ∧ depth out = depth xs
  ∧ ∀ ks v, lookup_path ks xs = Some v → is_dict v = false →
      path_classified fs v = Ok false → lookup_path ks out = Some v.
Proof.
  intros Hwf Hout. destruct (is_dict xs) eqn:Hd.
  - destruct xs as [| | | | | |items]; try done.
    apply _remap_directories_remapped in Hout as (Hs & Hdepth & Hleaves);
      [|done].
    split_and!; [done..|]. intros ks v Hv Hdv Hc.
    destruct (Hleaves ks v Hv Hdv) as (v1 & Hv1 & Hremap).
    rewrite remap_value_unclassified in Hremap by done. by injection Hremap as <-.
  - rewrite _remap_directories_non_dict in Hout by (by intros ? ->).
    by injection Hout as <-.
Qed.

Lemma remap_preserves_shape_witness :
  let xs := VDict [("files", VList [VStr "/data/run1/sample.bam"]);
                   ("lane", VInt 3);
                   ("algorithm", VDict [("aligner", VStr "bwa")])] in
  let out := VDict [("files", VList [VStr "/mnt/in/0/sample.bam"]);
                    ("lane", VInt 3);
                    ("algorithm", VDict [("aligner", VStr "bwa")])] in
  skeleton out = skeleton xs
  ∧ depth out = depth xs
  ∧ ∀ ks v, lookup_path ks xs = Some v → is_dict v = false →
      path_classified scenario_A_host v = Ok false →
      lookup_path ks out = Some v.
Proof.
  intros xs out.
  apply (remap_preserves_shape scenario_A_host [("/data/run1", "/mnt/in/0")]).
  - reflexivity.
  - reflexivity.
Defined.

(** Scenario B: both elements of a list go to the one mount point of their
    directory. *)
Example remap_scenario_B :
  _remap_directories
    (literal_host "/home/user" ["/data/run1/a.bam"; "/data/run1/b.bam"])
    (VDict [("files", VList [VStr "/data/run1/a.bam";
                             VStr "/data/run1/b.bam"])])
    (allocate_mounts "/mnt/in" ["/data/run1"; "/data/run1"])
  = Ok (VDict [("files", VList [VStr "/mnt/in/0/a.bam";
                                VStr "/mnt/in/0/b.bam"])]).
Proof. reflexivity. Qed.

(** ** Lists: the first-element test *)

(** For a list or tuple that is not empty and begins with a string, both
    passes test that this first string exists, and nothing else. *)
Lemma path_classified_list fs l s :
  first l = VStr s → l ≠ [] →
  path_classified fs (VList l) = Ok (fs_exists fs s)
  ∧ path_classified fs (VTuple l) = Ok (fs_exists fs s).
Proof.
  intros Hfirst Hl. cbn. rewrite bool_decide_eq_false_2 by done. cbn.
  by rewrite Hfirst.
Qed.

(** C7, at the failing input.  A list whose first element is a relative path
    that exists (here in the working directory) is classified as a list of
    paths by both passes: [_get_directories] emits the (empty) directory of
    the relative path where the claim has it emit nothing, and
    [_remap_directories] rewrites the element.  A string with the same
    content is left alone by the sibling branch, which tests [os.path.isabs].
    Through [update_config] the empty directory becomes a mount spec with no
    host side. *)
Example get_directories_relative_list :
  let fs := working_dir_host in
  posixpath.isabs "sample.bam" = false
  ∧ fs_exists fs "sample.bam" = true
  ∧ _get_directories fs (VDict [("files", VList [VStr "sample.bam"])])
    = Ok [""]
  ∧ _get_directories fs (VDict [("files", VStr "sample.bam")]) = Ok []
  ∧ _remap_directories fs (VDict [("files", VList [VStr "sample.bam"])])
      [("", "/mnt/in/0")]
    = Ok (VDict [("files", VList [VStr "/mnt/in/0/sample.bam"])])
  ∧ (update_config fs {| fcdir := None |} relative_list_config "/mnt/in" ∅).1
    = Ok (VDict [("details",
                  VList [VDict [("metadata",
                                 VDict [("files",
                                         VList [VStr "/mnt/in/0/sample.bam"])]);
                                ("algorithm",
                                 VDict [("aligner", VStr "bwa")])]])],
          [":/mnt/in/0"]).
Proof. vm_compute. done. Qed.

(** ** Ignored keys *)

Lemma Forall2_dict_get_key {V W} (R : string → V → W → Prop)
    (d : dict V) (d' : dict W) k :
  Forall2 (λ kx ky, kx.1 = ky.1 ∧ R kx.1 kx.2 ky.2) d d' →
  match dict_get k d with
  | Some v => ∃ v', dict_get k d' = Some v' ∧ R k v v'
  | None => dict_get k d' = None
  end.
Proof.
  intros Hd. induction Hd as [|[k1 v1] [k2 v2] d d' [Hk HR] Hd IH]; [done|].
  cbn in *. subst k2. destruct (decide (k = k1)) as [->|]; [|done].
  by exists v2.
Qed.

Section ignore.
Variable fs : filesystem.

Lemma abs_file_paths_value_ignored dirs ignore k v :
  k ∈ ignore → abs_file_paths_value fs dirs ignore k v = Ok v.
Proof.
  intros Hk. unfold abs_file_paths_value.
  by rewrite bool_decide_eq_true_2.
Qed.

Lemma abs_file_paths_value_dict dirs ignore k items :
  abs_file_paths_value fs dirs ignore k (VDict items) = Ok (VDict items).
Proof. unfold abs_file_paths_value. by destruct (negb _ && _). Qed.

Lemma abs_file_paths_value_is_dict dirs ignore k v v' :
  abs_file_paths_value fs dirs ignore k v = Ok v' → is_dict v' = is_dict v.
Proof.
  unfold abs_file_paths_value. destruct (negb _ && _); [|by intros [= <-]].
  destruct v as [| | |s|l|l|]; try by intros [= <-].
  - intros (p & _ & Hv')%bind_Ok. destruct (truthy _); [|by injection Hv' as <-].
    apply fmap_Ok in Hv' as (o & _ & ->). by destruct o.
  - intros (p & _ & Hv')%bind_Ok. destruct (truthy _); [|by injection Hv' as <-].
    by apply fmap_Ok in Hv' as (? & _ & ->).
  - intros (p & _ & Hv')%bind_Ok. destruct (truthy _); [|by injection Hv' as <-].
    by apply fmap_Ok in Hv' as (? & _ & ->).
Qed.

Lemma abs_file_paths_with_dict_Ok dirs ignore items out :
  NoDup (dict_keys items) →
  abs_file_paths_with fs dirs ignore (VDict items) = Ok out →
  ∃ items', out = VDict items'
    ∧ Forall2 (λ kx ky, kx.1 = ky.1
                 ∧ abs_file_paths_value fs dirs ignore kx.1 kx.2 = Ok ky.2)
        items items'.
Proof.
  intros Hnodup (items' & Hfor & ->)%fmap_Ok.
  apply dict_for_NoDup in Hfor as (ys & -> & Hys);
    [|done|intros ? _; apply not_elem_of_nil].
  by exists ys.
Qed.

Lemma abs_file_paths_with_non_dict dirs ignore xs :
  is_dict xs = false → abs_file_paths_with fs dirs ignore xs = Ok xs.
Proof. by destruct xs. Qed.

(** [abs_file_paths] leaves the value of an ignored key as it is. *)
Lemma abs_file_paths_with_ignored dirs ignore xs out k :
  well_formed xs = true →
  abs_file_paths_with fs dirs ignore xs = Ok out →
  k ∈ ignore → getitem out k = getitem xs k.
Proof.
  intros Hwf Hout Hk. destruct (is_dict xs) eqn:Hd.
  - destruct xs as [| | | | | |items]; try done.
    apply well_formed_dict in Hwf as [Hnodup _].
    apply abs_file_paths_with_dict_Ok in Hout as (items' & -> & Hitems);
      [|done].
    apply (Forall2_dict_get_key
             (λ k v v', abs_file_paths_value fs dirs ignore k v = Ok v')
             _ _ k) in Hitems.
    cbn. destruct (dict_get k items) as [v|].
    + destruct Hitems as (v' & -> & Hv').
      rewrite abs_file_paths_value_ignored in Hv' by done. by injection Hv' as <-.
    + by rewrite Hitems.
  - rewrite abs_file_paths_with_non_dict in Hout by done. by injection Hout as <-.
Qed.

Lemma algorithm_not_ignored : "algorithm" ∉ top_ignore.
Proof. apply (bool_decide_eq_true _). reflexivity. Qed.

Lemma getitem_non_dict v k : is_dict v = false → getitem v k = Raise TypeError.
Proof. by destruct v. Qed.

Lemma absolutize_detail_with_ignored dirs d d' :
  well_formed d = true →
  absolutize_detail_with fs dirs d = Ok d' →
  (∀ k, k ∈ top_ignore → getitem d' k = getitem d k)
  ∧ ∃ a a', getitem d "algorithm" = Ok a ∧ getitem d' "algorithm" = Ok a'
            ∧ ∀ k, k ∈ algorithm_ignore → getitem a' k = getitem a k.
Proof.
  intros Hwf. unfold absolutize_detail_with.
  intros (d1 & Hd1 & H)%bind_Ok.
  apply bind_Ok in H as (alg & Halg & H).
  apply bind_Ok in H as (alg' & Halg' & Hd').
  destruct d1 as [| | | | | |items1]; try done. injection Hd' as <-.
  destruct d as [| | | | | |items];
    try (rewrite abs_file_paths_with_non_dict in Hd1; done).
  pose proof Hwf as [Hnodup Hvalues]%well_formed_dict.
  pose proof Hd1 as (items1' & [= <-] & Hitems)%abs_file_paths_with_dict_Ok;
    [|done].
  split.
  - intros k Hk. cbn. rewrite dict_get_set.
    rewrite decide_False by (intros ->; by apply algorithm_not_ignored).
    by apply (abs_file_paths_with_ignored dirs top_ignore (VDict items)
                (VDict items1) k) in Hk.
  - cbn in Halg. destruct (dict_get "algorithm" items1) as [alg0|] eqn:Hget;
      [|done].
    injection Halg as ->.
    apply (Forall2_dict_get_key
             (λ k v v', abs_file_paths_value fs dirs top_ignore k v = Ok v')
             _ _ "algorithm") in Hitems.
    destruct (dict_get "algorithm" items) as [a|] eqn:Ha;
      [|by rewrite Hitems in Hget].
    destruct Hitems as (alg0 & Hget' & Ha0). rewrite Hget in Hget'.
    injection Hget' as <-.
    exists a, alg'. cbn. rewrite Ha, dict_get_set, decide_True by done.
    split_and!; [done..|]. intros k Hk. destruct (is_dict a) eqn:Hda.
    + destruct a as [| | | | | |aitems]; try done.
      rewrite abs_file_paths_value_dict in Ha0. injection Ha0 as <-.
      eapply abs_file_paths_with_ignored; [|done..].
      rewrite Forall_forall in Hvalues.
      apply (Hvalues ("algorithm", VDict aitems)).
      by apply dict_get_Some_elem_of.
    + assert (is_dict alg = false) as Hdalg
        by (by rewrite (abs_file_paths_value_is_dict _ _ _ _ _ Ha0)).
      rewrite abs_file_paths_with_non_dict in Halg' by done.
      injection Halg' as <-. by rewrite !getitem_non_dict.
Qed.
End ignore.

(** ** Paths under the mount root *)

Lemma string_app_cons x (a b : string) :
  String x a +:+ b = String x (a +:+ b).
Proof. done. Qed.

Lemma string_app_assoc (a b c : string) : (a +:+ b) +:+ c = a +:+ b +:+ c.
Proof.
  induction a as [|x a IH]; [done|]. rewrite !string_app_cons. by f_equal.
Qed.

Lemma string_app_empty_r (a : string) : a +:+ "" = a.
Proof.
  induction a as [|x a IH]; [done|]. rewrite string_app_cons. by f_equal.
Qed.

(** Joining something that is no absolute path appends it after the
    slash-ended form of the directory. *)
Lemma join_relative a b :
  posixpath.startswith_sep b = false →
  posixpath.join a b = posixpath.join a "" +:+ b.
Proof.
  intros Hb. unfold posixpath.join. rewrite Hb. cbn.
  destruct (bool_decide (a = "") || posixpath.endswith_sep a).
  - by rewrite string_app_empty_r.
  - by rewrite string_app_assoc.
Qed.

Lemma join_absolute a b : posixpath.isabs b = true → posixpath.join a b = b.
Proof. unfold posixpath.join, posixpath.isabs. by intros ->. Qed.

Lemma cut_tail_not_sep p : posixpath.startswith_sep (posixpath.cut p).2 = false.
Proof.
  induction p as [|c p IH]; [done|]. cbn.
  destruct (posixpath.cut p) as [[|h head] tail]; cbn in *; [|done].
  destruct (bool_decide (c = posixpath.sep)) eqn:Hc; [done|]. cbn.
  done.
Qed.

(** A basename does not begin with a slash. *)
Lemma basename_not_sep s : posixpath.startswith_sep (posixpath.split s).2 = false.
Proof.
  unfold posixpath.split. pose proof (cut_tail_not_sep s) as Hs.
  by destruct (posixpath.cut s) as [head tail].
Qed.

Lemma endswith_sep_app a b :
  b ≠ "" → posixpath.endswith_sep (a +:+ b) = posixpath.endswith_sep b.
Proof.
  intros Hb. induction a as [|c a IH]; [done|]. rewrite string_app_cons.
  cbn. rewrite IH. destruct (a +:+ b) eqn:Hab; [|done].
  destruct a; [|done]. by destruct b.
Qed.

Lemma pretty_N_go_no_sep x s :
  no_sep s = true → no_sep (pretty_N_go x s) = true.
Proof.
  revert s. induction (N.lt_wf_0 x) as [x _ IH]; intros s Hs.
  assert (x = 0 ∨ 0 < x)%N as [->|?] by lia.
  - by rewrite pretty_N_go_0.
  - rewrite pretty_N_go_step by done. apply IH.
    { by apply N.div_lt. }
    cbn. rewrite Hs. unfold pretty_N_char. by repeat case_match.
Qed.

Lemma pretty_N_go_nonempty x s : s ≠ "" → pretty_N_go x s ≠ "".
Proof.
  revert s. induction (N.lt_wf_0 x) as [x _ IH]; intros s Hs.
  assert (x = 0 ∨ 0 < x)%N as [->|?] by lia.
  - by rewrite pretty_N_go_0.
  - rewrite pretty_N_go_step by done. apply IH; [by apply N.div_lt|done].
Qed.

(** [str(i)] is a file name: it is not empty and holds no slash. *)
Lemma pretty_nat_no_sep (i : nat) : pretty i ≠ "" ∧ no_sep (pretty i) = true.
Proof.
  unfold pretty, pretty_nat, pretty, pretty_N. case_decide; [done|]. split.
  - rewrite pretty_N_go_step by lia. by apply pretty_N_go_nonempty.
  - by apply pretty_N_go_no_sep.
Qed.

Lemma no_sep_endswith s : no_sep s = true → posixpath.endswith_sep s = false.
Proof.
  induction s as [|c s IH]; [done|]. cbn.
  intros [Hc%negb_true_iff Hs]%andb_true_iff. destruct s; [done|auto].
Qed.

(** A mount point is written without a slash at its end. *)
Lemma mount_point_no_slash input_dir (i : nat) :
  posixpath.join input_dir (pretty i) ≠ ""
  ∧ posixpath.endswith_sep (posixpath.join input_dir (pretty i)) = false.
Proof.
  destruct (pretty_nat_no_sep i) as [Hne Hi].
  rewrite join_relative by apply pretty_nat_not_sep. split.
  - by destruct (posixpath.join input_dir ""), (pretty i).
  - rewrite endswith_sep_app by done. by apply no_sep_endswith.
Qed.

Lemma pretty_N_go_not_dot x s s' :
  s ≠ String "." s' → pretty_N_go x s ≠ String "." s'.
Proof.
  revert s. induction (N.lt_wf_0 x) as [x _ IH]; intros s Hs.
  assert (x = 0 ∨ 0 < x)%N as [->|?] by lia.
  - by rewrite pretty_N_go_0.
  - rewrite pretty_N_go_step by done. apply IH.
    { by apply N.div_lt. }
    unfold pretty_N_char. by repeat case_match.
Qed.

(** [str(i)] does not begin with a dot. *)
Lemma pretty_nat_not_dot (i : nat) s' : pretty i ≠ String "." s'.
Proof.
  unfold pretty, pretty_nat, pretty, pretty_N.
  case_decide; [done|]. by apply pretty_N_go_not_dot.
Qed.

Lemma strip_prefix_app a b : strip_prefix a (a +:+ b) = Some b.
Proof.
  induction a as [|c a IH]; [done|]. rewrite string_app_cons. cbn.
  by rewrite bool_decide_eq_true_2.
Qed.

Lemma strip_prefix_Some a p rest :
  strip_prefix a p = Some rest → p = a +:+ rest.
Proof.
  revert p. induction a as [|c a IH]; intros p; [by intros [= ->]|].
  destruct p as [|c' p]; [done|]. cbn. case_bool_decide as Hc; [|done].
  subst c'. intros ->%IH. done.
Qed.

(** The first component of a file name followed by a slash is the name. *)
Lemma first_component_app name b :
  no_sep name = true → first_component (name +:+ "/" +:+ b) = name.
Proof.
  induction name as [|c name IH]; [done|]. rewrite string_app_cons. cbn.
  intros [Hc%negb_true_iff Hname]%andb_true_iff. rewrite Hc.
  by rewrite IH.
Qed.

(** What is joined to a mount point lies under the root: its first
    component after the root is the number of the mount point. *)
Lemma under_join root (i : nat) b :
  posixpath.startswith_sep b = false →
  under root (posixpath.join (posixpath.join root (pretty i)) b) = true.
Proof.
  intros Hb. destruct (pretty_nat_no_sep i) as [Hne Hi].
  destruct (mount_point_no_slash root i) as [Hm Hend].
  assert (posixpath.join (posixpath.join root (pretty i)) b
          = posixpath.join root "" +:+ (pretty i +:+ "/" +:+ b)) as ->.
  { rewrite (join_relative _ b) by done.
    assert (posixpath.join (posixpath.join root (pretty i)) ""
            = posixpath.join root (pretty i) +:+ "/") as ->.
    { unfold posixpath.join at 1. cbn [posixpath.startswith_sep].
      rewrite Hend, bool_decide_eq_false_2 by done. cbn.
      by rewrite string_app_empty_r. }
    rewrite (join_relative root (pretty i)) by apply pretty_nat_not_sep.
    by rewrite !string_app_assoc. }
  unfold under. rewrite strip_prefix_app. cbn zeta.
  rewrite first_component_app by done.
  rewrite !bool_decide_eq_false_2; [done| | |done].
  - apply pretty_nat_not_dot.
  - apply pretty_nat_not_dot.
Qed.

Lemma under_isabs root p :
  posixpath.isabs root = true → under root p = true → posixpath.isabs p = true.
Proof.
  unfold under, posixpath.isabs.
  destruct root as [|c root]; [done|]. cbn [posixpath.startswith_sep].
  intros Hc.
  assert (∃ s, posixpath.join (String c root) "" = String c s) as [s ->].
  { unfold posixpath.join. cbn [posixpath.startswith_sep].
    destruct (_ || _); rewrite string_app_cons; by eexists. }
  destruct (strip_prefix _ p) as [rest|] eqn:Hp; [|done].
  apply strip_prefix_Some in Hp as ->. by rewrite string_app_cons.
Qed.

(** ** Well-formed trees stay well-formed *)

Lemma well_formed_dict_iff items :
  well_formed (VDict items) = true
  ↔ NoDup (dict_keys items) ∧ ∀ k v, (k, v) ∈ items → well_formed v = true.
Proof.
  split.
  - intros [Hnodup Hitems]%well_formed_dict. split; [done|].
    intros k v Hin. rewrite Forall_forall in Hitems. by apply (Hitems (k, v)).
  - intros [Hnodup Hitems]. cbn. apply andb_true_iff. split.
    + by apply bool_decide_eq_true.
    + apply List.forallb_forall. intros [k v] Hin%list_elem_of_In.
      by eapply Hitems.
Qed.

Lemma well_formed_list_iff l :
  well_formed (VList l) = true ↔ ∀ x, x ∈ l → well_formed x = true.
Proof.
  cbn. rewrite List.forallb_forall. split.
  - intros H x Hx%list_elem_of_In. by apply H.
  - intros H x Hx%list_elem_of_In. by apply H.
Qed.

Lemma well_formed_value_of_option o : well_formed (value_of_option o) = true.
Proof. by destruct o. Qed.

Section well_formed.
Variable fs : filesystem.

Lemma iter_value_well_formed v items x :
  well_formed v = true → iter_value v = Ok items → x ∈ items →
  well_formed x = true.
Proof.
  destruct v as [| | |s|l|l|kvs]; try done; cbn; intros Hwf [= <-] Hx.
  - by apply list_elem_of_fmap in Hx as (c & -> & _).
  - rewrite List.forallb_forall in Hwf. by apply Hwf, list_elem_of_In.
  - rewrite List.forallb_forall in Hwf. by apply Hwf, list_elem_of_In.
  - by apply list_elem_of_fmap in Hx as (c & -> & _).
Qed.

Lemma abs_file_paths_value_well_formed dirs ignore k v v' :
  well_formed v = true →
  abs_file_paths_value fs dirs ignore k v = Ok v' → well_formed v' = true.
Proof.
  intros Hwf. unfold abs_file_paths_value.
  destruct (negb _ && _); [|by intros [= <-]].
  assert (∀ l l',
    list_comp (λ x, value_of_option <$> _normalize_path fs x dirs) l = Ok l' →
    well_formed (VList l') = true) as Hlist.
  { intros l l' Hl%list_comp_Ok. apply well_formed_list_iff. intros y Hy.
    apply list_elem_of_lookup in Hy as [i Hi].
    destruct (Forall2_lookup_r _ _ _ _ _ Hl Hi) as (x & _ & Hx).
    apply fmap_Ok in Hx as (o & _ & ->). apply well_formed_value_of_option. }
  destruct v as [| | |s|l|l|]; try by intros [= <-].
  - intros (p & _ & Hv')%bind_Ok. destruct (truthy _); [|by injection Hv' as <-].
    apply fmap_Ok in Hv' as (o & _ & ->). apply well_formed_value_of_option.
  - intros (p & _ & Hv')%bind_Ok. destruct (truthy _); [|by injection Hv' as <-].
    apply fmap_Ok in Hv' as (l' & Hl' & ->). by eapply Hlist.
  - intros (p & _ & Hv')%bind_Ok. destruct (truthy _); [|by injection Hv' as <-].
    apply fmap_Ok in Hv' as (l' & Hl' & ->). by eapply Hlist.
Qed.

Lemma abs_file_paths_with_well_formed dirs ignore xs out :
  well_formed xs = true →
  abs_file_paths_with fs dirs ignore xs = Ok out → well_formed out = true.
Proof.
  intros Hwf Hout. destruct (is_dict xs) eqn:Hd.
  - destruct xs as [| | | | | |items]; try done.
    apply well_formed_dict_iff in Hwf as [Hnodup Hvalues].
    apply fmap_Ok in Hout as (items' & Hfor & ->).
    apply dict_for_Ok_inv in Hfor as (_ & Hnodup' & Helem & _).
    apply well_formed_dict_iff. split; [apply Hnodup', NoDup_nil_2|].
    intros k y [[]%elem_of_nil|(x & Hx & Hy)]%Helem.
    eapply abs_file_paths_value_well_formed; [|done]. by eapply Hvalues.
  - rewrite abs_file_paths_with_non_dict in Hout by done. by injection Hout as <-.
Qed.

Lemma absolutize_detail_with_well_formed dirs d d' :
  well_formed d = true →
  absolutize_detail_with fs dirs d = Ok d' → well_formed d' = true.
Proof.
  intros Hwf. unfold absolutize_detail_with.
  intros (d1 & Hd1 & H)%bind_Ok.
  apply bind_Ok in H as (alg & Halg & H).
  apply bind_Ok in H as (alg' & Halg' & Hd').
  apply abs_file_paths_with_well_formed in Hd1; [|done].
  destruct d1 as [| | | | | |items1]; try done. injection Hd' as <-.
  apply well_formed_dict_iff in Hd1 as [Hnodup Hvalues].
  cbn in Halg. destruct (dict_get "algorithm" items1) as [alg0|] eqn:Hget;
    [|done].
  injection Halg as ->. apply dict_get_Some_elem_of, Hvalues in Hget.
  apply abs_file_paths_with_well_formed in Halg'; [|done].
  apply well_formed_dict_iff. split; [by apply NoDup_dict_keys_set|].
  intros k v [[-> ->]|Hin]%elem_of_dict_set; [done|by eapply Hvalues].
Qed.

Lemma remap_value_well_formed mounts v v' :
  well_formed v = true → remap_value fs mounts v = Ok v' →
  well_formed v' = true.
Proof.
  revert v'. induction v as [| | |s|l _|l _|items IH] using value_ind;
    intros v' Hwf; try by intros [= <-].
  - rewrite remap_value_classified by done. intros ([] & _ & Hv')%bind_Ok.
    + by apply remap_path_Ok in Hv' as (? & ? & _ & _ & ->).
    + by injection Hv' as <-.
  - rewrite remap_value_classified by done. intros ([] & _ & Hv')%bind_Ok.
    + apply fmap_Ok in Hv' as (l' & Hl'%list_comp_Ok & ->).
      apply well_formed_list_iff. intros y [i Hi]%list_elem_of_lookup.
      destruct (Forall2_lookup_r _ _ _ _ _ Hl' Hi) as (x & _ & Hx).
      by apply remap_path_Ok in Hx as (? & ? & _ & _ & ->).
    + by injection Hv' as <-.
  - rewrite remap_value_classified by done. intros ([] & _ & Hv')%bind_Ok.
    + apply fmap_Ok in Hv' as (l' & Hl'%list_comp_Ok & ->).
      apply well_formed_list_iff. intros y [i Hi]%list_elem_of_lookup.
      destruct (Forall2_lookup_r _ _ _ _ _ Hl' Hi) as (x & _ & Hx).
      by apply remap_path_Ok in Hx as (? & ? & _ & _ & ->).
    + by injection Hv' as <-.
  - rewrite remap_value_dict, _remap_directories_dict.
    intros (items' & Hfor & ->)%fmap_Ok.
    apply well_formed_dict_iff in Hwf as [Hnodup Hvalues].
    apply dict_for_Ok_inv in Hfor as (_ & Hnodup' & Helem & _).
    apply well_formed_dict_iff. split; [apply Hnodup', NoDup_nil_2|].
    intros k y [[]%elem_of_nil|(x & Hx & Hy)]%Helem.
    rewrite Forall_forall in IH. apply (IH (k, x) Hx); [|done].
    by eapply Hvalues.
Qed.
End well_formed.

(** ** A second run: what lies under the mount root is left alone *)

Section second_run.
Variable fs : filesystem.
Variable root : string.
Hypothesis root_absolute : posixpath.isabs root = true.
Hypothesis none_under_root : ∀ p, under root p = true → fs_exists fs p = false.

Lemma allocate_mounts_under_root directories :
  mounts_under_root root (allocate_mounts root directories).
Proof using Type.
  intros d m Hm%dict_get_Some_elem_of.
  apply allocate_mounts_elem_of in Hm as (i & _ & ->).
  by exists i.
Qed.

Lemma mount_target_is_leaf v : mount_target root v = true → is_dict v = false.
Proof using Type. by destruct v. Qed.

Lemma mount_target_unclassified v :
  mount_target root v = true → path_classified fs v = Ok false.
Proof using none_under_root.
  destruct v as [| | |p|[|[| | |p| | |] l]| |]; try done; cbn; intros Hp.
  - by rewrite (none_under_root p Hp), andb_false_r.
  - by rewrite (none_under_root p Hp).
Qed.

Lemma _normalize_path_under_root p dirs :
  under root p = true → _normalize_path fs (VStr p) dirs = Ok None.
Proof using root_absolute none_under_root.
  intros Hp. induction dirs as [|base_dir dirs IH]; [done|]. cbn.
  rewrite join_absolute by (by eapply under_isabs).
  by rewrite (none_under_root p Hp).
Qed.

(** [abs_file_paths] leaves a value under the mount root as it is, whatever
    the base directories. *)
Lemma abs_file_paths_value_mount_target dirs ignore k v :
  mount_target root v = true →
  abs_file_paths_value fs dirs ignore k v = Ok v.
Proof using root_absolute none_under_root.
  intros Hv. unfold abs_file_paths_value. destruct (negb _ && _); [|done].
  destruct v as [| | |p|[|[| | |p| | |] l]| |]; try done.
  - by rewrite _normalize_path_under_root.
  - change (first (VStr p :: l)) with (VStr p).
    by rewrite _normalize_path_under_root.
Qed.

(** What the remap pass writes for a path leaf is a mount target. *)
Lemma remap_value_mount_target mounts v v' :
  mounts_under_root root mounts →
  is_dict v = false → path_classified fs v = Ok true →
  remap_value fs mounts v = Ok v' → mount_target root v' = true.
Proof using Type.
  intros Hmounts Hd Hc. rewrite remap_value_classified, Hc, Ok_bind by done.
  assert (∀ x y, remap_path mounts x = Ok y → mount_target root y = true)
    as Hpath.
  { intros x y (s & m & -> & Hm & ->)%remap_path_Ok. cbn.
    destruct (Hmounts _ _ Hm) as [i ->]. apply under_join, basename_not_sep. }
  assert (∀ l l', l ≠ [] → list_comp (remap_path mounts) l = Ok l' →
            mount_target root (VList l') = true) as Hlist.
  { intros l l' Hl Hl'%list_comp_Ok.
    destruct Hl' as [|x y l l' Hxy _]; [done|].
    pose proof (Hpath x y Hxy) as Hy.
    by apply remap_path_Ok in Hxy as (s & m & -> & _ & ->). }
  destruct v as [| | |s|l|l|]; try done.
  - apply Hpath.
  - intros (l' & Hl' & ->)%fmap_Ok. eapply Hlist; [|done].
    intros ->. by cbn in Hc.
  - intros (l' & Hl' & ->)%fmap_Ok. eapply Hlist; [|done].
    intros ->. by cbn in Hc.
Qed.

Lemma path_classified_dict items : path_classified fs (VDict items) = Ok false.
Proof using Type. done. Qed.

Lemma path_classified_true_leaf v :
  path_classified fs v = Ok true → is_dict v = false.
Proof using Type. by destruct v. Qed.

(** The fields the remap pass rewrites hold mount targets afterwards. *)
Lemma remapped_fields_are_mount_targets mounts a o ks v :
  mounts_under_root root mounts → well_formed a = true →
  _remap_directories fs a mounts = Ok o →
  ks ≠ [] → lookup_path ks a = Some v → path_classified fs v = Ok true →
  ∃ v', lookup_path ks o = Some v' ∧ mount_target root v' = true.
Proof using Type.
  intros Hmounts Hwf Ho Hks Hv Hc.
  destruct a as [| | | | | |items];
    try (destruct ks; [done|by cbn in Hv]).
  apply _remap_directories_remapped in Ho as (_ & _ & Hleaves); [|done].
  pose proof (path_classified_true_leaf v Hc) as Hd.
  destruct (Hleaves ks v Hv Hd) as (v' & Hv' & Hremap).
  exists v'. split; [done|]. by eapply remap_value_mount_target.
Qed.

Lemma abs_file_paths_with_keeps dirs ignore items out k v :
  NoDup (dict_keys items) →
  abs_file_paths_with fs dirs ignore (VDict items) = Ok out →
  dict_get k items = Some v →
  mount_target root v = true ∨ is_dict v = true →
  getitem out k = Ok v.
Proof using root_absolute none_under_root.
  intros Hnodup (items' & -> & Hitems)%abs_file_paths_with_dict_Ok Hk Hv;
    [|done].
  apply (Forall2_dict_get_key
           (λ k v v', abs_file_paths_value fs dirs ignore k v = Ok v')
           _ _ k) in Hitems.
  rewrite Hk in Hitems. destruct Hitems as (v' & Hget & Hv'). cbn.
  rewrite Hget. destruct Hv as [Hv|Hv].
  - rewrite abs_file_paths_value_mount_target in Hv' by done. by injection Hv' as <-.
  - destruct v as [| | | | | |vitems]; try done.
    rewrite abs_file_paths_value_dict in Hv'. by injection Hv' as <-.
Qed.

Lemma lookup_path_cons_inv k ks v v0 :
  lookup_path (k :: ks) v = Some v0 →
  ∃ items v1, v = VDict items ∧ dict_get k items = Some v1
              ∧ lookup_path ks v1 = Some v0.
Proof using Type.
  destruct v as [| | | | | |items]; try done. cbn.
  destruct (dict_get k items) as [v1|] eqn:Hk; [|done]. cbn.
  intros Hv0. by exists items, v1.
Qed.

Lemma lookup_path_target_step ks v1 v :
  lookup_path ks v1 = Some v → mount_target root v = true →
  mount_target root v1 = true ∨ is_dict v1 = true.
Proof using Type.
  destruct ks as [|k ks].
  - intros [= ->]. by left.
  - intros (items & ? & -> & _)%lookup_path_cons_inv _. by right.
Qed.

(** The absolutize stage leaves every mount target in place. *)
Lemma absolutize_detail_with_keeps dirs d d' ks v :
  well_formed d = true →
  absolutize_detail_with fs dirs d = Ok d' →
  ks ≠ [] → lookup_path ks d = Some v → mount_target root v = true →
  lookup_path ks d' = Some v.
Proof using root_absolute none_under_root.
  intros Hwf Hrun Hks Hlookup Hv. unfold absolutize_detail_with in Hrun.
  apply bind_Ok in Hrun as (d1 & Hd1 & H).
  apply bind_Ok in H as (alg & Halg & H).
  apply bind_Ok in H as (alg' & Halg' & Hd').
  destruct ks as [|k ks]; [done|].
  apply lookup_path_cons_inv in Hlookup as (items & v1 & -> & Hk & Hrest).
  pose proof Hwf as [Hnodup Hvalues]%well_formed_dict_iff.
  pose proof (lookup_path_target_step ks v1 v Hrest Hv) as Hv1.
  pose proof (abs_file_paths_with_keeps _ _ _ _ _ _ Hnodup Hd1 Hk Hv1) as Hk1.
  destruct d1 as [| | | | | |items1]; try done. injection Hd' as <-.
  cbn in Hk1. destruct (dict_get k items1) as [v1'|] eqn:Hget; [|done].
  injection Hk1 as ->. cbn. rewrite dict_get_set.
  destruct (decide (k = "algorithm")) as [->|]; [|by rewrite Hget].
  cbn. cbn in Halg. rewrite Hget in Halg. injection Halg as <-.
  destruct ks as [|k' ks].
  - injection Hrest as ->.
    rewrite abs_file_paths_with_non_dict in Halg'
      by (by apply mount_target_is_leaf).
    by injection Halg' as <-.
  - apply lookup_path_cons_inv in Hrest as (aitems & v2 & -> & Hk' & Hrest).
    pose proof (lookup_path_target_step ks v2 v Hrest Hv) as Hv2.
    assert (NoDup (dict_keys aitems)) as Hnodup'.
    { apply dict_get_Some_elem_of, Hvalues in Hk.
      by apply well_formed_dict_iff in Hk as [? _]. }
    pose proof (abs_file_paths_with_keeps _ _ _ _ _ _ Hnodup' Halg' Hk' Hv2)
      as Hk2.
    destruct alg' as [| | | | | |aitems']; try done. cbn in *.
    destruct (dict_get k' aitems') as [v2'|]; [|done]. by injection Hk2 as ->.
Qed.
End second_run.

(** ** A second run: settled trees *)

Section settled.
Variable fs : filesystem.

Lemma settled_dict_iff items :
  settled fs (VDict items) = true
  ↔ NoDup (dict_keys items) ∧ ∀ k v, (k, v) ∈ items → settled fs v = true.
Proof.
  cbn. rewrite andb_true_iff, bool_decide_eq_true, List.forallb_forall.
  split; intros [Hnodup Hitems]; (split; [done|]).
  - intros k v Hin%list_elem_of_In. by apply (Hitems (k, v)).
  - intros [k v] Hin%list_elem_of_In. by eapply Hitems.
Qed.

Lemma settled_leaf v :
  is_dict v = false →
  settled fs v = true ↔ path_classified fs v = Ok false.
Proof.
  intros Hd.
  assert (settled fs v
          = match path_classified fs v with Ok false => true | _ => false end)
    as -> by (by destruct v).
  by destruct (path_classified fs v) as [[]|].
Qed.

Lemma settled_remap_value mounts v :
  settled fs v = true → remap_value fs mounts v = Ok v.
Proof.
  induction v as [| | | | | |items IH] using value_ind; intros Hv;
    try (apply remap_value_unclassified; [done|by apply settled_leaf]).
  apply settled_dict_iff in Hv as [Hnodup Hitems].
  rewrite remap_value_dict, _remap_directories_dict.
  rewrite dict_for_id; [done..|]. intros k v Hin.
  rewrite Forall_forall in IH. apply (IH (k, v) Hin). by eapply Hitems.
Qed.

Lemma settled_value_directories v :
  settled fs v = true → value_directories fs v = Ok [].
Proof.
  induction v as [| | | | | |items IH] using value_ind; intros Hv;
    try (rewrite value_directories_classified by done;
         apply settled_leaf in Hv as ->; done).
  apply settled_dict_iff in Hv as [_ Hitems].
  change (value_directories fs (VDict items))
    with (_get_directories fs (VDict items)).
  rewrite _get_directories_dict. generalize (@nil string).
  induction items as [|[k v] items IHitems]; intros acc; [done|].
  apply Forall_cons in IH as [IHv IH]. rewrite for_each_cons. cbn in IHv.
  rewrite IHv by (apply (Hitems k); by left). rewrite Ok_bind.
  cbn [mret result_ret]. rewrite Ok_bind, app_nil_r.
  apply IHitems; [done|]. intros k' v' Hin. apply (Hitems k'). by right.
Qed.

Lemma settled_remap_directories mounts v :
  settled fs v = true → _remap_directories fs v mounts = Ok v.
Proof.
  intros Hv. destruct (is_dict v) eqn:Hd.
  - destruct v; try done. rewrite <-remap_value_dict.
    by apply settled_remap_value.
  - apply _remap_directories_non_dict. by intros ? ->.
Qed.

Lemma settled_get_directories items :
  settled fs (VDict items) = true → _get_directories fs (VDict items) = Ok [].
Proof. apply settled_value_directories. Qed.

Lemma _normalize_path_Some x dirs q :
  _normalize_path fs x dirs = Ok (Some q) →
  ∃ p, fs_exists fs p = true
       ∧ q = posixpath.normpath (fs_realpath fs p).
Proof.
  induction dirs as [|base_dir dirs IH]; [done|]. cbn.
  intros (p & _ & Hq)%bind_Ok. destruct (fs_exists fs p) eqn:Hp; [|auto].
  injection Hq as <-. by exists p.
Qed.

Lemma coherent_normalized x dirs q :
  coherent fs → _normalize_path fs x dirs = Ok (Some q) →
  path_classified fs (VStr q) = Ok true.
Proof.
  intros Hfs Hq. apply _normalize_path_Some in Hq as (p & Hp & ->).
  destruct (Hfs p Hp) as [Hex Habs]. cbn. rewrite Hex, Habs.
  destruct (posixpath.normpath _); [done|].
  by rewrite bool_decide_eq_false_2.
Qed.

(** On a coherent host, what [abs_file_paths] writes in place of a value is
    classified as a path by the later passes. *)
Lemma abs_file_paths_value_changed dirs ignore k x v :
  coherent fs → abs_file_paths_value fs dirs ignore k x = Ok v →
  v = x ∨ (is_dict v = false ∧ path_classified fs v = Ok true).
Proof.
  intros Hfs. unfold abs_file_paths_value.
  destruct (negb _ && truthy x) eqn:Hcond; [|intros [= <-]; by left].
  apply andb_true_iff in Hcond as [_ Htruthy].
  assert (∀ l, l ≠ [] →
    (∀ p, _normalize_path fs (first l) dirs = Ok p →
          truthy (value_of_option p) = true →
          ∀ l', list_comp
                  (λ x, value_of_option <$> _normalize_path fs x dirs) l
                = Ok l' →
                path_classified fs (VList l') = Ok true)) as Hlist.
  { intros l Hl p Hp Hq l' Hl'%list_comp_Ok.
    destruct Hl' as [|x0 y0 l l' Hxy _]; [done|].
    apply fmap_Ok in Hxy as (o & Hxy & ->).
    change (first (x0 :: l)) with x0 in Hp. rewrite Hp in Hxy.
    injection Hxy as <-. destruct p as [q|]; [|done].
    pose proof (coherent_normalized _ _ _ Hfs Hp) as Hc. cbn in Hc.
    injection Hc as Hc. cbn.
    apply andb_true_iff in Hc as [[_ ->]%andb_true_iff _]. done. }
  destruct x as [| | |s|l|l|]; try (intros [= <-]; by left).
  - intros (p & Hp & Hv)%bind_Ok.
    destruct (truthy (value_of_option p)) eqn:Hq;
      [|injection Hv as <-; by left].
    rewrite Hp in Hv. injection Hv as <-. destruct p as [q|]; [|done].
    right. split; [done|]. by eapply coherent_normalized.
  - intros (p & Hp & Hv)%bind_Ok.
    destruct (truthy (value_of_option p)) eqn:Hq;
      [|injection Hv as <-; by left].
    apply fmap_Ok in Hv as (l' & Hl' & ->). right. split; [done|].
    eapply (Hlist l); [|done..]. by intros ->.
  - intros (p & Hp & Hv)%bind_Ok.
    destruct (truthy (value_of_option p)) eqn:Hq;
      [|injection Hv as <-; by left].
    apply fmap_Ok in Hv as (l' & Hl' & ->). right. split; [done|].
    eapply (Hlist l); [|done..]. by intros ->.
Qed.
End settled.

Section second_run_settled.
Variable fs : filesystem.
Variable root : string.
Hypothesis root_absolute : posixpath.isabs root = true.
Hypothesis none_under_root : ∀ p, under root p = true → fs_exists fs p = false.

Lemma remap_value_is_dict mounts v v' :
  remap_value fs mounts v = Ok v' → is_dict v' = is_dict v.
Proof.
  destruct (is_dict v) eqn:Hd.
  - destruct v as [| | | | | |items]; try done.
    rewrite remap_value_dict, _remap_directories_dict.
    by intros (items' & _ & ->)%fmap_Ok.
  - rewrite remap_value_classified by done. intros ([] & _ & Hv')%bind_Ok.
    + destruct v; try done; try (by injection Hv' as <-).
      * by apply remap_path_Ok in Hv' as (? & ? & _ & _ & ->).
      * by apply fmap_Ok in Hv' as (? & _ & ->).
      * by apply fmap_Ok in Hv' as (? & _ & ->).
    + by injection Hv' as <-.
Qed.

Lemma abs_file_paths_with_is_dict dirs ignore xs out :
  abs_file_paths_with fs dirs ignore xs = Ok out → is_dict out = is_dict xs.
Proof.
  destruct xs; try by intros [= <-].
  by intros (items' & _ & ->)%fmap_Ok.
Qed.

(** What the remap pass returns is settled: a path it wrote lies under the
    mount root, where nothing exists. *)
Lemma remap_value_settled mounts v v' :
  mounts_under_root root mounts →
  remap_value fs mounts v = Ok v' → settled fs v' = true.
Proof.
  intros Hmounts. revert v v'.
  assert (∀ v v', is_dict v = false → remap_value fs mounts v = Ok v' →
            settled fs v' = true) as Hleaf.
  { intros v v' Hd Hv'.
    pose proof (remap_value_is_dict _ _ _ Hv') as Hd'. rewrite Hd in Hd'.
    apply settled_leaf; [done|].
    destruct (path_classified fs v) as [[]|e] eqn:Hc.
    - apply (mount_target_unclassified fs root none_under_root).
      by apply (remap_value_mount_target fs root mounts v v').
    - rewrite remap_value_unclassified in Hv' by done. by injection Hv' as <-.
    - by rewrite remap_value_classified, Hc in Hv'. }
  intros v. induction v as [| | | | | |items IH] using value_ind; intros v';
    try by apply Hleaf.
  rewrite remap_value_dict, _remap_directories_dict.
  intros (items' & Hfor & ->)%fmap_Ok.
  apply dict_for_Ok_inv in Hfor as (_ & Hnodup & Helem & _).
  apply settled_dict_iff. split; [apply Hnodup, NoDup_nil_2|].
  intros k y [[]%elem_of_nil|(x & Hx & Hy)]%Helem.
  rewrite Forall_forall in IH. by apply (IH (k, x) Hx).
Qed.

(** One level of a second run: [abs_file_paths] on the remapped form of what
    [abs_file_paths] made. *)
Lemma abs_file_paths_after_remap dirs ignore mounts items items' :
  coherent fs → mounts_under_root root mounts →
  (∀ k x, (k, x) ∈ items → is_dict x = false →
     ∃ x0, abs_file_paths_value fs dirs ignore k x0 = Ok x) →
  dict_for (λ _, remap_value fs mounts) items [] = Ok items' →
  abs_file_paths_with fs dirs ignore (VDict items') = Ok (VDict items').
Proof.
  intros Hfs Hmounts Hmade Hfor.
  apply dict_for_Ok_inv in Hfor as (_ & Hnodup & Helem & _).
  unfold abs_file_paths_with. rewrite dict_for_id; [done|apply Hnodup, NoDup_nil_2|].
  intros k y [[]%elem_of_nil|(x & Hx & Hy)]%Helem.
  destruct (is_dict x) eqn:Hd.
  - apply remap_value_is_dict in Hy. rewrite Hd in Hy.
    destruct y; try done. apply abs_file_paths_value_dict.
  - destruct (path_classified fs x) as [[]|e] eqn:Hc.
    + apply (abs_file_paths_value_mount_target fs root); [done..|].
      by apply (remap_value_mount_target fs root mounts x y).
    + rewrite remap_value_unclassified in Hy by done. injection Hy as <-.
      destruct (Hmade k x Hx Hd) as (x0 & Hx0).
      destruct (abs_file_paths_value_changed _ _ _ _ _ _ Hfs Hx0)
        as [->|[_ Hc']]; [done|congruence].
    + by rewrite remap_value_classified, Hc in Hy.
Qed.

(** On a coherent host the absolutize stage leaves a remapped sample as it
    is. *)
Lemma absolutize_detail_with_after_remap dirs mounts d a o :
  coherent fs → mounts_under_root root mounts →
  absolutize_detail_with fs dirs d = Ok a →
  _remap_directories fs a mounts = Ok o →
  absolutize_detail_with fs dirs o = Ok o.
Proof.
  intros Hfs Hmounts Ha Ho. unfold absolutize_detail_with in Ha.
  apply bind_Ok in Ha as (d1 & Hd1 & H).
  apply bind_Ok in H as (alg & Halg & H).
  apply bind_Ok in H as (alg' & Halg' & Ha).
  destruct d1 as [| | | | | |items1]; try done. injection Ha as <-.
  destruct d as [| | | | | |items]; try done.
  apply fmap_Ok in Hd1 as (? & Hd1 & [= <-]).
  apply dict_for_Ok_inv in Hd1 as (_ & Hnodup1 & Hmade1 & _).
  cbn in Halg. destruct (dict_get "algorithm" items1) as [alg0|] eqn:Hget;
    [|done].
  injection Halg as ->.
  rewrite _remap_directories_dict in Ho.
  apply fmap_Ok in Ho as (items_o & Hfor & ->).
  assert (∀ k x, (k, x) ∈ dict_set "algorithm" alg' items1 →
            is_dict x = false →
            ∃ x0, abs_file_paths_value fs dirs top_ignore k x0 = Ok x)
    as Hmade.
  { assert (∀ k x, (k, x) ∈ items1 →
              ∃ x0, abs_file_paths_value fs dirs top_ignore k x0 = Ok x)
      as Hmade1'.
    { intros k x [[]%elem_of_nil|(x0 & _ & Hx0)]%Hmade1. by exists x0. }
    intros k x [[-> ->]|Hin]%elem_of_dict_set Hd; [|by apply Hmade1'].
    apply Hmade1'.
    pose proof (abs_file_paths_with_is_dict _ _ _ _ Halg') as Hd'.
    rewrite Hd in Hd'. rewrite abs_file_paths_with_non_dict in Halg' by done.
    injection Halg' as <-. by apply dict_get_Some_elem_of. }
  pose proof (abs_file_paths_after_remap _ _ _ _ _ Hfs Hmounts Hmade Hfor)
    as Htop.
  pose proof Hfor as (ys & -> & Hys)%dict_for_NoDup;
    [|apply NoDup_dict_keys_set, Hnodup1, NoDup_nil_2
     |intros ? _; apply not_elem_of_nil].
  cbn [app] in *.
  destruct (Forall2_dict_get (λ v v', remap_value fs mounts v = Ok v')
              _ _ "algorithm" alg' Hys) as (alg_o & Hget_o & Halg_o).
  { by rewrite dict_get_set, decide_True. }
  unfold absolutize_detail_with. rewrite Htop, Ok_bind.
  cbn [getitem]. rewrite Hget_o, Ok_bind.
  assert (abs_file_paths_with fs dirs algorithm_ignore alg_o = Ok alg_o)
    as ->.
  { destruct (is_dict alg') eqn:Hd'.
    - destruct alg' as [| | | | | |aitems']; try done.
      pose proof (abs_file_paths_with_is_dict _ _ _ _ Halg') as Hd.
      destruct alg as [| | | | | |aitems]; try done.
      apply fmap_Ok in Halg' as (? & Halg' & [= <-]).
      apply dict_for_Ok_inv in Halg' as (_ & _ & Hmade' & _).
      rewrite remap_value_dict, _remap_directories_dict in Halg_o.
      apply fmap_Ok in Halg_o as (aitems_o & Hfor' & ->).
      eapply abs_file_paths_after_remap; [done..| |done].
      intros k x [[]%elem_of_nil|(x0 & _ & Hx0)]%Hmade' _. by exists x0.
    - apply abs_file_paths_with_non_dict.
      by rewrite (remap_value_is_dict _ _ _ Halg_o). }
  rewrite Ok_bind. cbn. by rewrite dict_set_id.
Qed.
End second_run_settled.

(** ** A second run of update_config *)

Section second_update_config.
Variable fs : filesystem.
Variable root : string.
Hypothesis root_absolute : posixpath.isabs root = true.
Hypothesis none_under_root : ∀ p, under root p = true → fs_exists fs p = false.

Lemma getitem_setitem v k x v' :
  setitem v k x = Ok v' → getitem v' k = Ok x ∧ setitem v' k x = Ok v'.
Proof using Type.
  destruct v as [| | | | | |items]; try done. cbn. intros [= <-]. cbn.
  rewrite dict_get_set, decide_True by done. split; [done|].
  by rewrite dict_set_id by (by rewrite dict_get_set, decide_True).
Qed.

Lemma absolutize_details_with_settled dirs outs acc :
  (∀ o, o ∈ outs → absolutize_detail_with fs dirs o = Ok o
                   ∧ _get_directories fs o = Ok []) →
  absolutize_details_with fs dirs outs acc = Ok (acc.1 ++ outs, acc.2).
Proof using Type.
  unfold absolutize_details_with. revert acc.
  induction outs as [|o outs IH]; intros [abs0 dirs0] Houts.
  { cbn. by rewrite app_nil_r. }
  rewrite for_each_cons. destruct (Houts o) as [-> Hdirs]; [by left|].
  rewrite Ok_bind, Hdirs, Ok_bind. cbn [mret result_ret]. rewrite Ok_bind.
  rewrite IH by (intros ??; apply Houts; by right). cbn.
  by rewrite app_nil_r, <-app_assoc.
Qed.

(** What the first run leaves behind, sample by sample. *)
Lemma first_run_samples dirs config config1 specs1 :
  update_config_with fs dirs config root = Ok (config1, specs1) →
  ∃ items absdetails directories outs1,
    (getitem config "details" ≫= iter_value) = Ok items
    ∧ absolutized_samples fs dirs config = Ok absdetails
    ∧ Forall2 (λ d a, absolutize_detail_with fs dirs d = Ok a)
        items absdetails
    ∧ Forall2 (λ a o, _remap_directories fs a
                        (allocate_mounts root directories) = Ok o)
        absdetails outs1
    ∧ getitem config1 "details" = Ok (VList outs1)
    ∧ setitem config1 "details" (VList outs1) = Ok config1.
Proof using Type.
  intros (details & items & absdetails & directories & outs1 & Hdetails
          & Hitems & Habs & Hremap & Hset & _)%update_config_with_Ok.
  exists items, absdetails, directories, outs1.
  pose proof Habs as (ds & dss & Hds & _ & Hitems' & _)%absolutize_details_with_Ok.
  cbn in Hds. subst ds.
  apply getitem_setitem in Hset as [Hget Hset].
  split_and!; try done.
  - by rewrite Hdetails, Ok_bind.
  - unfold absolutized_samples. by rewrite Hdetails, Ok_bind, Hitems, Ok_bind, Habs.
Qed.

Lemma is_dict_of_absolutized dirs d a :
  absolutize_detail_with fs dirs d = Ok a → is_dict a = true.
Proof using Type.
  unfold absolutize_detail_with. intros (d1 & _ & H)%bind_Ok.
  apply bind_Ok in H as (alg & _ & H). apply bind_Ok in H as (alg' & _ & H).
  destruct d1; try done. by injection H as <-.
Qed.

(** On a coherent host a second run returns what it was given. *)
Lemma second_run_identity dirs config config1 specs1 :
  coherent fs →
  update_config_with fs dirs config root = Ok (config1, specs1) →
  update_config_with fs dirs config1 root = Ok (config1, []).
Proof using root_absolute none_under_root.
  intros Hfs (items & absdetails & directories & outs1 & _ & _ & Habs & Hremap
              & Hget & Hset)%first_run_samples.
  assert (∀ o, o ∈ outs1 →
            absolutize_detail_with fs dirs o = Ok o ∧ settled fs o = true)
    as Houts.
  { intros o [j Hj]%list_elem_of_lookup.
    destruct (Forall2_lookup_r _ _ _ _ _ Hremap Hj) as (a & Ha & Ho).
    destruct (Forall2_lookup_r _ _ _ _ _ Habs Ha) as (d & _ & Hd).
    pose proof (allocate_mounts_under_root root directories) as Hmounts.
    split.
    - by eapply (absolutize_detail_with_after_remap fs root).
    - pose proof (is_dict_of_absolutized _ _ _ Hd) as Hda.
      destruct a; try done. rewrite <-remap_value_dict in Ho.
      by eapply (remap_value_settled fs root). }
  unfold update_config_with. rewrite Hget, Ok_bind. cbn [iter_value].
  rewrite Ok_bind.
  rewrite absolutize_details_with_settled.
  - rewrite Ok_bind. cbn [fst snd app].
    change (allocate_mounts root []) with (@nil (string * string)).
    assert (list_comp (λ d, _remap_directories fs d []) outs1 = Ok outs1)
      as ->.
    { apply list_comp_Ok, Forall_Forall2_diag, Forall_forall.
      intros o [_ Ho]%Houts. by apply settled_remap_directories. }
    by rewrite Ok_bind, Hset.
  - intros o Ho. destruct (Houts o Ho) as [Habs_o Hsettled]. split; [done|].
    apply is_dict_of_absolutized in Habs_o. destruct o; try done.
    by apply settled_get_directories.
Qed.

Lemma first_run_well_formed dirs items absdetails mounts outs1 :
  (∀ d, d ∈ items → well_formed d = true) →
  Forall2 (λ d a, absolutize_detail_with fs dirs d = Ok a) items absdetails →
  Forall2 (λ a o, _remap_directories fs a mounts = Ok o) absdetails outs1 →
  (∀ a, a ∈ absdetails → well_formed a = true)
  ∧ (∀ o, o ∈ outs1 → well_formed o = true).
Proof using Type.
  intros Hitems Habs Hremap.
  assert (∀ a, a ∈ absdetails → well_formed a = true) as Hwf.
  { intros a [j Hj]%list_elem_of_lookup.
    destruct (Forall2_lookup_r _ _ _ _ _ Habs Hj) as (d & Hd & Ha).
    eapply absolutize_detail_with_well_formed; [|done].
    apply Hitems. by eapply list_elem_of_lookup_2. }
  split; [done|].
  intros o [j Hj]%list_elem_of_lookup.
  destruct (Forall2_lookup_r _ _ _ _ _ Hremap Hj) as (a & Ha & Ho).
  apply list_elem_of_lookup_2 in Ha.
  destruct (is_dict a) eqn:Hd.
  - destruct a; try done. rewrite <-remap_value_dict in Ho.
    eapply remap_value_well_formed; [|done]. by apply Hwf.
  - rewrite _remap_directories_non_dict in Ho by (by intros ? ->).
    injection Ho as <-. by apply Hwf.
Qed.

(** C3, as the code has it.  Let the mount root be an absolute path under
    which nothing exists on the host (the root itself may exist, as an empty
    directory), and let a first run of [update_config] return [config1].
    Then
    - each field the first run remapped (a leaf of an absolutized sample that
      is classified as a path) holds, in [config1], a mount target: a path
      under the mount root, or a list that begins with one;
    - whenever a second run on [config1] returns, every field of [config1]
      that holds a mount target holds the same value in its result;
    - and on a coherent host the second run does return, and returns
      [config1] itself with no mount spec. *)
Theorem update_config_second_run args config (h1 h2 : heap) config1 specs1 :
  well_formed config = true →
  (update_config fs args config root h1).1 = Ok (config1, specs1) →
  ∃ absdetails outs1,
    absolutized_samples fs (search_dirs fs args) config = Ok absdetails
    ∧ getitem config1 "details" = Ok (VList outs1)
    ∧ (∀ j a ks v,
         absdetails !! j = Some a → ks ≠ [] → lookup_path ks a = Some v →
         path_classified fs v = Ok true →
         ∃ o v', outs1 !! j = Some o ∧ lookup_path ks o = Some v'
                 ∧ mount_target root v' = true)
    ∧ (∀ config2 specs2,
         (update_config fs args config1 root h2).1 = Ok (config2, specs2) →
         ∃ outs2,
           getitem config2 "details" = Ok (VList outs2)
           ∧ ∀ j o ks v',
               outs1 !! j = Some o → ks ≠ [] → lookup_path ks o = Some v' →
               mount_target root v' = true →
               ∃ o2, outs2 !! j = Some o2 ∧ lookup_path ks o2 = Some v')
    ∧ (coherent fs →
       (update_config fs args config1 root h2).1 = Ok (config1, [])).
Proof using root_absolute none_under_root.
  rewrite !update_config_run. set (dirs := search_dirs fs args).
  intros Hwf Hrun1.
  pose proof Hrun1 as (items & absdetails & directories & outs1 & Hitems
                       & Hsamples & Habs & Hremap & Hget & Hset)%first_run_samples.
  assert (∀ d, d ∈ items → well_formed d = true) as Hwf_items.
  { apply bind_Ok in Hitems as (details & Hdetails & Hitems).
    intros d Hd. eapply iter_value_well_formed; [|done..].
    destruct config as [| | | | | |citems]; try done. cbn in Hdetails.
    destruct (dict_get "details" citems) as [x|] eqn:Hx; [|done].
    injection Hdetails as ->. apply dict_get_Some_elem_of in Hx.
    apply well_formed_dict_iff in Hwf as [_ Hwf]. by eapply Hwf. }
  destruct (first_run_well_formed _ _ _ _ _ Hwf_items Habs Hremap)
    as [Hwf_abs Hwf_outs].
  exists absdetails, outs1. split_and!; [done..| | |].
  - intros j a ks v Ha Hks Hv Hc.
    destruct (Forall2_lookup_l _ _ _ _ _ Hremap Ha) as (o & Ho & Hao).
    destruct (remapped_fields_are_mount_targets fs root _ a o ks v
                (allocate_mounts_under_root root directories))
      as (v' & Hv' & Htarget); try done.
    { apply Hwf_abs. by eapply list_elem_of_lookup_2. }
    by exists o, v'.
  - intros config2 specs2 Hrun2.
    apply first_run_samples in Hrun2
      as (items2 & absdetails2 & directories2 & outs2 & Hitems2 & _ & Habs2
          & Hremap2 & Hget2 & _).
    rewrite Hget, Ok_bind in Hitems2. injection Hitems2 as <-.
    destruct (first_run_well_formed _ _ _ _ _ Hwf_outs Habs2 Hremap2)
      as [Hwf_abs2 _].
    exists outs2. split; [done|]. intros j o ks v' Ho Hks Hv' Htarget.
    destruct (Forall2_lookup_l _ _ _ _ _ Habs2 Ho) as (a2 & Ha2 & Hoa2).
    destruct (Forall2_lookup_l _ _ _ _ _ Hremap2 Ha2) as (o2 & Ho2 & Hao2).
    exists o2. split; [done|].
    assert (lookup_path ks a2 = Some v') as Hv2.
    { apply (absolutize_detail_with_keeps fs root root_absolute
               none_under_root dirs o a2 ks v'); try done.
      apply Hwf_outs. by eapply list_elem_of_lookup_2. }
    apply is_dict_of_absolutized in Hoa2. destruct a2; try done.
    apply _remap_directories_remapped in Hao2 as (_ & _ & Hleaves);
      [|apply Hwf_abs2; by eapply list_elem_of_lookup_2].
    destruct (Hleaves ks v' Hv2) as (v2 & Hv2' & Hremap_v');
      [by eapply mount_target_is_leaf|].
    rewrite remap_value_unclassified in Hremap_v'.
    + by injection Hremap_v' as <-.
    + by eapply mount_target_is_leaf.
    + by apply (mount_target_unclassified fs root).
  - intros Hfs. by eapply second_run_identity.
Qed.
End second_update_config.

Lemma empty_root_host_none_under_root p :
  under "/mnt/in" p = true → fs_exists empty_root_host p = false.
Proof.
  intros Hp. apply bool_decide_eq_false.
  rewrite !elem_of_cons, elem_of_nil. intros [->|[->|[->|[]]]]; discriminate Hp.
Qed.

Lemma empty_root_host_coherent : coherent empty_root_host.
Proof.
  intros p Hp. apply bool_decide_eq_true in Hp.
  revert Hp. rewrite !elem_of_cons, elem_of_nil.
  intros [->|[->|[->|[]]]]; by split.
Qed.

Lemma update_config_second_run_witness :
  let fs := empty_root_host in
  let args := {| fcdir := None |} in
  ∃ absdetails outs1,
    absolutized_samples fs (search_dirs fs args) second_run_config
    = Ok absdetails
    ∧ getitem second_run_remapped "details" = Ok (VList outs1)
    ∧ (∀ j a ks v,
         absdetails !! j = Some a → ks ≠ [] → lookup_path ks a = Some v →
         path_classified fs v = Ok true →
         ∃ o v', outs1 !! j = Some o ∧ lookup_path ks o = Some v'
                 ∧ mount_target "/mnt/in" v' = true)
    ∧ (∀ config2 specs2,
         (update_config fs args second_run_remapped "/mnt/in" ∅).1
         = Ok (config2, specs2) →
         ∃ outs2,
           getitem config2 "details" = Ok (VList outs2)
           ∧ ∀ j o ks v',
               outs1 !! j = Some o → ks ≠ [] → lookup_path ks o = Some v' →
               mount_target "/mnt/in" v' = true →
               ∃ o2, outs2 !! j = Some o2 ∧ lookup_path ks o2 = Some v')
    ∧ (coherent fs →
       (update_config fs args second_run_remapped "/mnt/in" ∅).1
       = Ok (second_run_remapped, [])).
Proof.
  intros fs args.
  apply (update_config_second_run empty_root_host "/mnt/in" eq_refl
           empty_root_host_none_under_root args second_run_config ∅ ∅
           second_run_remapped ["/data/run1:/mnt/in/0"]).
  - reflexivity.
  - vm_compute. reflexivity.
Defined.

(** The two runs of the witness, computed: the mount root is an existing
    directory with nothing in it, the host is coherent, and the second run
    returns the tree of the first with no mount spec. *)
Example update_config_second_run_computed :
  let fs := empty_root_host in
  let args := {| fcdir := None |} in
  fs_exists fs "/mnt/in" = true ∧ fs_exists fs "/mnt/in/" = true
  ∧ under "/mnt/in" "/mnt/in/" = false ∧ under "/mnt/in" "/mnt/in/." = false
  ∧ under "/mnt/in" "/mnt/in/0/sample.bam" = true
  ∧ (update_config fs args second_run_config "/mnt/in" ∅).1
    = Ok (second_run_remapped, ["/data/run1:/mnt/in/0"])
  ∧ (update_config fs args second_run_remapped "/mnt/in" ∅).1
    = Ok (second_run_remapped, []).
Proof. vm_compute. by split_and!. Qed.

(** C3 as stated fails for a mount root that is a relative path.  With root
    [in], base directory [/data] and working directory [/w], nothing under
    the mount root exists (nothing at all whose name begins with [in], or
    with [/w/in], the root as seen from the working directory), and the first
    run remaps [second] to [in/1/b.bam]; the second run resolves that value
    against the base directory, finds [/data/in/1/b.bam], and remaps it
    again, to [in/0/b.bam]. *)
Lemma update_config_second_run_relative_root :
  let fs := relative_root_host in
  let args := {| fcdir := Some "/data" |} in
  posixpath.isabs "in" = false
  ∧ (∀ p, under "in" p = true → fs_exists fs p = false)
  ∧ (∀ p, String.prefix "in" p = true ∨ String.prefix "/w/in" p = true →
       fs_exists fs p = false)
  ∧ (update_config fs args relative_root_config "in" ∅).1
    = Ok (relative_root_remapped "in/1/b.bam", ["/data/x:in/0"; "/data/y:in/1"])
  ∧ (update_config fs args (relative_root_remapped "in/1/b.bam") "in" ∅).1
    = Ok (relative_root_remapped "in/0/b.bam", ["/data/in/1:in/0"])
  ∧ relative_root_remapped "in/0/b.bam" ≠ relative_root_remapped "in/1/b.bam".
Proof.
  split_and!; [done| | |vm_compute; reflexivity..|discriminate].
  - intros p Hp. apply bool_decide_eq_false. rewrite !elem_of_cons, elem_of_nil.
    intros [->|[->|[->|[]]]]; discriminate Hp.
  - intros p Hp. apply bool_decide_eq_false. rewrite !elem_of_cons, elem_of_nil.
    intros [->|[->|[->|[]]]]; destruct Hp as [Hp|Hp]; discriminate Hp.
Qed.

(** ** Ignored keys, from the input to the returned tree *)

(** What the remap pass stores under a key of a dict is what it makes of the
    value of that key. *)
Lemma _remap_directories_getitem fs mounts x out k v :
  well_formed x = true →
  _remap_directories fs x mounts = Ok out →
  getitem x k = Ok v →
  ∃ v', getitem out k = Ok v' ∧ remap_value fs mounts v = Ok v'.
Proof.
  destruct x as [| | | | | |items]; try done.
  intros [Hnodup _]%well_formed_dict_iff.
  rewrite _remap_directories_dict.
  intros (ys & Hys & ->)%fmap_Ok.
  apply dict_for_NoDup in Hys as (ys' & -> & Hys); [|done|by intros ? _ ?%elem_of_nil].
  cbn. destruct (dict_get k items) as [v0|] eqn:Hget; [|done]. intros [= ->].
  destruct (Forall2_dict_get (λ x y, remap_value fs mounts x = Ok y) _ _ _ _ Hys Hget) as (v' & -> & Hv').
  by exists v'.
Qed.

(** C2, as the code has it.  Let [update_config] return, and let [d] be a
    sample of its input with distinct keys.  The absolutize stage
    ([abs_file_paths] with the top-level ignore set, then with the
    algorithm-level one on the [algorithm] block) never rewrites the value of
    an ignored key: in the absolutized sample [d'] each top-level ignored
    key, and each ignored key of the algorithm block, holds the value it held
    in the input.  The later passes take no ignore set: in the returned
    sample [out] an ignored key holds what the remap pass makes of the very
    value of the input, and that is the value itself whenever it is settled,
    that is, whenever neither it nor a leaf inside it is classified as a
    path. *)
Theorem update_config_respects_ignore fs args config input_dir (h h' : heap)
    config' specs details samples j d :
  update_config fs args config input_dir h = (Ok (config', specs), h') →
  getitem config "details" = Ok details →
  iter_value details = Ok samples →
  samples !! j = Some d →
  well_formed d = true →
  ∃ absdetails directories d' outs out,
    absolutize_details_with fs (search_dirs fs args) samples ([], [])
    = Ok (absdetails, directories)
    ∧ absdetails !! j = Some d'
    ∧ getitem config' "details" = Ok (VList outs)
    ∧ outs !! j = Some out
    ∧ let mounts := allocate_mounts input_dir directories in
      (∀ k, k ∈ top_ignore → getitem d' k = getitem d k)
      ∧ (∀ k v, k ∈ top_ignore → getitem d k = Ok v →
           ∃ v', getitem out k = Ok v' ∧ remap_value fs mounts v = Ok v')
      ∧ (∀ k v, k ∈ top_ignore → getitem d k = Ok v →
           settled fs v = true → getitem out k = Ok v)
      ∧ ∃ a a' a'',
          getitem d "algorithm" = Ok a ∧ getitem d' "algorithm" = Ok a'
          ∧ getitem out "algorithm" = Ok a''
          ∧ (∀ k, k ∈ algorithm_ignore → getitem a' k = getitem a k)
          ∧ (∀ k v, k ∈ algorithm_ignore → getitem a k = Ok v →
               ∃ v', getitem a'' k = Ok v'
                     ∧ remap_value fs mounts v = Ok v')
          ∧ (∀ k v, k ∈ algorithm_ignore → getitem a k = Ok v →
               settled fs v = true → getitem a'' k = Ok v).
Proof.
  intros Hrun Hdetails Hsamples Hj Hwf.
  pose proof (update_config_run fs args config input_dir h) as Hwith.
  rewrite Hrun in Hwith. cbn in Hwith. symmetry in Hwith.
  apply update_config_with_Ok in Hwith
    as (details0 & samples0 & absdetails & directories & outs
        & Hdetails0 & Hsamples0 & Habs & Hremap & Hset & _).
  rewrite Hdetails in Hdetails0. injection Hdetails0 as <-.
  rewrite Hsamples in Hsamples0. injection Hsamples0 as <-.
  pose proof Habs as (ds & dss & Hds & _ & Hall & _)%absolutize_details_with_Ok.
  cbn in Hds. subst ds.
  destruct (Forall2_lookup_l _ _ _ _ _ Hall Hj) as (d' & Hj' & Hd').
  destruct (Forall2_lookup_l _ _ _ _ _ Hremap Hj') as (out & Hout & Hremapped).
  apply getitem_setitem in Hset as [Hget _].
  exists absdetails, directories, d', outs, out.
  split_and!; [done..|]. intros mounts.
  pose proof (absolutize_detail_with_well_formed _ _ _ _ Hwf Hd') as Hwf'.
  destruct (absolutize_detail_with_ignored _ _ _ _ Hwf Hd')
    as (Htop & a & a' & Ha & Ha' & Halg).
  assert (∀ k v, k ∈ top_ignore → getitem d k = Ok v →
            ∃ v', getitem out k = Ok v' ∧ remap_value fs mounts v = Ok v')
    as Hends.
  { intros k v Hk Hv. rewrite <-Htop in Hv by done.
    by eapply _remap_directories_getitem. }
  destruct (_remap_directories_getitem _ _ _ _ _ _ Hwf' Hremapped Ha')
    as (a'' & Ha'' & Hremapped').
  assert (∀ k v, k ∈ algorithm_ignore → getitem a k = Ok v →
            ∃ v', getitem a'' k = Ok v' ∧ remap_value fs mounts v = Ok v')
    as Hends'.
  { intros k v Hk Hv. rewrite <-Halg in Hv by done.
    destruct a' as [| | | | | |aitems]; try done.
    rewrite remap_value_dict in Hremapped'.
    eapply _remap_directories_getitem; [|done..].
    destruct d' as [| | | | | |items']; try done.
    apply well_formed_dict_iff in Hwf' as [_ Hvalues].
    cbn in Ha'. destruct (dict_get "algorithm" items') eqn:Hg; [|done].
    injection Ha' as ->. by eapply Hvalues, dict_get_Some_elem_of. }
  split_and!; [done..| |].
  - intros k v Hk Hv Hsettled. destruct (Hends k v Hk Hv) as (v' & -> & Hv').
    rewrite settled_remap_value in Hv' by done. by injection Hv' as <-.
  - exists a, a', a''. split_and!; [done..|].
    intros k v Hk Hv Hsettled. destruct (Hends' k v Hk Hv) as (v' & -> & Hv').
    rewrite settled_remap_value in Hv' by done. by injection Hv' as <-.
Qed.

Lemma update_config_respects_ignore_witness :
  let fs := scenario_A_host in
  let args := scenario_A_args in
  let d := ignored_sample in
  ∃ absdetails directories d' outs out,
    absolutize_details_with fs (search_dirs fs args) [d] ([], [])
    = Ok (absdetails, directories)
    ∧ absdetails !! 0 = Some d'
    ∧ getitem (VDict [("details", VList [ignored_remapped])]) "details"
      = Ok (VList outs)
    ∧ outs !! 0 = Some out
    ∧ let mounts := allocate_mounts "/mnt/in" directories in
      (∀ k, k ∈ top_ignore → getitem d' k = getitem d k)
      ∧ (∀ k v, k ∈ top_ignore → getitem d k = Ok v →
           ∃ v', getitem out k = Ok v' ∧ remap_value fs mounts v = Ok v')
      ∧ (∀ k v, k ∈ top_ignore → getitem d k = Ok v →
           settled fs v = true → getitem out k = Ok v)
      ∧ ∃ a a' a'',
          getitem d "algorithm" = Ok a ∧ getitem d' "algorithm" = Ok a'
          ∧ getitem out "algorithm" = Ok a''
          ∧ (∀ k, k ∈ algorithm_ignore → getitem a' k = getitem a k)
          ∧ (∀ k v, k ∈ algorithm_ignore → getitem a k = Ok v →
               ∃ v', getitem a'' k = Ok v'
                     ∧ remap_value fs mounts v = Ok v')
          ∧ (∀ k v, k ∈ algorithm_ignore → getitem a k = Ok v →
               settled fs v = true → getitem a'' k = Ok v).
Proof.
  intros fs args d.
  apply (update_config_respects_ignore scenario_A_host scenario_A_args
           (VDict [("details", VList [ignored_sample])]) "/mnt/in" ∅
           (update_config scenario_A_host scenario_A_args
              (VDict [("details", VList [ignored_sample])]) "/mnt/in" ∅).2
           (VDict [("details", VList [ignored_remapped])])
           ["/data/run1:/mnt/in/0"] (VList [ignored_sample])
           [ignored_sample] 0 ignored_sample).
  - vm_compute. reflexivity.
  - reflexivity.
  - reflexivity.
  - reflexivity.
  - reflexivity.
Defined.

(** The run of the witness, computed: the ignored keys [description],
    [resources] and [variantcaller] hold settled values, and the returned
    sample holds them as the input did, next to the remapped [files] and
    [bam]. *)
Example update_config_respects_ignore_computed :
  settled scenario_A_host (VStr "sample.bam") = true
  ∧ settled scenario_A_host (VDict [("dir", VStr "sample.bam")]) = true
  ∧ (absolutize_detail scenario_A_host scenario_A_args ignored_sample ∅).1
    = Ok ignored_absolutized
  ∧ (update_config scenario_A_host scenario_A_args
       (VDict [("details", VList [ignored_sample])]) "/mnt/in" ∅).1
    = Ok (VDict [("details", VList [ignored_remapped])],
          ["/data/run1:/mnt/in/0"]).
Proof. vm_compute. by split_and!. Qed.

(** C2 as stated fails in the remap pass: [description] is an ignored key,
    its value is an existing absolute path, which is not settled, and
    [update_config] returns it rewritten to the mount point. *)
Lemma update_config_rewrites_ignored_key :
  "description" ∈ top_ignore
  ∧ (update_config scenario_A_host {| fcdir := None |} described_config
       "/mnt/in" ∅).1
    = Ok (VDict [("details",
                  VList [VDict [("description", VStr "/mnt/in/0/sample.bam");
                                ("algorithm",
                                 VDict [("aligner", VStr "bwa")])]])],
          ["/data/run1:/mnt/in/0"]).
Proof. split; [by left|]. vm_compute. reflexivity. Qed.

(** ** Fields and file names *)

Lemma str_split_words s :
  Forall (λ w, w ≠ "" ∧ is_word w = true) (str_split s).
Proof.
  induction s as [|c s IH]; [constructor|]. cbn.
  destruct (Ascii.is_space c) eqn:Hc; [done|].
  destruct (starts_word s).
  - destruct (str_split s) as [|w ws].
    + constructor; [|done]. cbn. by rewrite Hc.
    + apply Forall_cons in IH as [[_ Hw] Hws]. constructor; [|done].
      cbn. by rewrite Hc, Hw.
  - constructor; [|done]. cbn. by rewrite Hc.
Qed.

Lemma str_split_starts_word s : starts_word s = true → str_split s ≠ [].
Proof.
  destruct s as [|c s]; [done|]. cbn. intros ->%negb_true_iff.
  destruct (starts_word s); [by destruct (str_split s)|done].
Qed.

Lemma str_rstrip_word w : is_word w = true → str_rstrip w = w.
Proof.
  induction w as [|c w IH]; [done|]. cbn.
  intros [Hc%negb_true_iff Hw]%andb_true_iff. rewrite IH by done.
  destruct w; [by rewrite Hc|done].
Qed.

(** Stripping a field of [str.split] changes nothing. *)
Lemma str_strip_word w : is_word w = true → str_strip w = w.
Proof.
  intros Hw. unfold str_strip.
  assert (str_lstrip w = w) as ->; [|by apply str_rstrip_word].
  destruct w as [|c w]; [done|]. cbn in *.
  apply andb_true_iff in Hw as [Hc%negb_true_iff _]. by rewrite Hc.
Qed.

Lemma prefix_index_starts_word line :
  String.prefix "index" line = true → starts_word line = true.
Proof.
  destruct line as [|c line]; [done|]. cbn [String.prefix].
  by destruct (Ascii.ascii_dec "i" c) as [<-|].
Qed.

Lemma cut_no_sep b : no_sep b = true → posixpath.cut b = ("", b).
Proof.
  induction b as [|c b IH]; [done|]. cbn.
  intros [Hc%negb_true_iff Hb]%andb_true_iff. by rewrite IH, Hc.
Qed.

Lemma cut_cons c p :
  posixpath.cut (String c p)
  = match posixpath.cut p with
    | (EmptyString, tail) =>
        if bool_decide (c = posixpath.sep) then (String c "", tail)
        else ("", String c tail)
    | (head, tail) => (String c head, tail)
    end.
Proof. done. Qed.

Lemma cut_app a b :
  no_sep b = true → posixpath.cut (a +:+ "/" +:+ b) = (a +:+ "/", b).
Proof.
  intros Hb. induction a as [|c a IH].
  - change ("" +:+ "/" +:+ b) with (String "/" b). cbn.
    by rewrite cut_no_sep.
  - rewrite !(string_app_cons c a), cut_cons, IH. by destruct a.
Qed.

Lemma rstrip_sep_app a :
  posixpath.endswith_sep a = false → posixpath.rstrip_sep (a +:+ "/") = a.
Proof.
  induction a as [|c a IH]; [done|]. rewrite string_app_cons. cbn.
  destruct a as [|c' a].
  - intros Hc. cbn. by rewrite Hc.
  - intros Ha. by rewrite IH.
Qed.

Lemma all_sep_app a :
  a ≠ "" → posixpath.endswith_sep a = false →
  posixpath.all_sep (a +:+ "/") = false.
Proof.
  induction a as [|c a IH]; [done|]. intros _. rewrite string_app_cons. cbn.
  destruct a as [|c' a].
  - intros ->. done.
  - intros Ha. rewrite IH by done. apply andb_false_r.
Qed.

(** Splitting [a/b] gives [a] and [b] back, for a file name [b] and a
    directory [a] written without a slash at its end. *)
Lemma split_app a b :
  a ≠ "" → posixpath.endswith_sep a = false → no_sep b = true →
  posixpath.split (a +:+ "/" +:+ b) = (a, b).
Proof.
  intros Ha Hsep Hb. unfold posixpath.split. rewrite cut_app by done.
  rewrite all_sep_app, rstrip_sep_app by done.
  rewrite bool_decide_eq_false_2; [done|]. by destruct a.
Qed.

Lemma no_sep_startswith b : no_sep b = true → posixpath.startswith_sep b = false.
Proof.
  destruct b as [|c b]; [done|]. cbn.
  by intros [Hc%negb_true_iff _]%andb_true_iff.
Qed.

Lemma join_app a b :
  a ≠ "" → posixpath.endswith_sep a = false →
  posixpath.startswith_sep b = false →
  posixpath.join a b = a +:+ "/" +:+ b.
Proof.
  intros Ha Hsep Hb. unfold posixpath.join. rewrite Hb, Hsep.
  by rewrite bool_decide_eq_false_2.
Qed.

Lemma split_join a b :
  a ≠ "" → posixpath.endswith_sep a = false → no_sep b = true →
  posixpath.split (posixpath.join a b) = (a, b).
Proof.
  intros Ha Hsep Hb. rewrite join_app by auto using no_sep_startswith.
  by apply split_app.
Qed.

(** [dirname/tool-data] is written without a slash at its end. *)
Lemma join_tool_data dirname :
  posixpath.join dirname "tool-data" ≠ ""
  ∧ posixpath.endswith_sep (posixpath.join dirname "tool-data") = false.
Proof.
  assert (∃ a, posixpath.join dirname "tool-data" = a +:+ "tool-data")
    as [a ->].
  { unfold posixpath.join. cbn. destruct (_ || _); [by eexists|].
    exists (dirname +:+ "/"). by rewrite string_app_assoc. }
  split; [by destruct a|]. by rewrite endswith_sep_app.
Qed.

Section find_genome_directory_facts.
Variable fs : filesystem.
Variable file_lines : string → option (list string).

Lemma index_genome_dir_returns lines :
  ∃ genome_dir, index_genome_dir lines = inr genome_dir.
Proof.
  induction lines as [|line lines IH]; [by eexists|]. cbn [index_genome_dir].
  destruct (String.prefix "index" line) eqn:Hline; [|done].
  apply prefix_index_starts_word, str_split_starts_word in Hline.
  destruct (last (str_split line)) eqn:Hlast; [by eexists|].
  by apply last_None in Hlast.
Qed.

Lemma index_genome_dir_first pre line post g :
  Forall (λ l, String.prefix "index" l = false) pre →
  String.prefix "index" line = true →
  last (str_split line) = Some g →
  index_genome_dir (pre ++ line :: post) = inr (Some g) ∧ g ≠ "".
Proof.
  intros Hpre Hline Hg. assert (g ≠ "" ∧ is_word g = true) as [Hne Hw].
  { pose proof (str_split_words line) as Hwords.
    rewrite Forall_forall in Hwords. apply Hwords.
    rewrite last_Some in Hg. destruct Hg as [l' ->].
    apply elem_of_app. right. by left. }
  split; [|done]. induction Hpre as [|l pre Hl _ IH]; cbn.
  - by rewrite Hline, Hg, str_strip_word.
  - by rewrite Hl.
Qed.
End find_genome_directory_facts.

(** X1. [find_genome_directory] raises nothing but the [IOError] of a locator
    file that is there and cannot be opened: the index [-1] of line 52 is
    never out of range, because a line that starts with [index] has a
    field. *)
Theorem find_genome_directory_raises fs file_lines dirname container_dir e :
  find_genome_directory fs file_lines dirname container_dir = inl e
  ↔ e = IOError
    ∧ let sam_loc := posixpath.join (posixpath.join dirname "tool-data")
                       "sam_fa_indices.loc" in
      fs_exists fs sam_loc = true ∧ file_lines sam_loc = None.
Proof.
  unfold find_genome_directory. cbn zeta.
  destruct (fs_exists fs _); [|split; [done|by intros (_ & ? & _)]].
  destruct (file_lines _) as [lines|].
  - destruct (index_genome_dir_returns lines) as [[g|] ->].
    + split; [by destruct (_ && _)|by intros (_ & _ & ?)].
    + split; [done|by intros (_ & _ & ?)].
  - split; [by intros [= <-]|by intros [-> _]].
Qed.

(** X2. The first line of the locator file that starts with [index] decides
    what [find_genome_directory] returns, whatever the lines after it are.
    When the last field [g] of that line is an absolute path nothing is
    mounted.  When it is relative, one mount spec is returned: it binds the
    directory three levels above [g], taken from [dirname/tool-data] and
    normalized, to the same directory taken from [container_dir/tool-data]. *)
Theorem find_genome_directory_first_index fs file_lines dirname container_dir
    pre line post g :
  let sam_loc := posixpath.join (posixpath.join dirname "tool-data")
                   "sam_fa_indices.loc" in
  fs_exists fs sam_loc = true →
  file_lines sam_loc = Some (pre ++ line :: post) →
  Forall (λ l, String.prefix "index" l = false) pre →
  String.prefix "index" line = true →
  last (str_split line) = Some g →
  let rel := posixpath.dirname
               (posixpath.dirname (posixpath.dirname g)) in
  find_genome_directory fs file_lines dirname container_dir
  = inr (if posixpath.isabs g then []
         else [tool_data_dir dirname rel +:+ ":"
               +:+ tool_data_dir container_dir rel]).
Proof.
  intros sam_loc Hex Hlines Hpre Hline Hg rel.
  unfold find_genome_directory. fold sam_loc. rewrite Hex, Hlines.
  destruct (index_genome_dir_first pre line post g) as [-> Hne]; [done..|].
  cbn [truthy]. rewrite bool_decide_eq_false_2 by done. cbn [negb andb].
  destruct (posixpath.isabs g); [done|]. cbn [negb].
  unfold tool_data_dir. fold rel. do 4 f_equal.
  destruct (join_tool_data dirname) as [Hne' Hsep].
  unfold posixpath.dirname at 1, sam_loc. by rewrite split_join.
Qed.

Lemma find_genome_directory_first_index_witness :
  let g := "../genomes/Hsapiens/hg19/sam/hg19.fa" in
  let rel := posixpath.dirname
               (posixpath.dirname (posixpath.dirname g)) in
  find_genome_directory galaxy_host galaxy_lines "/opt/galaxy"
    "/mnt/biodata/galaxy"
  = inr (if posixpath.isabs g then []
         else [tool_data_dir "/opt/galaxy" rel +:+ ":"
               +:+ tool_data_dir "/mnt/biodata/galaxy" rel]).
Proof.
  apply (find_genome_directory_first_index galaxy_host galaxy_lines
           "/opt/galaxy" "/mnt/biodata/galaxy"
           ["#index <build> <path>" +:+ String "010" ""]
           ("index hg19 ../genomes/Hsapiens/hg19/sam/hg19.fa"
              +:+ String "010" "")
           ["index mm9 /biodata/genomes/Mmusculus/mm9/sam/mm9.fa"
              +:+ String "010" ""]
           "../genomes/Hsapiens/hg19/sam/hg19.fa").
  - reflexivity.
  - reflexivity.
  - repeat constructor.
  - reflexivity.
  - reflexivity.
Defined.

(** The galaxy directory of that host is mounted three levels above the
    index. *)
Example find_genome_directory_galaxy :
  find_genome_directory galaxy_host galaxy_lines "/opt/galaxy"
    "/mnt/biodata/galaxy"
  = inr ["/opt/galaxy/genomes/Hsapiens:/mnt/biodata/galaxy/genomes/Hsapiens"].
Proof. reflexivity. Qed.

(** ** Where a loop raises *)

Lemma for_each_Raise_inv {A B} (body : A → B → result A) l acc e :
  for_each body l acc = Raise e → ∃ a x, x ∈ l ∧ body a x = Raise e.
Proof.
  revert acc. induction l as [|x l IH]; intros acc; [done|].
  rewrite for_each_cons. destruct (body acc x) as [acc'|e'] eqn:Hx.
  - rewrite Ok_bind. intros (a & x' & Hin & Hraise)%IH.
    exists a, x'. split; [by right|done].
  - intros [= ->]. exists acc, x. split; [by left|done].
Qed.

Lemma list_comp_Raise_inv {A B} (f : A → result B) l e :
  list_comp f l = Raise e → ∃ x, x ∈ l ∧ f x = Raise e.
Proof.
  intros (out & x & Hin & Hraise)%for_each_Raise_inv. exists x.
  split; [done|]. destruct (f x) as [y|e']; [done|]. by injection Hraise as ->.
Qed.

Lemma dict_for_Raise_inv body items out e :
  dict_for body items out = Raise e →
  ∃ k x, (k, x) ∈ items ∧ body k x = Raise e.
Proof.
  intros (out' & [k x] & Hin & Hraise)%for_each_Raise_inv. exists k, x.
  split; [done|]. destruct (body k x) as [y|e']; [done|].
  by injection Hraise as ->.
Qed.

Lemma list_comp_is_Ok {A B} (f : A → result B) l :
  (∀ x, x ∈ l → is_Ok (f x)) → is_Ok (list_comp f l).
Proof.
  intros Hf. destruct (list_comp f l) as [out|e] eqn:Hl; [by exists out|].
  apply list_comp_Raise_inv in Hl as (x & Hin & Hx).
  destruct (Hf x Hin) as [y Hy]. congruence.
Qed.

Lemma dict_for_is_Ok body items out :
  (∀ k x, (k, x) ∈ items → is_Ok (body k x)) →
  is_Ok (dict_for body items out).
Proof.
  intros Hf. destruct (dict_for body items out) as [out'|e] eqn:Hl;
    [by exists out'|].
  apply dict_for_Raise_inv in Hl as (k & x & Hin & Hx).
  destruct (Hf k x Hin) as [y Hy]. congruence.
Qed.

Lemma elem_of_concat {A} (x : A) (ls : list (list A)) :
  x ∈ concat ls ↔ ∃ l, l ∈ ls ∧ x ∈ l.
Proof.
  induction ls as [|l ls IH]; cbn.
  - split; [by intros ?%elem_of_nil|by intros (? & ?%elem_of_nil & _)].
  - rewrite elem_of_app, IH. split.
    + intros [Hx|(l' & Hl' & Hx)]; [exists l|exists l'];
        (split; [|done]); [by left|by right].
    + intros (l' & [->|Hl']%elem_of_cons & Hx); [by left|right; eauto].
Qed.

(** The directories a dict gives are those of its values, one after the
    other. *)
Lemma get_directories_acc_Ok fs (items : dict value) acc out :
  for_each (λ out '(k, v), ds ← value_directories fs v; mret (out ++ ds))
    items acc = Ok out
  ↔ ∃ dss, out = acc ++ concat dss
           ∧ Forall2 (λ kv ds, value_directories fs kv.2 = Ok ds) items dss.
Proof.
  revert acc out. induction items as [|[k v] items IH]; intros acc out.
  - cbn. split.
    + intros [= <-]. exists []. by rewrite app_nil_r.
    + intros (dss & -> & Hdss). inversion Hdss. by rewrite app_nil_r.
  - rewrite for_each_cons, bind_Ok. split.
    + intros (acc' & Hv & Hrest). apply bind_Ok in Hv as (ds & Hds & [= <-]).
      apply IH in Hrest as (dss & -> & Hdss). exists (ds :: dss).
      rewrite <-app_assoc. split; [done|]. by constructor.
    + intros (dss & -> & Hdss).
      inversion Hdss as [|? ds ? dss' Hds Hdss']; simplify_eq/=.
      exists (acc ++ ds). rewrite Hds. split; [done|]. apply IH.
      exists dss'. by rewrite <-app_assoc.
Qed.

Lemma _get_directories_dict_Ok fs (items : dict value) out :
  _get_directories fs (VDict items) = Ok out
  ↔ ∃ dss, out = concat dss
           ∧ Forall2 (λ kv ds, value_directories fs kv.2 = Ok ds) items dss.
Proof. rewrite _get_directories_dict. apply get_directories_acc_Ok. Qed.

Lemma _get_directories_value_directories fs xs :
  _get_directories fs xs
  = if is_dict xs then value_directories fs xs else Ok [].
Proof. by destruct xs. Qed.

Lemma _remap_directories_remap_value fs mounts xs :
  _remap_directories fs xs mounts
  = if is_dict xs then remap_value fs mounts xs else Ok xs.
Proof. by destruct xs. Qed.

(** ** The collect pass and the remap pass agree *)

Section agreement.
Variable fs : filesystem.
Variable mounts : dict string.

Lemma remap_path_is_Ok s :
  posixpath.dirname s ∈ dict_keys mounts →
  is_Ok (remap_path mounts (VStr s)).
Proof.
  intros Hs. unfold remap_path, posixpath.dirname in *. cbn.
  destruct (posixpath.split s) as [dirname basename]. cbn in *.
  destruct (dict_get dirname mounts) as [m|] eqn:Hm; [by eexists|].
  by apply dict_get_None in Hm.
Qed.

Lemma remap_paths_is_Ok l ds :
  list_comp os_path_dirname l = Ok ds →
  (∀ d, d ∈ ds → d ∈ dict_keys mounts) →
  is_Ok (list_comp (remap_path mounts) l).
Proof.
  intros Hl%list_comp_Ok Hds. apply list_comp_is_Ok. intros x Hx.
  apply list_elem_of_lookup in Hx as [i Hi].
  destruct (Forall2_lookup_l _ _ _ _ _ Hl Hi) as (d & Hd & Hxd).
  destruct x as [| | |s| | |]; try done. injection Hxd as <-.
  apply remap_path_is_Ok, Hds. by eapply list_elem_of_lookup_2.
Qed.

Lemma remap_value_collected v ds :
  value_directories fs v = Ok ds →
  (∀ d, d ∈ ds → d ∈ dict_keys mounts) →
  is_Ok (remap_value fs mounts v).
Proof.
  revert ds. induction v as [| | |s|l _|l _|items IH] using value_ind;
    intros ds Hv Hds; try by eexists.
  - rewrite value_directories_classified in Hv by done.
    rewrite remap_value_classified by done.
    destruct (path_classified fs (VStr s)) as [[]|]; try done; [|by eexists].
    rewrite Ok_bind in *. injection Hv as <-.
    apply remap_path_is_Ok, Hds. by left.
  - rewrite value_directories_classified in Hv by done.
    rewrite remap_value_classified by done.
    destruct (path_classified fs (VList l)) as [[]|]; try done; [|by eexists].
    rewrite Ok_bind in *.
    destruct (remap_paths_is_Ok l ds Hv Hds) as [l' ->]. by eexists.
  - rewrite value_directories_classified in Hv by done.
    rewrite remap_value_classified by done.
    destruct (path_classified fs (VTuple l)) as [[]|]; try done; [|by eexists].
    rewrite Ok_bind in *.
    destruct (remap_paths_is_Ok l ds Hv Hds) as [l' ->]. by eexists.
  - change (value_directories fs (VDict items))
      with (_get_directories fs (VDict items)) in Hv.
    apply _get_directories_dict_Ok in Hv as (dss & -> & Hdss).
    rewrite remap_value_dict, _remap_directories_dict.
    destruct (dict_for_is_Ok (λ _, remap_value fs mounts) items [])
      as [items' ->]; [|by eexists].
    intros k x Hin. apply list_elem_of_lookup in Hin as [i Hi].
    destruct (Forall2_lookup_l _ _ _ _ _ Hdss Hi) as (ds' & Hds' & Hx).
    rewrite Forall_forall in IH. apply (IH (k, x)) with ds'; [|done|].
    { by eapply list_elem_of_lookup_2. }
    intros d Hd. apply Hds, elem_of_concat. exists ds'.
    split; [|done]. by eapply list_elem_of_lookup_2.
Qed.
End agreement.

(** X3. The remap pass finds a mount point for every path it meets, whenever
    the mapping has a key for each directory that the collect pass returns
    for the same tree: both passes go through the same leaves and take the
    directory of a path the same way, so [_remap_directories] then returns
    and raises nothing. *)
Theorem remap_succeeds_on_collected fs xs mounts ds :
  _get_directories fs xs = Ok ds →
  (∀ d, d ∈ ds → d ∈ dict_keys mounts) →
  is_Ok (_remap_directories fs xs mounts).
Proof.
  rewrite _get_directories_value_directories,
    _remap_directories_remap_value.
  destruct (is_dict xs); [apply remap_value_collected|by eexists].
Qed.

Lemma remap_succeeds_on_collected_witness :
  is_Ok (_remap_directories scenario_A_host
           (VDict [("files", VStr "/data/run1/sample.bam");
                   ("algorithm", VDict [("aligner", VStr "bwa")])])
           (allocate_mounts "/mnt/in" ["/data/run1"])).
Proof.
  apply (remap_succeeds_on_collected scenario_A_host
           (VDict [("files", VStr "/data/run1/sample.bam");
                   ("algorithm", VDict [("aligner", VStr "bwa")])])
           (allocate_mounts "/mnt/in" ["/data/run1"]) ["/data/run1"]).
  - reflexivity.
  - intros d Hd. exact Hd.
Defined.

(** ** What update_config raises *)



Section raises.
Variable fs : filesystem.



(** On a string [_normalize_path] returns. *)
Lemma _normalize_path_str s dirs :
  ∃ o, _normalize_path fs (VStr s) dirs = Ok o.
Proof.
  induction dirs as [|base_dir dirs IH]; [by eexists|]. cbn.
  destruct (fs_exists fs _); [by eexists|done].
Qed.











(** The samples of the first loop are remapped without an exception: the
    mapping has a key for every directory collected from them. *)
Lemma remap_absolutized_is_Ok dirs details absdetails directories input_dir :
  absolutize_details_with fs dirs details ([], [])
  = Ok (absdetails, directories) →
  is_Ok (list_comp
           (λ d, _remap_directories fs d
                   (allocate_mounts input_dir directories)) absdetails).
Proof.
  intros (ds & dss & -> & -> & _ & Hdss)%absolutize_details_with_Ok.
  apply list_comp_is_Ok. intros d Hd. cbn in Hd.
  apply list_elem_of_lookup in Hd as [i Hi].
  destruct (Forall2_lookup_l _ _ _ _ _ Hdss Hi) as (ds' & Hds' & Hget).
  rewrite _get_directories_value_directories in Hget.
  rewrite _remap_directories_remap_value.
  destruct (is_dict d); [|by eexists].
  apply (remap_value_collected fs _ d ds' Hget).
  intros d' Hd'. rewrite allocate_mounts_keys, elem_of_sorted_py_set. cbn.
  apply elem_of_concat. exists ds'. split; [|done].
  by eapply list_elem_of_lookup_2.
Qed.

Lemma setitem_getitem_is_Ok v k x y :
  getitem v k = Ok x → is_Ok (setitem v k y).
Proof. destruct v; try done. by eexists. Qed.


Lemma update_config_with_is_Ok dirs config input_dir :
  is_Ok (update_config_with fs dirs config input_dir)
  ↔ ∃ details items,
      getitem config "details" = Ok details
      ∧ iter_value details = Ok items
      ∧ is_Ok (absolutize_details_with fs dirs items ([], [])).
Proof.
  split.
  - intros [[config' specs] H].
    apply update_config_with_Ok
      in H as (details & items & absdetails & directories & _ & ? & ? & ? & _).
    exists details, items. split_and!; [done..|]. by eexists.
  - intros (details & items & Hdetails & Hitems & [[absdetails directories] Habs]).
    unfold update_config_with.
    rewrite Hdetails, Ok_bind, Hitems, Ok_bind, Habs, Ok_bind.
    destruct (remap_absolutized_is_Ok _ _ _ _ input_dir Habs) as [remapped ->].
    rewrite Ok_bind.
    destruct (setitem_getitem_is_Ok config "details" details (VList remapped))
      as [config' ->]; [done|]. by eexists.
Qed.
End raises.



(** X5. [update_config] returns exactly when its first loop does: once every
    sample is absolutized and its directories are collected, building the
    mapping, remapping the samples and storing them cannot fail. *)
Theorem update_config_returns fs args config input_dir (h : heap) :
  is_Ok (update_config fs args config input_dir h).1
  ↔ ∃ details items,
      getitem config "details" = Ok details
      ∧ iter_value details = Ok items
      ∧ is_Ok (absolutize_details fs args items h).1.
Proof.
  rewrite update_config_run, update_config_with_is_Ok.
  unfold absolutize_details.
  split; intros (details & items & ? & ? & Habs); exists details, items;
    (split_and!; [done..|]);
    destruct (absolutize_details_run fs args items ([], []) h) as [h' Hrun].
  - by rewrite Hrun.
  - by rewrite Hrun in Habs.
Qed.

(** ** Mount points *)

Lemma mount_point_inj input_dir (i j : nat) :
  posixpath.join input_dir (pretty i) = posixpath.join input_dir (pretty j) →
  i = j.
Proof.
  rewrite !(join_relative input_dir (pretty _)) by apply pretty_nat_not_sep.
  intros Hij%(inj (String.app _)). by apply (inj pretty).
Qed.

Lemma cut_tail_no_sep p : no_sep (posixpath.cut p).2 = true.
Proof.
  induction p as [|c p IH]; [done|]. rewrite cut_cons.
  destruct (posixpath.cut p) as [[|h head] tail]; cbn in *; [|done].
  destruct (bool_decide (c = posixpath.sep)) eqn:Hc; [done|]. cbn.
  by rewrite Hc.
Qed.

(** A basename holds no slash. *)
Lemma basename_no_sep s : no_sep (posixpath.split s).2 = true.
Proof.
  unfold posixpath.split. pose proof (cut_tail_no_sep s) as Hs.
  by destruct (posixpath.cut s) as [head tail].
Qed.

(** X6. No two directories share a mount point. *)
Theorem allocate_mounts_injective input_dir directories d1 d2 m :
  dict_get d1 (allocate_mounts input_dir directories) = Some m →
  dict_get d2 (allocate_mounts input_dir directories) = Some m →
  d1 = d2.
Proof.
  intros (i & Hi & ->)%dict_get_Some_elem_of%allocate_mounts_elem_of.
  intros (j & Hj & <-%mount_point_inj)%dict_get_Some_elem_of
    %allocate_mounts_elem_of.
  congruence.
Qed.

Lemma allocate_mounts_injective_witness :
  "/data/run1" = "/data/run1".
Proof.
  apply (allocate_mounts_injective "/mnt/in"
           ["/data/run2"; "/data/run1"; "/data/run2"]
           "/data/run1" "/data/run1" "/mnt/in/0"); reflexivity.
Defined.

(** X7. Splitting a remapped path gives back the mount point of the
    directory the file was in and the name the file had. *)
Theorem remap_path_split input_dir directories s (i : nat) :
  sorted (py_set directories) !! i = Some (posixpath.dirname s) →
  ∃ p, remap_path (allocate_mounts input_dir directories) (VStr s)
       = Ok (VStr p)
       ∧ posixpath.split p
         = (posixpath.join input_dir (pretty i), (posixpath.split s).2).
Proof.
  intros Hi%(allocate_mounts_lookup input_dir). unfold remap_path.
  unfold posixpath.dirname in Hi. cbn.
  destruct (posixpath.split s) as [dirname basename] eqn:Hs. cbn in *.
  rewrite Hi. eexists. split; [done|].
  destruct (mount_point_no_slash input_dir i) as [Hne Hsep].
  apply split_join; [done..|].
  pose proof (basename_no_sep s) as Hb. by rewrite Hs in Hb.
Qed.

Lemma remap_path_split_witness :
  ∃ p, remap_path (allocate_mounts "/mnt/in" ["/data/run2"; "/data/run1"])
         (VStr "/data/run2/sample.bam")
       = Ok (VStr p)
       ∧ posixpath.split p
         = (posixpath.join "/mnt/in" (pretty 1%nat),
            (posixpath.split "/data/run2/sample.bam").2).
Proof.
  apply (remap_path_split "/mnt/in" ["/data/run2"; "/data/run1"]
           "/data/run2/sample.bam" 1).
  reflexivity.
Defined.

(** ** Remapped paths and mount specs *)

(** X8. In the tree that [_remap_directories] returns for a dict, every
    string that was an existing absolute path is found under the same keys
    as the file of the same name in a mount point, and the mount specs built
    from the mapping bind the directory the file was in to that mount
    point. *)
Theorem remapped_path_is_mounted fs mounts items out ks s :
  well_formed (VDict items) = true →
  _remap_directories fs (VDict items) mounts = Ok out →
  lookup_path ks (VDict items) = Some (VStr s) →
  fs_exists fs s = true → posixpath.isabs s = true →
  ∃ m, lookup_path ks out
       = Some (VStr (posixpath.join m (posixpath.split s).2))
       ∧ posixpath.dirname s +:+ ":" +:+ m ∈ mount_specs mounts.
Proof.
  intros Hwf Hout Hs Hex Habs.
  apply _remap_directories_remapped in Hout as (_ & _ & Hleaves); [|done].
  destruct (Hleaves ks (VStr s) Hs) as (v1 & Hv1 & Hremap); [done|].
  cbn [remap_value truthy] in Hremap. rewrite Hex, Habs in Hremap.
  rewrite bool_decide_eq_false_2 in Hremap by (by intros ->).
  apply remap_path_Ok in Hremap as (s' & m & [= <-] & Hm & ->).
  exists m. split; [done|]. unfold mount_specs.
  apply list_elem_of_fmap. exists (posixpath.dirname s, m).
  split; [done|]. by apply dict_get_Some_elem_of.
Qed.

Lemma remapped_path_is_mounted_witness :
  ∃ m, lookup_path ["files"]
         (VDict [("files", VStr "/mnt/in/0/sample.bam");
                 ("algorithm", VDict [("aligner", VStr "bwa")])])
       = Some (VStr (posixpath.join m
                       (posixpath.split "/data/run1/sample.bam").2))
       ∧ posixpath.dirname "/data/run1/sample.bam" +:+ ":" +:+ m
         ∈ mount_specs (allocate_mounts "/mnt/in" ["/data/run1"]).
Proof.
  apply (remapped_path_is_mounted scenario_A_host
           (allocate_mounts "/mnt/in" ["/data/run1"])
           [("files", VStr "/data/run1/sample.bam");
            ("algorithm", VDict [("aligner", VStr "bwa")])]);
    reflexivity.
Defined.

(** ** A tree without paths *)

Section nothing_collected.
Variable fs : filesystem.

Lemma value_directories_nil_settled v :
  well_formed v = true → value_directories fs v = Ok [] →
  settled fs v = true.
Proof.
  induction v as [| | |s|l _|l _|items IH] using value_ind; intros Hwf Hv;
    try done.
  - apply settled_leaf; [done|]. rewrite value_directories_classified in Hv
      by done.
    by destruct (path_classified fs (VStr s)) as [[]|].
  - apply settled_leaf; [done|]. rewrite value_directories_classified in Hv
      by done.
    destruct (path_classified fs (VList l)) as [[]|] eqn:Hc; try done.
    rewrite Ok_bind in Hv. apply list_comp_Ok in Hv. inversion Hv; subst.
    done.
  - apply settled_leaf; [done|]. rewrite value_directories_classified in Hv
      by done.
    destruct (path_classified fs (VTuple l)) as [[]|] eqn:Hc; try done.
    rewrite Ok_bind in Hv. apply list_comp_Ok in Hv. inversion Hv; subst.
    done.
  - apply well_formed_dict in Hwf as [Hnodup Hwf].
    change (value_directories fs (VDict items))
      with (_get_directories fs (VDict items)) in Hv.
    apply _get_directories_dict_Ok in Hv as (dss & Hnil & Hdss).
    apply settled_dict_iff. split; [done|]. intros k v Hin.
    rewrite Forall_forall in IH, Hwf.
    apply (IH (k, v) Hin); [by apply (Hwf (k, v))|].
    apply list_elem_of_lookup in Hin as [i Hi].
    destruct (Forall2_lookup_l _ _ _ _ _ Hdss Hi) as (ds & Hds & ->).
    f_equal. destruct ds as [|d ds]; [done|].
    assert (d ∈ concat dss) as Hd.
    { apply elem_of_concat. exists (d :: ds).
      split; [by eapply list_elem_of_lookup_2|by left]. }
    rewrite <-Hnil in Hd. by apply elem_of_nil in Hd.
Qed.
End nothing_collected.

(** X9. A tree from which the collect pass returns no directory is returned
    as it is by the remap pass, whatever the mapping: where nothing is to be
    mounted nothing is rewritten. *)
Theorem remap_nothing_collected fs xs mounts :
  well_formed xs = true → _get_directories fs xs = Ok [] →
  _remap_directories fs xs mounts = Ok xs.
Proof.
  intros Hwf Hxs. rewrite _get_directories_value_directories in Hxs.
  destruct (is_dict xs) eqn:Hd.
  - by apply settled_remap_directories, value_directories_nil_settled.
  - apply _remap_directories_non_dict. by intros ? ->.
Qed.

Lemma remap_nothing_collected_witness :
  _remap_directories scenario_A_host
    (VDict [("lane", VInt 3); ("algorithm", VDict [("aligner", VStr "bwa")])])
    [("/data/run1", "/mnt/in/0")]
  = Ok (VDict [("lane", VInt 3);
               ("algorithm", VDict [("aligner", VStr "bwa")])]).
Proof.
  apply (remap_nothing_collected scenario_A_host); reflexivity.
Defined.

(** ** What update_config asks of its input and leaves of it *)

Section samples.
Variable fs : filesystem.

Lemma absolutize_detail_with_dict dirs d d' :
  absolutize_detail_with fs dirs d = Ok d' →
  ∃ fields, d = VDict fields ∧ "algorithm" ∈ dict_keys fields.
Proof.
  unfold absolutize_detail_with. intros (d1 & Hd1 & H)%bind_Ok.
  apply bind_Ok in H as (alg & Halg & _).
  destruct d1 as [| | | | | |fields1]; try done. cbn in Halg.
  destruct (dict_get "algorithm" fields1) as [a|] eqn:Ha; [|done].
  destruct d as [| | | | | |fields]; try done. exists fields. split; [done|].
  apply fmap_Ok in Hd1 as (fields1' & Hfor & [= <-]).
  apply dict_for_Ok_inv in Hfor as (Hkeys & _).
  destruct (Hkeys "algorithm") as [[Hnil|Hin] _]; [|by apply elem_of_nil in Hnil|done].
  apply list_elem_of_fmap. exists ("algorithm", a).
  split; [done|]. by apply dict_get_Some_elem_of.
Qed.
End samples.

(** X10. When [update_config] returns, the configuration had a [details]
    entry that could be gone through, and every sample in it was a dict with
    the key [algorithm]: a sample that is no dict, or that has no
    [algorithm], makes it raise. *)
Theorem update_config_samples fs args config input_dir (h h' : heap)
    config' specs :
  update_config fs args config input_dir h = (Ok (config', specs), h') →
  ∃ details items,
    getitem config "details" = Ok details
    ∧ iter_value details = Ok items
    ∧ ∀ d, d ∈ items →
        ∃ fields, d = VDict fields ∧ "algorithm" ∈ dict_keys fields.
Proof.
  intros Hrun. pose proof (update_config_run fs args config input_dir h) as H.
  rewrite Hrun in H. symmetry in H.
  apply update_config_with_Ok
    in H as (details & items & absdetails & directories & remapped
             & Hdetails & Hitems & Habs & _).
  exists details, items. split_and!; [done..|]. intros d Hd.
  apply absolutize_details_with_Ok in Habs as (ds & _ & _ & _ & Hds & _).
  apply list_elem_of_lookup in Hd as [i Hi].
  destruct (Forall2_lookup_l _ _ _ _ _ Hds Hi) as (d' & _ & Hd').
  by eapply absolutize_detail_with_dict.
Qed.

Lemma update_config_samples_witness :
  ∃ details items,
    getitem scenario_A_config "details" = Ok details
    ∧ iter_value details = Ok items
    ∧ ∀ d, d ∈ items →
        ∃ fields, d = VDict fields ∧ "algorithm" ∈ dict_keys fields.
Proof.
  apply (update_config_samples scenario_A_host scenario_A_args
           scenario_A_config "/mnt/in" ∅
           (update_config scenario_A_host scenario_A_args scenario_A_config
              "/mnt/in" ∅).2
           scenario_A_remapped ["/data/run1:/mnt/in/0"]).
  vm_compute. reflexivity.
Defined.

(** X11. [update_config] writes nothing but [details]: the configuration it
    returns has the keys of the one it was given, in the same order, with
    the same value under every key but [details], and [details] is a list
    with one remapped sample for each sample it went through. *)
Theorem update_config_replaces_details fs args config input_dir (h h' : heap)
    config' specs :
  update_config fs args config input_dir h = (Ok (config', specs), h') →
  ∃ fields details items remapped,
    config = VDict fields
    ∧ dict_get "details" fields = Some details
    ∧ iter_value details = Ok items
    ∧ config' = VDict (dict_set "details" (VList remapped) fields)
    ∧ length remapped = length items
    ∧ dict_keys (dict_set "details" (VList remapped) fields)
      = dict_keys fields
    ∧ ∀ k, k ≠ "details" → getitem config' k = getitem config k.
Proof.
  intros Hrun. pose proof (update_config_run fs args config input_dir h) as H.
  rewrite Hrun in H. symmetry in H.
  apply update_config_with_Ok
    in H as (details & items & absdetails & directories & remapped
             & Hdetails & Hitems & Habs & Hremap & Hset & _).
  destruct config as [| | | | | |fields]; try done. cbn in Hdetails, Hset.
  destruct (dict_get "details" fields) as [details'|] eqn:Hget; [|done].
  injection Hdetails as ->. injection Hset as <-.
  exists fields, details, items, remapped. split_and!; try done.
  - apply absolutize_details_with_Ok in Habs as (ds & _ & -> & _ & Hds & _).
    apply Forall2_length in Hds, Hremap. cbn in Hremap. congruence.
  - rewrite dict_keys_set, decide_True; [done|].
    apply list_elem_of_fmap. exists ("details", details).
    split; [done|]. by apply dict_get_Some_elem_of.
  - intros k Hk. cbn. by rewrite dict_get_set, decide_False.
Qed.

Lemma update_config_replaces_details_witness :
  ∃ fields details items remapped,
    scenario_A_config = VDict fields
    ∧ dict_get "details" fields = Some details
    ∧ iter_value details = Ok items
    ∧ scenario_A_remapped
      = VDict (dict_set "details" (VList remapped) fields)
    ∧ length remapped = length items
    ∧ dict_keys (dict_set "details" (VList remapped) fields)
      = dict_keys fields
    ∧ ∀ k, k ≠ "details" →
        getitem scenario_A_remapped k = getitem scenario_A_config k.
Proof.
  apply (update_config_replaces_details scenario_A_host scenario_A_args
           scenario_A_config "/mnt/in" ∅
           (update_config scenario_A_host scenario_A_args scenario_A_config
              "/mnt/in" ∅).2
           scenario_A_remapped ["/data/run1:/mnt/in/0"]).
  vm_compute. reflexivity.
Defined.

(** ** The search through the base directories *)

Lemma normpath_nonempty path : posixpath.normpath path ≠ "".
Proof.
  unfold posixpath.normpath. case_bool_decide; [done|].
  cbn zeta. by case_bool_decide.
Qed.

(** X12. [_normalize_path] takes the base directories in order and stops at
    the first one under which the name exists: it returns the resolved,
    normalized form of the name joined to that directory, whatever the later
    directories hold, and [None] exactly when the name exists under none of
    them.  On a string it never raises. *)
Theorem normalize_path_first_hit fs x dirs :
  match _normalize_path fs (VStr x) dirs with
  | Ok None => ∀ b, b ∈ dirs → fs_exists fs (posixpath.join b x) = false
  | Ok (Some q) =>
      ∃ pre b post,
        dirs = pre ++ b :: post
        ∧ (∀ b', b' ∈ pre → fs_exists fs (posixpath.join b' x) = false)
        ∧ fs_exists fs (posixpath.join b x) = true
        ∧ q = posixpath.normpath (fs_realpath fs (posixpath.join b x))
  | Raise _ => False
  end.
Proof.
  induction dirs as [|base_dir dirs IH]; cbn.
  { by intros b ?%elem_of_nil. }
  destruct (fs_exists fs (posixpath.join base_dir x)) eqn:Hex.
  - exists [], base_dir, dirs. split_and!; try done.
    by intros b ?%elem_of_nil.
  - destruct (_normalize_path fs (VStr x) dirs) as [[q|]|e]; [| |done].
    + destruct IH as (pre & b & post & -> & Hpre & Hb & ->).
      exists (base_dir :: pre), b, post. split_and!; try done.
      by intros b' [->|?]%elem_of_cons; auto.
    + by intros b [->|?]%elem_of_cons; auto.
Qed.

(** ** Lists of names *)

Section lists.
Variable fs : filesystem.

Lemma _normalize_path_truthy x dirs q :
  _normalize_path fs x dirs = Ok (Some q) →
  truthy (value_of_option (Some q)) = true.
Proof.
  intros Hq. apply _normalize_path_Some in Hq as (p & _ & ->). cbn.
  rewrite bool_decide_eq_false_2; [done|]. apply normpath_nonempty.
Qed.

Lemma normalize_names dirs ss os :
  Forall2 (λ s o, _normalize_path fs (VStr s) dirs = Ok o) ss os →
  list_comp (λ x, value_of_option <$> _normalize_path fs x dirs)
    (VStr <$> ss)
  = Ok (value_of_option <$> os).
Proof.
  intros Hos. apply list_comp_Ok. apply Forall2_fmap.
  eapply Forall2_impl; [done|]. intros s o Ho. cbn. by rewrite Ho.
Qed.
End lists.

(** X13. A list or tuple of names under a key that is not ignored is decided
    by its first name.  When the first name is found under a base directory,
    the value becomes a list with the resolved form of every name, and
    [None] in the place of each name that is found nowhere; when it is not,
    the value stays as it is, whatever the other names are. *)
Theorem abs_file_paths_value_names fs dirs ignore k ss os seq :
  k ∉ ignore → ss ≠ [] → seq = VList ∨ seq = VTuple →
  Forall2 (λ s o, _normalize_path fs (VStr s) dirs = Ok o) ss os →
  abs_file_paths_value fs dirs ignore k (seq (VStr <$> ss))
  = Ok (match os with
        | Some _ :: _ => VList (value_of_option <$> os)
        | _ => seq (VStr <$> ss)
        end).
Proof.
  intros Hk Hss Hseq Hos. unfold abs_file_paths_value.
  rewrite bool_decide_eq_false_2 by done. cbn [negb andb].
  pose proof (normalize_names fs dirs ss os Hos) as Hall.
  destruct Hos as [|s o ss os Ho Hos]; [done|]. rewrite fmap_cons in *.
  destruct Hseq as [-> | ->]; cbn [truthy];
    rewrite bool_decide_eq_false_2 by done; cbn [negb first head default id];
    rewrite Ho, Ok_bind; (destruct o as [q|]; [|done]);
    by rewrite (_normalize_path_truthy fs _ _ _ Ho), Hall.
Qed.

Lemma abs_file_paths_value_names_witness :
  abs_file_paths_value scenario_A_host ["/data/run1"; "/home/user"] [] "files"
    (VTuple (VStr <$> ["sample.bam"; "missing.bam"]))
  = Ok (match [Some "/data/run1/sample.bam"; None] with
        | Some _ :: _ =>
            VList (value_of_option
                     <$> [Some "/data/run1/sample.bam"; None])
        | _ => VTuple (VStr <$> ["sample.bam"; "missing.bam"])
        end).
Proof.
  apply (abs_file_paths_value_names scenario_A_host
           ["/data/run1"; "/home/user"] [] "files"
           ["sample.bam"; "missing.bam"]
           [Some "/data/run1/sample.bam"; None] VTuple).
  - apply not_elem_of_nil.
  - discriminate.
  - by right.
  - repeat constructor.
Defined.

(** ** An empty list of base directories *)

(** X14. A call of [abs_file_paths] with an empty list as [base_dirs] goes as
    a call without [base_dirs]: the empty list is taken for no list, a new
    list holds the working directory, and the caller's list stays empty. *)
Theorem abs_file_paths_empty_base_dirs fs items r ignore (h : heap) :
  h !! r = Some [] →
  abs_file_paths fs (VDict items) (Some r) ignore h
  = abs_file_paths fs (VDict items) None ignore h
  ∧ (abs_file_paths fs (VDict items) (Some r) ignore h).2 !! r = Some []
  ∧ (abs_file_paths fs (VDict items) (Some r) ignore h).2
      !! fresh (dom h) = Some [fs_cwd fs].
Proof.
  intros Hr. rewrite abs_file_paths_dict_empty, abs_file_paths_dict_None
    by done.
  split_and!; [done|..]; cbn [snd].
  - rewrite lookup_insert_ne; [done|]. intros <-.
    apply (is_fresh (dom h)). by apply elem_of_dom_2 in Hr.
  - apply lookup_insert_eq.
Qed.

Lemma abs_file_paths_empty_base_dirs_witness :
  let h : heap := {[ 1%positive := [] ]} in
  let xs := VDict [("files", VStr "sample.bam")] in
  abs_file_paths scenario_A_host xs (Some 1%positive) [] h
  = abs_file_paths scenario_A_host xs None [] h
  ∧ (abs_file_paths scenario_A_host xs (Some 1%positive) [] h).2
      !! 1%positive = Some []
  ∧ (abs_file_paths scenario_A_host xs (Some 1%positive) [] h).2
      !! fresh (dom h) = Some [fs_cwd scenario_A_host].
Proof.
  intros h xs.
  apply (abs_file_paths_empty_base_dirs scenario_A_host
           [("files", VStr "sample.bam")] 1%positive [] h).
  reflexivity.
Defined.

(** ** prepare_system when a directory cannot be made *)

Section prepare_system_failure.
Variables datadir docker_biodata_dir : string.

Lemma prepare_system_step_refused mounts d fs :
  fs_refuses fs (resolved_dir datadir fs d) = true →
  fs_exists fs (resolved_dir datadir fs d) = false →
  prepare_system_step datadir docker_biodata_dir mounts d fs
  = (Raise OSError, fs).
Proof.
  intros Href Hex. unfold prepare_system_step.
  rewrite state_bind_run. cbn [read_state].
  fold (resolved_dir datadir fs d). rewrite Hex. cbn [negb].
  rewrite state_bind_run. unfold os_makedirs. by rewrite Hex, Href.
Qed.

Lemma prepare_system_step_exists mounts d fs :
  fs_exists fs (resolved_dir datadir fs d) = true →
  prepare_system_step datadir docker_biodata_dir mounts d fs
  = (Ok (mounts ++ [system_mount datadir docker_biodata_dir fs d]), fs).
Proof.
  intros Hex. unfold prepare_system_step.
  rewrite state_bind_run. cbn [read_state].
  fold (resolved_dir datadir fs d). by rewrite Hex.
Qed.

Lemma prepare_system_loop_Raise names mounts fs e fs' :
  for_each (prepare_system_step datadir docker_biodata_dir) names mounts fs
  = (Raise e, fs') →
  e = OSError ∧ extends fs fs'
  ∧ ∃ d, d ∈ names
         ∧ fs_exists fs' (resolved_dir datadir fs d) = false
         ∧ fs_refuses fs (resolved_dir datadir fs d) = true.
Proof.
  revert mounts fs. induction names as [|d names IH]; intros mounts fs;
    [done|].
  rewrite for_each_cons, state_bind_run.
  assert (∀ mounts1 fs1,
            extends fs fs1 →
            for_each (prepare_system_step datadir docker_biodata_dir) names
              mounts1 fs1 = (Raise e, fs') →
            e = OSError ∧ extends fs fs'
            ∧ ∃ d0, d0 ∈ d :: names
                    ∧ fs_exists fs' (resolved_dir datadir fs d0) = false
                    ∧ fs_refuses fs (resolved_dir datadir fs d0) = true)
    as Hrest.
  { intros mounts1 fs1 Hext (-> & Hext' & d0 & Hd0 & Hex & Href)%IH.
    split_and!; [done|by eapply extends_trans|].
    exists d0. rewrite (system_dir_extends datadir fs fs1) in Hex, Href
      by done.
    rewrite (extends_refuses _ _ Hext) in Href.
    split_and!; [by right|done..]. }
  destruct (fs_refuses fs (resolved_dir datadir fs d)) eqn:Href.
  - destruct (fs_exists fs (resolved_dir datadir fs d)) eqn:Hex.
    + rewrite prepare_system_step_exists by done.
      apply Hrest, extends_refl.
    + rewrite prepare_system_step_refused by done. intros [= <- <-].
      split_and!; [done|apply extends_refl|].
      exists d. split_and!; [by left|done..].
  - destruct (prepare_system_body_run datadir docker_biodata_dir mounts d fs
                Href) as (fs1 & -> & Hext & _).
    by apply Hrest.
Qed.
End prepare_system_failure.

(** X15. [prepare_system] raises nothing but the [OSError] of a directory
    that is missing and that the system refuses to make.  The directories
    made before it stay: everything that existed still exists, and the
    resolved paths and the working directory are as they were. *)
Theorem prepare_system_raises datadir docker_biodata_dir fs e fs' :
  prepare_system datadir docker_biodata_dir fs = (Raise e, fs') →
  e = OSError ∧ extends fs fs'
  ∧ ∃ d, d ∈ system_names
         ∧ fs_exists fs' (resolved_dir datadir fs d) = false
         ∧ fs_refuses fs (resolved_dir datadir fs d) = true.
Proof. rewrite prepare_system_unfold. apply prepare_system_loop_Raise. Qed.

Lemma prepare_system_raises_witness :
  let fs' := (prepare_system "/data/bio" "/usr/local/share/bcbio"
                refusing_host).2 in
  OSError = OSError ∧ extends refusing_host fs'
  ∧ ∃ d, d ∈ system_names
         ∧ fs_exists fs' (resolved_dir "/data/bio" refusing_host d) = false
         ∧ fs_refuses refusing_host (resolved_dir "/data/bio" refusing_host d)
           = true.
Proof.
  intros fs'.
  apply (prepare_system_raises "/data/bio" "/usr/local/share/bcbio"
           refusing_host OSError fs').
  reflexivity.
Defined.

(** On that host the first directory is made before the second is
    refused. *)
Example prepare_system_refused :
  let '(mounts, fs') :=
    prepare_system "/data/bio" "/usr/local/share/bcbio" refusing_host in
  mounts = Raise OSError
  ∧ fs_exists fs' <$> ["/data/bio/genomes"; "/data/bio/liftOver";
                       "/data/bio/gemini_data"; "/data/bio/galaxy"]
    = [true; false; false; false].
Proof. vm_compute. done. Qed.

(** ** Absolute names *)

Lemma _normalize_path_absolute fs x base_dir dirs :
  posixpath.isabs x = true →
  _normalize_path fs (VStr x) (base_dir :: dirs)
  = Ok (if fs_exists fs x
        then Some (posixpath.normpath (fs_realpath fs x)) else None).
Proof.
  intros Hx. revert base_dir.
  induction dirs as [|base_dir' dirs IH]; intros base_dir.
  - cbn. rewrite join_absolute by done. by destruct (fs_exists fs x).
  - change (_normalize_path fs (VStr x) (base_dir :: base_dir' :: dirs))
      with (p ← os_path_join base_dir (VStr x);
            if fs_exists fs p
            then Ok (Some (posixpath.normpath (fs_realpath fs p)))
            else _normalize_path fs (VStr x) (base_dir' :: dirs)).
    cbn [os_path_join]. rewrite Ok_bind, join_absolute, IH by done.
    by destruct (fs_exists fs x).
Qed.

(** X16. An absolute path under a key that is not ignored is looked up as it
    is, whatever the base directories are: when it exists it is replaced by
    its resolved, normalized form, and when it does not it stays as it
    is. *)
Theorem abs_file_paths_value_absolute fs dirs ignore k x :
  dirs ≠ [] → k ∉ ignore → posixpath.isabs x = true →
  abs_file_paths_value fs dirs ignore k (VStr x)
  = Ok (VStr (if fs_exists fs x
              then posixpath.normpath (fs_realpath fs x) else x)).
Proof.
  intros Hdirs Hk Hx. destruct dirs as [|base_dir dirs]; [done|].
  unfold abs_file_paths_value. rewrite bool_decide_eq_false_2 by done.
  cbn [negb andb truthy].
  rewrite bool_decide_eq_false_2 by (by intros ->).
  cbn [negb]. rewrite _normalize_path_absolute, Ok_bind by done.
  destruct (fs_exists fs x); [|done]. cbn [value_of_option truthy].
  rewrite bool_decide_eq_false_2 by apply normpath_nonempty. done.
Qed.

Lemma abs_file_paths_value_absolute_witness :
  abs_file_paths_value scenario_A_host ["/tmp"; "/home/user"] [] "files"
    (VStr "/data/run1/../run1/sample.bam")
  = Ok (VStr (if fs_exists scenario_A_host "/data/run1/../run1/sample.bam"
              then posixpath.normpath
                     (fs_realpath scenario_A_host
                        "/data/run1/../run1/sample.bam")
              else "/data/run1/../run1/sample.bam")).
Proof.
  apply (abs_file_paths_value_absolute scenario_A_host
           ["/tmp"; "/home/user"] [] "files"
           "/data/run1/../run1/sample.bam").
  - discriminate.
  - apply not_elem_of_nil.
  - reflexivity.
Defined.

(** ** The directories that are collected *)

Section collected.
Variable fs : filesystem.

Lemma elem_of_names_of_list (l : list value) s :
  s ∈ omap (λ x, match x with VStr s => Some s | _ => None end) l
  ↔ VStr s ∈ l.
Proof.
  rewrite list_elem_of_omap. split.
  - intros (x & Hx & Hs). destruct x; try done. by injection Hs as ->.
  - intros Hs. by exists (VStr s).
Qed.

Lemma os_path_dirnames_elem_of l ds d :
  list_comp os_path_dirname l = Ok ds →
  d ∈ ds ↔ ∃ s, VStr s ∈ l ∧ d = posixpath.dirname s.
Proof.
  intros Hl%list_comp_Ok. split.
  - intros [i Hi]%list_elem_of_lookup.
    destruct (Forall2_lookup_r _ _ _ _ _ Hl Hi) as (x & Hx & Hd).
    destruct x as [| | |s| | |]; try done. injection Hd as <-.
    exists s. split; [|done]. by eapply list_elem_of_lookup_2.
  - intros (s & [i Hi]%list_elem_of_lookup & ->).
    destruct (Forall2_lookup_l _ _ _ _ _ Hl Hi) as (d & Hd & Hs).
    injection Hs as <-. by eapply list_elem_of_lookup_2.
Qed.

Lemma value_directories_leaf v ds d :
  is_dict v = false → value_directories fs v = Ok ds →
  d ∈ ds
  ↔ path_classified fs v = Ok true
    ∧ ∃ s, s ∈ names_of v ∧ d = posixpath.dirname s.
Proof.
  intros Hd Hv. rewrite value_directories_classified in Hv by done.
  destruct (path_classified fs v) as [[]|] eqn:Hc; try done;
    rewrite Ok_bind in Hv.
  - destruct v as [| | |s|l|l|]; try done.
    + injection Hv as <-. rewrite list_elem_of_singleton. cbn. split.
      * intros ->. split; [done|]. exists s. split; [by left|done].
      * by intros (_ & s' & ->%list_elem_of_singleton & ->).
    + rewrite (os_path_dirnames_elem_of l ds d Hv). cbn [names_of]. split.
      * intros (s & Hs & ->). split; [done|]. exists s.
        by rewrite elem_of_names_of_list.
      * intros (_ & s & Hs & ->). exists s.
        by rewrite <-elem_of_names_of_list.
    + rewrite (os_path_dirnames_elem_of l ds d Hv). cbn [names_of]. split.
      * intros (s & Hs & ->). split; [done|]. exists s.
        by rewrite elem_of_names_of_list.
      * intros (_ & s & Hs & ->). exists s.
        by rewrite <-elem_of_names_of_list.
  - injection Hv as <-. split; [by intros ?%elem_of_nil|by intros [[=] _]].
Qed.

Lemma value_directories_exact v ds d :
  well_formed v = true → value_directories fs v = Ok ds →
  d ∈ ds
  ↔ ∃ ks v0 s,
      lookup_path ks v = Some v0 ∧ is_dict v0 = false
      ∧ path_classified fs v0 = Ok true
      ∧ s ∈ names_of v0 ∧ d = posixpath.dirname s.
Proof.
  revert ds. induction v as [| | |s|l _|l _|items IH] using value_ind;
    intros ds Hwf Hv;
    try (match type of Hv with
         | value_directories fs ?v = _ =>
             rewrite (value_directories_leaf v ds d eq_refl Hv); split;
             [intros (Hc & s0 & Hs0 & ->); by exists [], v, s0
             |intros (ks & v0 & s0 & [-> ->]%lookup_path_leaf & _ & Hc & Hs0
                      & ->); [|done]; split; [done|]; by exists s0]
         end).
  apply well_formed_dict in Hwf as [Hnodup Hwf].
  change (value_directories fs (VDict items))
    with (_get_directories fs (VDict items)) in Hv.
  apply _get_directories_dict_Ok in Hv as (dss & -> & Hdss).
  rewrite Forall_forall in IH, Hwf. rewrite elem_of_concat. split.
  - intros (ds & [i Hi]%list_elem_of_lookup & Hd).
    destruct (Forall2_lookup_r _ _ _ _ _ Hdss Hi) as ([k v] & Hkv & Hv).
    apply list_elem_of_lookup_2 in Hkv.
    destruct (proj1 (IH (k, v) Hkv ds (Hwf (k, v) Hkv) Hv) Hd)
      as (ks & v0 & s & Hlook & Hrest).
    exists (k :: ks), v0, s. split; [|done]. cbn.
    by rewrite (dict_get_elem_of k v items Hnodup Hkv).
  - intros ([|k ks] & v0 & s & Hlook & Hd0 & Hrest).
    { injection Hlook as <-. done. }
    cbn in Hlook. destruct (dict_get k items) as [v|] eqn:Hk; [|done].
    apply dict_get_Some_elem_of in Hk. cbn in Hlook.
    pose proof Hk as [i Hi]%list_elem_of_lookup.
    destruct (Forall2_lookup_l _ _ _ _ _ Hdss Hi) as (ds & Hds & Hv).
    exists ds. split; [by eapply list_elem_of_lookup_2|].
    apply (IH (k, v) Hk ds (Hwf (k, v) Hk) Hv). by exists ks, v0, s.
Qed.
End collected.

(** X17. The directories that [_get_directories] returns for a dict are those
    of its paths, no more and no less: a directory is returned exactly when
    it is the directory of a string that is an existing absolute path, or of
    a string in a list or tuple whose first element exists, found under some
    chain of keys. *)
Theorem get_directories_exact fs items ds d :
  well_formed (VDict items) = true →
  _get_directories fs (VDict items) = Ok ds →
  d ∈ ds
  ↔ ∃ ks v s,
      lookup_path ks (VDict items) = Some v ∧ is_dict v = false
      ∧ path_classified fs v = Ok true
      ∧ s ∈ names_of v ∧ d = posixpath.dirname s.
Proof. exact (value_directories_exact fs (VDict items) ds d). Qed.

Lemma get_directories_exact_witness :
  "/data/run1" ∈ ["/data/run1"]
  ↔ ∃ ks v s,
      lookup_path ks
        (VDict [("files", VStr "/data/run1/sample.bam");
                ("algorithm", VDict [("aligner", VStr "bwa")])])
      = Some v
      ∧ is_dict v = false
      ∧ path_classified scenario_A_host v = Ok true
      ∧ s ∈ names_of v ∧ "/data/run1" = posixpath.dirname s.
Proof.
  apply (get_directories_exact scenario_A_host
           [("files", VStr "/data/run1/sample.bam");
            ("algorithm", VDict [("aligner", VStr "bwa")])]
           ["/data/run1"] "/data/run1"); reflexivity.
Defined.

(** ** A file name, from the configuration to the container *)

Section end_to_end.
Variable fs : filesystem.

Lemma absolutize_detail_with_file dirs items d' k x q :
  well_formed (VDict items) = true →
  absolutize_detail_with fs dirs (VDict items) = Ok d' →
  dict_get k items = Some (VStr x) → x ≠ "" →
  k ∉ top_ignore → k ≠ "algorithm" →
  _normalize_path fs (VStr x) dirs = Ok (Some q) →
  ∃ items', d' = VDict items' ∧ dict_get k items' = Some (VStr q).
Proof.
  intros Hwf Hd' Hk Hx Hign Halg Hq. unfold absolutize_detail_with in Hd'.
  apply bind_Ok in Hd' as (d1 & Hd1 & H).
  apply bind_Ok in H as (alg & _ & H).
  apply bind_Ok in H as (alg' & _ & Hset).
  apply well_formed_dict in Hwf as [Hnodup _].
  apply abs_file_paths_with_dict_Ok in Hd1 as (items1 & -> & Hitems); [|done].
  injection Hset as <-. eexists. split; [done|].
  rewrite dict_get_set, decide_False by done.
  apply (Forall2_dict_get_key
           (λ k v v', abs_file_paths_value fs dirs top_ignore k v = Ok v')
           _ _ k) in Hitems.
  rewrite Hk in Hitems. destruct Hitems as (v' & -> & Hv'). f_equal.
  unfold abs_file_paths_value in Hv'.
  rewrite bool_decide_eq_false_2 in Hv' by done.
  cbn [negb andb truthy] in Hv'.
  rewrite bool_decide_eq_false_2 in Hv' by done. cbn [negb] in Hv'.
  rewrite Hq, Ok_bind, (_normalize_path_truthy fs _ _ _ Hq) in Hv'.
  by injection Hv' as <-.
Qed.
End end_to_end.

(** X18. A file named under a key of a sample goes through [update_config]
    to the container.  When the name is found under the base directories as
    the existing absolute path [q], the sample that is returned holds, under
    the same key, the file of that name in a mount point, and the mount
    specs that are returned bind the directory of [q] to that mount
    point. *)
Theorem update_config_mounts_file fs args config input_dir (h h' : heap)
    config' specs details samples (j : nat) items k x q :
  update_config fs args config input_dir h = (Ok (config', specs), h') →
  getitem config "details" = Ok details →
  iter_value details = Ok samples →
  samples !! j = Some (VDict items) →
  well_formed (VDict items) = true →
  dict_get k items = Some (VStr x) → x ≠ "" →
  k ∉ top_ignore → k ≠ "algorithm" →
  _normalize_path fs (VStr x) (search_dirs fs args) = Ok (Some q) →
  fs_exists fs q = true → posixpath.isabs q = true →
  ∃ remapped out m,
    getitem config' "details" = Ok (VList remapped)
    ∧ remapped !! j = Some out
    ∧ getitem out k = Ok (VStr (posixpath.join m (posixpath.split q).2))
    ∧ posixpath.dirname q +:+ ":" +:+ m ∈ specs.
Proof.
  intros Hrun Hdetails Hsamples Hj Hwf Hk Hx Hign Halg Hq Hex Habs.
  pose proof (update_config_run fs args config input_dir h) as H.
  rewrite Hrun in H. symmetry in H.
  apply update_config_with_Ok
    in H as (details' & samples' & absdetails & directories & remapped
             & Hdetails' & Hsamples' & Habsd & Hremap & Hset & ->).
  rewrite Hdetails in Hdetails'. injection Hdetails' as <-.
  rewrite Hsamples in Hsamples'. injection Hsamples' as <-.
  apply absolutize_details_with_Ok in Habsd as (ds & _ & -> & _ & Hds & _).
  destruct (Forall2_lookup_l _ _ _ _ _ Hds Hj) as (d' & Hd' & Habs').
  destruct (Forall2_lookup_l _ _ _ _ _ Hremap Hd') as (out & Hout & Hremap').
  pose proof (absolutize_detail_with_well_formed fs _ _ _ Hwf Habs') as Hwf'.
  destruct (absolutize_detail_with_file fs _ _ _ _ _ _ Hwf Habs' Hk Hx Hign
              Halg Hq) as (items' & -> & Hk').
  apply _remap_directories_remapped in Hremap' as (_ & _ & Hleaves); [|done].
  destruct (Hleaves [k] (VStr q)) as (v1 & Hv1 & Hremapped); [|done|].
  { cbn. by rewrite Hk'. }
  cbn [remap_value truthy] in Hremapped. rewrite Hex, Habs in Hremapped.
  rewrite bool_decide_eq_false_2 in Hremapped by (by intros ->).
  apply remap_path_Ok in Hremapped as (s' & m & [= <-] & Hm & ->).
  exists remapped, out, m. split_and!.
  - by apply getitem_setitem in Hset as [? _].
  - done.
  - destruct out as [| | | | | |fields]; try done. cbn in Hv1 |- *.
    destruct (dict_get k fields); [|done]. cbn in Hv1. by injection Hv1 as ->.
  - unfold mount_specs. apply list_elem_of_fmap.
    exists (posixpath.dirname q, m). split; [done|].
    by apply dict_get_Some_elem_of.
Qed.

Lemma update_config_mounts_file_witness :
  ∃ remapped out m,
    getitem second_run_remapped "details" = Ok (VList remapped)
    ∧ remapped !! 0%nat = Some out
    ∧ getitem out "files"
      = Ok (VStr (posixpath.join m
                    (posixpath.split "/data/run1/sample.bam").2))
    ∧ posixpath.dirname "/data/run1/sample.bam" +:+ ":" +:+ m
      ∈ ["/data/run1:/mnt/in/0"].
Proof.
  apply (update_config_mounts_file second_run_host scenario_A_args
           second_run_config "/mnt/in" ∅
           (update_config second_run_host scenario_A_args second_run_config
              "/mnt/in" ∅).2
           second_run_remapped ["/data/run1:/mnt/in/0"]
           (VList [VDict [("files", VStr "/data/run1/sample.bam");
                          ("algorithm", VDict [("aligner", VStr "bwa")])]])
           [VDict [("files", VStr "/data/run1/sample.bam");
                   ("algorithm", VDict [("aligner", VStr "bwa")])]]
           0
           [("files", VStr "/data/run1/sample.bam");
            ("algorithm", VDict [("aligner", VStr "bwa")])]
           "files" "/data/run1/sample.bam" "/data/run1/sample.bam");
    try reflexivity; try discriminate.
  apply (bool_decide_eq_true _). reflexivity.
Defined.

(** ** What abs_file_paths leaves alone *)

Section kept.
Variable fs : filesystem.

Lemma abs_file_paths_run items base_dirs ignore (h : heap) :
  ∃ dirs,
    (abs_file_paths fs (VDict items) base_dirs ignore h).1
    = abs_file_paths_with fs dirs ignore (VDict items).
Proof.
  unfold abs_file_paths, abs_file_paths_with, dict_for.
  unfold mbind, state_bind, list_read, list_append, lift, mret, state_ret,
    new_list.
  destruct base_dirs as [r|]; [destruct (bool_decide (h !!! r = []))|];
    by eexists.
Qed.

Lemma abs_file_paths_value_kept dirs ignore k v :
  may_name_files v = false ∨ k ∈ ignore →
  abs_file_paths_value fs dirs ignore k v = Ok v.
Proof.
  intros [Hv|Hk]; [|by apply abs_file_paths_value_ignored].
  unfold abs_file_paths_value. destruct (negb _); [|done]. cbn [andb].
  destruct v; cbn [may_name_files] in Hv; rewrite ?Hv; try done;
    by destruct (truthy _).
Qed.
End kept.

(** X19. [abs_file_paths] returns a dict with the keys of the one it is
    given, in the same order, and looks at nothing but the strings, lists
    and tuples that are the values of its keys: a value that is a dict, a
    number, [None], an empty string or an empty list, or the value of an
    ignored key, is returned as it is.  It does not go into a dict that is
    the value of a key. *)
Theorem abs_file_paths_keeps_keys fs items base_dirs ignore (h : heap) out :
  NoDup (dict_keys items) →
  (abs_file_paths fs (VDict items) base_dirs ignore h).1 = Ok out →
  ∃ items',
    out = VDict items'
    ∧ dict_keys items' = dict_keys items
    ∧ ∀ k v, dict_get k items = Some v →
        may_name_files v = false ∨ k ∈ ignore →
        dict_get k items' = Some v.
Proof.
  intros Hnodup Hout.
  destruct (abs_file_paths_run fs items base_dirs ignore h) as [dirs Hrun].
  rewrite Hrun in Hout.
  apply abs_file_paths_with_dict_Ok in Hout as (items' & -> & Hitems);
    [|done].
  exists items'. split_and!; [done| |].
  { apply (Forall2_dict_keys (λ _ _, True)).
    eapply Forall2_impl; [done|]. by intros ?? [? _]. }
  intros k v Hk Hv.
  apply (Forall2_dict_get_key
           (λ k v v', abs_file_paths_value fs dirs ignore k v = Ok v')
           _ _ k) in Hitems.
  rewrite Hk in Hitems. destruct Hitems as (v' & -> & Hv').
  rewrite abs_file_paths_value_kept in Hv' by done. by injection Hv' as <-.
Qed.

Lemma abs_file_paths_keeps_keys_witness :
  ∃ items',
    VDict [("files", VStr "/home/user/sample.bam"); ("lane", VInt 3);
           ("algorithm", VDict [("ref", VStr "sample.bam")])]
    = VDict items'
    ∧ dict_keys items' = ["files"; "lane"; "algorithm"]
    ∧ ∀ k v,
        dict_get k [("files", VStr "sample.bam"); ("lane", VInt 3);
                    ("algorithm", VDict [("ref", VStr "sample.bam")])]
        = Some v →
        may_name_files v = false ∨ k ∈ @nil string →
        dict_get k items' = Some v.
Proof.
  apply (abs_file_paths_keeps_keys working_dir_host
           [("files", VStr "sample.bam"); ("lane", VInt 3);
            ("algorithm", VDict [("ref", VStr "sample.bam")])]
           None [] ∅).
  - apply (bool_decide_eq_true _). reflexivity.
  - reflexivity.
Defined.

(** ** Lists of files *)

(** X20. In the tree that [_remap_directories] returns for a dict, a list or
    tuple whose first element exists is found under the same keys as a list
    of the same length: each of its strings has become the file of the same
    name in a mount point, and the mount specs built from the mapping bind
    the directory of the string to that mount point. *)
Theorem remapped_names_are_mounted fs mounts items out ks v l :
  well_formed (VDict items) = true →
  _remap_directories fs (VDict items) mounts = Ok out →
  lookup_path ks (VDict items) = Some v →
  v = VList l ∨ v = VTuple l →
  path_classified fs v = Ok true →
  ∃ l',
    lookup_path ks out = Some (VList l')
    ∧ Forall2
        (λ x y, ∃ s m,
           x = VStr s
           ∧ y = VStr (posixpath.join m (posixpath.split s).2)
           ∧ posixpath.dirname s +:+ ":" +:+ m ∈ mount_specs mounts)
        l l'.
Proof.
  intros Hwf Hout Hv Hl Hc.
  apply _remap_directories_remapped in Hout as (_ & _ & Hleaves); [|done].
  destruct (Hleaves ks v Hv) as (v1 & Hv1 & Hremap);
    [by destruct Hl as [-> | ->]|].
  rewrite remap_value_classified, Hc, Ok_bind in Hremap
    by (by destruct Hl as [-> | ->]).
  assert (VList <$> list_comp (remap_path mounts) l = Ok v1) as Hl'
    by (by destruct Hl as [-> | ->]).
  apply fmap_Ok in Hl' as (l' & Hl'%list_comp_Ok & ->).
  exists l'. split; [done|].
  eapply Forall2_impl; [done|]. intros x y (s & m & -> & Hm & ->)%remap_path_Ok.
  exists s, m. split_and!; [done..|]. unfold mount_specs.
  apply list_elem_of_fmap. exists (posixpath.dirname s, m).
  split; [done|]. by apply dict_get_Some_elem_of.
Qed.

Lemma remapped_names_are_mounted_witness :
  ∃ l',
    lookup_path ["files"]
      (VDict [("files", VList [VStr "/mnt/in/0/a.bam";
                               VStr "/mnt/in/0/b.bam"])])
    = Some (VList l')
    ∧ Forall2
        (λ x y, ∃ s m,
           x = VStr s
           ∧ y = VStr (posixpath.join m (posixpath.split s).2)
           ∧ posixpath.dirname s +:+ ":" +:+ m
             ∈ mount_specs (allocate_mounts "/mnt/in" ["/data/run1"]))
        [VStr "/data/run1/a.bam"; VStr "/data/run1/b.bam"] l'.
Proof.
  apply (remapped_names_are_mounted
           (literal_host "/home/user"
              ["/data/run1/a.bam"; "/data/run1/b.bam"])
           (allocate_mounts "/mnt/in" ["/data/run1"])
           [("files", VList [VStr "/data/run1/a.bam";
                             VStr "/data/run1/b.bam"])]
           _ ["files"]
           (VList [VStr "/data/run1/a.bam"; VStr "/data/run1/b.bam"]));
    try reflexivity.
  by left.
Defined.

Section missing_element.
Variable fs : filesystem.

Lemma absolutize_detail_with_key dirs items d' k v v' :
  well_formed (VDict items) = true →
  absolutize_detail_with fs dirs (VDict items) = Ok d' →
  dict_get k items = Some v → k ≠ "algorithm" →
  abs_file_paths_value fs dirs top_ignore k v = Ok v' →
  ∃ items', d' = VDict items' ∧ dict_get k items' = Some v'.
Proof.
  intros Hwf Hd' Hk Halg Hv. unfold absolutize_detail_with in Hd'.
  apply bind_Ok in Hd' as (d1 & Hd1 & H).
  apply bind_Ok in H as (alg & _ & H).
  apply bind_Ok in H as (alg' & _ & Hset).
  apply well_formed_dict in Hwf as [Hnodup _].
  apply abs_file_paths_with_dict_Ok in Hd1 as (items1 & -> & Hitems); [|done].
  injection Hset as <-. eexists. split; [done|].
  rewrite dict_get_set, decide_False by done.
  apply (Forall2_dict_get_key
           (λ k v v', abs_file_paths_value fs dirs top_ignore k v = Ok v')
           _ _ k) in Hitems.
  rewrite Hk in Hitems. destruct Hitems as (v'' & -> & Hv'). congruence.
Qed.

Lemma abs_file_paths_value_found dirs ignore k seq s0 ss q os :
  k ∉ ignore → seq = VList ∨ seq = VTuple →
  _normalize_path fs (VStr s0) dirs = Ok (Some q) →
  Forall2 (λ s o, _normalize_path fs (VStr s) dirs = Ok o) ss os →
  abs_file_paths_value fs dirs ignore k (seq (VStr <$> s0 :: ss))
  = Ok (VList (value_of_option <$> Some q :: os)).
Proof.
  intros Hk Hseq Hq Hos. unfold abs_file_paths_value.
  rewrite bool_decide_eq_false_2 by done. cbn [negb andb].
  assert (Forall2 (λ s o, _normalize_path fs (VStr s) dirs = Ok o)
            (s0 :: ss) (Some q :: os)) as Hall by (by constructor).
  apply normalize_names in Hall. rewrite fmap_cons in *.
  destruct Hseq as [-> | ->]; cbn [truthy];
    rewrite bool_decide_eq_false_2 by done; cbn [negb first head default id];
    by rewrite Hq, Ok_bind, (_normalize_path_truthy fs _ _ _ Hq), Hall.
Qed.

Lemma value_directories_None l :
  path_classified fs (VList l) = Ok true → VNone ∈ l →
  is_Raise (value_directories fs (VList l)).
Proof.
  intros Hc Hl. rewrite value_directories_classified, Hc, Ok_bind by done.
  apply (list_comp_Raise os_path_dirname l VNone Hl). by eexists.
Qed.
End missing_element.

(** X21. A list of names of which the first is found and another is found
    nowhere stops [update_config].  [abs_file_paths] puts [None] in the
    place of the name that is not found; the list still begins with an
    existing path, so [_get_directories] takes the directory of each of its
    elements, and [os.path.dirname] raises on [None]. *)
Theorem update_config_missing_name fs args config input_dir (h : heap)
    details samples (j : nat) items k seq ss s0 q s :
  getitem config "details" = Ok details →
  iter_value details = Ok samples →
  samples !! j = Some (VDict items) →
  well_formed (VDict items) = true →
  dict_get k items = Some (seq (VStr <$> ss)) →
  seq = VList ∨ seq = VTuple →
  k ∉ top_ignore → k ≠ "algorithm" →
  head ss = Some s0 →
  _normalize_path fs (VStr s0) (search_dirs fs args) = Ok (Some q) →
  fs_exists fs q = true →
  s ∈ ss →
  _normalize_path fs (VStr s) (search_dirs fs args) = Ok None →
  is_Raise (update_config fs args config input_dir h).1.
Proof.
  intros Hdetails Hsamples Hj Hwf Hk Hseq Hign Halg Hs0 Hq Hex Hs HNone.
  rewrite update_config_run.
  destruct (update_config_with fs _ config input_dir)
    as [[config' specs]|e] eqn:Hrun; [|by eexists].
  exfalso.
  apply update_config_with_Ok
    in Hrun as (details' & samples' & absdetails & directories & remapped
                & Hdetails' & Hsamples' & Habsd & _).
  rewrite Hdetails in Hdetails'. injection Hdetails' as <-.
  rewrite Hsamples in Hsamples'. injection Hsamples' as <-.
  apply absolutize_details_with_Ok in Habsd as (ds & dss & _ & _ & Hds & Hdss).
  destruct (Forall2_lookup_l _ _ _ _ _ Hds Hj) as (d' & Hd' & Habs').
  destruct (Forall2_lookup_l _ _ _ _ _ Hdss Hd') as (ds' & _ & Hget).
  assert (∃ os, Forall2 (λ s o, _normalize_path fs (VStr s)
                                  (search_dirs fs args) = Ok o) ss os)
    as [os Hos].
  { clear. induction ss as [|s ss [os IH]]; [by exists []|].
    destruct (_normalize_path_str fs s (search_dirs fs args)) as [o Ho].
    exists (o :: os). by constructor. }
  destruct Hos as [|s1 o1 ss os Ho1 Hos]; [done|].
  injection Hs0 as ->. rewrite Hq in Ho1. injection Ho1 as <-.
  pose proof (abs_file_paths_value_found fs _ top_ignore k seq s0 ss q os Hign
                Hseq Hq Hos) as Hv.
  destruct (absolutize_detail_with_key fs _ _ _ _ _ _ Hwf Habs' Hk Halg Hv)
    as (items' & -> & Hk').
  apply _get_directories_dict_Ok in Hget as (dss' & _ & Hdss').
  apply dict_get_Some_elem_of, list_elem_of_lookup in Hk' as [i Hi].
  destruct (Forall2_lookup_l _ _ _ _ _ Hdss' Hi) as (ds0 & _ & Hds0).
  cbn [snd] in Hds0.
  destruct (value_directories_None fs
              (value_of_option <$> Some q :: os)) as [e He].
  - cbn. by rewrite Hex.
  - apply elem_of_cons in Hs as [->|Hs]; [congruence|].
    right. apply list_elem_of_lookup in Hs as [n Hn].
    destruct (Forall2_lookup_l _ _ _ _ _ Hos Hn) as (o & Ho & Hso).
    rewrite HNone in Hso. injection Hso as <-.
    apply list_elem_of_fmap. exists None. split; [done|].
    by eapply list_elem_of_lookup_2.
  - congruence.
Qed.

Lemma update_config_missing_name_witness :
  is_Raise (update_config one_file_host scenario_A_args two_files_config
              "/mnt/in" ∅).1.
Proof.
  apply (update_config_missing_name one_file_host scenario_A_args
           two_files_config "/mnt/in" ∅
           (VList [VDict [("files", VList [VStr "/data/run1/a.bam";
                                           VStr "/data/run1/b.bam"]);
                          ("algorithm", VDict [("aligner", VStr "bwa")])]])
           [VDict [("files", VList [VStr "/data/run1/a.bam";
                                    VStr "/data/run1/b.bam"]);
                   ("algorithm", VDict [("aligner", VStr "bwa")])]]
           0
           [("files", VList [VStr "/data/run1/a.bam";
                             VStr "/data/run1/b.bam"]);
            ("algorithm", VDict [("aligner", VStr "bwa")])]
           "files" VList ["/data/run1/a.bam"; "/data/run1/b.bam"]
           "/data/run1/a.bam" "/data/run1/a.bam" "/data/run1/b.bam");
    try reflexivity; try discriminate.
  - by left.
  - apply (bool_decide_eq_true _). reflexivity.
  - apply list_elem_of_further, list_elem_of_here.
Defined.

(** On that host the exception is the [AttributeError] of
    [os.path.dirname(None)]. *)
Example update_config_one_file_missing :
  (update_config one_file_host scenario_A_args two_files_config
     "/mnt/in" ∅).1
  = Raise AttributeError.
Proof. vm_compute. reflexivity. Qed.

(** ** cluster.py: the report on the playbooks *)

Lemma process_playbook_response_foldl response status report :
  foldl (λ '(status, report) '(playbook, playbook_info),
           let status :=
             if negb (truthy (cluster.status playbook_info)) then false
             else status in
           (status, report ++ [playbook_section playbook playbook_info]))
    (status, report) response
  = (status && forallb (λ '(_, info), truthy (cluster.status info)) response,
     report ++ ((λ '(playbook, info), playbook_section playbook info)
                  <$> response)).
Proof.
  revert status report.
  induction response as [|[playbook info] response IH]; intros status report.
  { cbn. by rewrite andb_true_r, app_nil_r. }
  cbn [foldl]. rewrite IH. cbn. rewrite <-app_assoc. f_equal.
  destruct (truthy (cluster.status info)), status; cbn; try done.
Qed.

Lemma process_playbook_response_eq response :
  cluster.CommandMixin._process_playbook_response response
  = (forallb (λ '(_, info), truthy (cluster.status info)) response,
     (λ '(playbook, info), playbook_section playbook info) <$> response).
Proof. apply (process_playbook_response_foldl response true []). Qed.

(** X22. The status that [_process_playbook_response] returns is [True]
    exactly when the status of every playbook of the response is true: one
    playbook that failed makes it [False], whatever comes after it, and an
    empty response gives [True]. *)
Theorem process_playbook_response_status response :
  (cluster.CommandMixin._process_playbook_response response).1 = true
  ↔ ∀ playbook info, (playbook, info) ∈ response →
      truthy (cluster.status info) = true.
Proof.
  rewrite process_playbook_response_eq. cbn [fst].
  rewrite List.forallb_forall. split.
  - intros H playbook info Hin%list_elem_of_In. by apply (H (playbook, info)).
  - intros H [playbook info] Hin%list_elem_of_In. by eapply H.
Qed.

(** X23. The report that [_process_playbook_response] returns has one section
    for each playbook of the response, in the order of the response and
    whether the playbook failed or not; the section is named after the
    playbook and holds one item, the playbook with its unreachable hosts and
    its failures. *)
Theorem process_playbook_response_report response :
  let report := (cluster.CommandMixin._process_playbook_response response).2 in
  report = (λ '(playbook, info), playbook_section playbook info) <$> response
  ∧ cluster.name <$> report = dict_keys response
  ∧ Forall (λ section, length (cluster.items section) = 1) report.
Proof.
  rewrite process_playbook_response_eq. cbn [snd]. split_and!; [done|..].
  - unfold dict_keys. rewrite <-list_fmap_compose.
    apply list_fmap_ext. by intros _ [playbook info] _.
  - apply Forall_fmap, Forall_forall. by intros [playbook info] _.
Qed.

(** ** cluster.py: the commands *)

Ltac run_command :=
  unfold mbind, state_bind, cluster.get_args, cluster.call,
    cluster.set_econfig, mret, state_ret;
  cbn [cluster.self_args cluster.trace cluster.econfig cluster.provider
       cluster.cluster cluster.no_reboot cluster.script cluster.args
       fst snd].

(** X24. [Start.work] calls [bootstrap] exactly when [start] has returned the
    status 0: after a failed start the provider is not called again. *)
Theorem Start_bootstraps_after_start env s :
  existsb is_bootstrap (new_events s (cluster.Start.work env s).2)
  = (cluster.start_status env (started env s) =? 0)%Z.
Proof.
  destruct s as [[p e c n sc ar] t].
  unfold cluster.Start.work, started, effective_econfig, new_events.
  run_command.
  destruct (cluster.is_None e) eqn:He; run_command;
    rewrite <-!app_assoc; cbn [app];
    (destruct (_ =? _)%Z; cbn [negb]; run_command;
     [destruct (cluster.CommandMixin._process_playbook_response _)
        as [[] report]; run_command|]);
    rewrite <-?app_assoc; by rewrite drop_app_length.
Qed.

Lemma forallb_false {A} (f : A → bool) l :
  forallb f l = false ↔ ∃ x, x ∈ l ∧ f x = false.
Proof.
  induction l as [|x l IH]; cbn.
  - split; [done|by intros (? & ?%elem_of_nil & _)].
  - rewrite andb_false_iff, IH. split.
    + intros [Hx|(y & Hy & Hf)]; [exists x|exists y]; (split; [|done]);
        [by left|by right].
    + intros (y & [->|Hy]%elem_of_cons & Hf); [by left|right; eauto].
Qed.

(** X25. [Bootstrap.work] prints the report exactly when a playbook of the
    response has failed. *)
Theorem Bootstrap_prints_on_failure env s :
  existsb is_print (new_events s (cluster.Bootstrap.work env s).2) = true
  ↔ ∃ playbook info,
      (playbook, info) ∈ cluster.bootstrap_response env (bootstrapped env s)
      ∧ truthy (cluster.status info) = false.
Proof.
  destruct s as [[p e c n sc ar] t].
  unfold cluster.Bootstrap.work, bootstrapped, effective_econfig, new_events.
  run_command.
  assert (∀ response,
    (cluster.CommandMixin._process_playbook_response response).1 = false
    ↔ ∃ playbook info, (playbook, info) ∈ response
                       ∧ truthy (cluster.status info) = false) as Hfailed.
  { intros response. rewrite process_playbook_response_eq. cbn [fst].
    rewrite forallb_false. split.
    - intros ([playbook info] & ? & ?). by exists playbook, info.
    - intros (playbook & info & ? & ?). by exists (playbook, info). }
  destruct (cluster.is_None e) eqn:He; run_command;
    rewrite <-!app_assoc; cbn [app]; rewrite <-Hfailed;
    destruct (cluster.CommandMixin._process_playbook_response _)
      as [[] report]; run_command;
    rewrite <-?app_assoc; by rewrite drop_app_length.
Qed.

Ltac run_branches :=
  repeat first
    [ progress run_command
    | progress cbn [negb]
    | match goal with
      | |- context [(?x =? 0)%Z] => destruct (x =? 0)%Z
      | |- context [cluster.CommandMixin._process_playbook_response ?r] =>
          destruct (cluster.CommandMixin._process_playbook_response r)
            as [[] ?]
      end ].

(** X26. Each of the six commands works with one configuration file, the
    one given on the command line or else the default of the provider: when
    the command is over [self.args.econfig] holds it and is not [None], and
    every call the command has made to the provider was given it, with the
    cluster name of the command line.  The calls made before the command
    are still there, in order. *)
Theorem commands_use_effective_econfig env work s :
  work ∈ cluster_commands env →
  let s' := (work s).2 in
  let args := cluster.self_args s in
  cluster.econfig (cluster.self_args s') = effective_econfig env args
  ∧ cluster.is_None (cluster.econfig (cluster.self_args s')) = false
  ∧ cluster.trace s' = cluster.trace s ++ new_events s s'
  ∧ ∀ e c config,
      e ∈ new_events s s' → provider_call e = Some (c, config) →
      c = cluster.cluster args ∧ config = effective_econfig env args.
Proof.
  intros Hwork s' args. subst s' args. destruct s as [[p e c n sc ar] t].
  unfold cluster_commands in Hwork.
  repeat (apply elem_of_cons in Hwork as [->|Hwork]);
    [..|by apply elem_of_nil in Hwork];
    unfold cluster.Bootstrap.work, cluster.Command.work, cluster.Setup.work,
      cluster.Start.work, cluster.Stop.work, cluster.SSHConnection.work,
      effective_econfig, new_events;
    run_command;
    (destruct (cluster.is_None e) eqn:He; run_branches;
     rewrite <-?app_assoc, drop_app_length; cbn [app];
     (split_and!; [done..|]);
     intros e0 c0 config He0 Hcall;
     repeat (apply elem_of_cons in He0 as [->|He0]);
     try (by apply elem_of_nil in He0);
     try done; by injection Hcall as <- <-).
Qed.

Lemma commands_use_effective_econfig_witness :
  let env := quiet_environment in
  let s := fresh_session in
  let s' := (cluster.Start.work env s).2 in
  let args := cluster.self_args s in
  cluster.econfig (cluster.self_args s') = effective_econfig env args
  ∧ cluster.is_None (cluster.econfig (cluster.self_args s')) = false
  ∧ cluster.trace s' = cluster.trace s ++ new_events s s'
  ∧ ∀ e c config,
      e ∈ new_events s s' → provider_call e = Some (c, config) →
      c = cluster.cluster args ∧ config = effective_econfig env args.
Proof.
  intros env s.
  apply (commands_use_effective_econfig env (cluster.Start.work env) s).
  do 3 apply list_elem_of_further. apply list_elem_of_here.
Defined.

(** On that command line [start] is followed by [bootstrap] with a reboot,
    both on the default configuration of the provider. *)
Example Start_work_quiet :
  cluster.Start.work quiet_environment fresh_session
  = (Ok VNone,
     {| cluster.self_args :=
          {| cluster.provider := "aws";
             cluster.econfig := VStr "aws.config";
             cluster.cluster := "bcbio"; cluster.no_reboot := false;
             cluster.script := ""; cluster.args := [] |};
        cluster.trace :=
          [cluster.cloud_factory_get "aws";
           cluster.provider_start "bcbio" (VStr "aws.config") false;
           cluster.provider_bootstrap "bcbio" (VStr "aws.config") true;
           cluster.LOG_debug "All playbooks runned without problems."] |}).
Proof. reflexivity. Qed.

(** ** factory.py *)

